(** * Verification of the content-acquisition core of [src/app.py]

    A shallow embedding of the identifier extractor, the metadata, transcript
    and media resolvers, the browser session and the scraping page of
    [src/app.py], with the properties the specification states about them.
    Further modules embed the configuration manager, the proxy list, the
    social media manager, the start-up of the application, the blog writer
    and the channel-growth manager of the same file, with properties read
    off the code.

    Conventions.
    - A Python [str] is a Rocq [string]; the embedding covers strings whose
      code points are below 256.
    - A call that may raise returns a [result]: [Ok v] when it returns [v],
      [Raise e] when it raises [e].  [Unmodelled] marks the library
      behaviours this development does not describe (see [Urllib],
      [Config], [Startup] and [Blog]); it is neither caught nor turned into
      a value by any handler.
    - Calls to services outside the program (the video API, the caption
      service, the browser, the download tools) take their outcome from an
      explicit environment value; the files on disk are a finite map.
    - The metadata resolver and the transcript reader are embedded twice
      over: the value of a call ([get_video_info], [get_transcript]) and
      the records the same call hands to [logger]
      ([get_video_info_records], [get_transcript_records]); the page takes
      both ([logged]).
    - [time.sleep] and the options handed to the tools leave no trace here;
      [driver.quit()] closes its browser and does not raise. *)

From Stdlib Require Import String Ascii List ZArith NArith QArith Lia Bool DecimalString
  Sorted.
From stdpp Require Import gmap strings list fin_maps.

Import ListNotations.
Local Open Scope string_scope.
Set Warnings "-register-all".

(** ** Python values: exceptions, results and [str] methods *)

Module Py.

(** An exception object: its class name and [str(e)]. *)
Inductive exn : Type := Exn (cls : string) (msg : string).

Definition exn_str (e : exn) : string := let 'Exn _ m := e in m.

Definition ValueError (msg : string) : exn := Exn "ValueError" msg.

Inductive result (A : Type) : Type :=
| Ok (a : A)
| Raise (e : exn)
| Unmodelled.

Arguments Ok {A} a.
Arguments Raise {A} e.
Arguments Unmodelled {A}.

Definition bind {A B : Type} (r : result A) (k : A -> result B) : result B :=
  match r with
  | Ok a => k a
  | Raise e => Raise e
  | Unmodelled => Unmodelled
  end.

(** [try: r  except Exception as e: h e] *)
Definition try_except {A : Type} (r : result A) (h : exn -> result A) : result A :=
  match r with
  | Ok a => Ok a
  | Raise e => h e
  | Unmodelled => Unmodelled
  end.

Notation "'do' x <- e ; k" := (bind e (fun x => k))
  (at level 10, x name, e at level 100, k at level 200, only parsing).

(** What a service outside the program answers: a value or an exception. *)
Inductive answer (A : Type) : Type :=
| Returns (a : A)
| Raises (e : exn).

Arguments Returns {A} a.
Arguments Raises {A} e.

Definition call {A : Type} (a : answer A) : result A :=
  match a with
  | Returns v => Ok v
  | Raises e => Raise e
  end.

Definition chr (n : nat) : ascii := ascii_of_nat n.
Definition ord (c : ascii) : nat := nat_of_ascii c.

Definition TAB : ascii := chr 9.
Definition LF : ascii := chr 10.
Definition CR : ascii := chr 13.

Definition str1 (c : ascii) : string := String c EmptyString.

(** [c in s] for a one-character [c]. *)
Fixpoint has_char (c : ascii) (s : string) : bool :=
  match s with
  | EmptyString => false
  | String a s' => if Ascii.eqb a c then true else has_char c s'
  end.

(** [s.startswith(p)] *)
Fixpoint startswith (p s : string) : bool :=
  match p with
  | EmptyString => true
  | String a p' =>
      match s with
      | EmptyString => false
      | String b s' => if Ascii.eqb a b then startswith p' s' else false
      end
  end.

(** [sub in s] *)
Fixpoint contains (sub s : string) : bool :=
  if startswith sub s then true
  else match s with
       | EmptyString => false
       | String _ s' => contains sub s'
       end.

(** [s[n:]] *)
Fixpoint drop (n : nat) (s : string) : string :=
  match n with
  | O => s
  | S n' => match s with
            | EmptyString => EmptyString
            | String _ s' => drop n' s'
            end
  end.

(** [s[:n]] *)
Fixpoint take (n : nat) (s : string) : string :=
  match n with
  | O => EmptyString
  | S n' => match s with
            | EmptyString => EmptyString
            | String a s' => String a (take n' s')
            end
  end.

(** [s.endswith(p)] *)
Definition endswith (p s : string) : bool :=
  String.eqb (drop (String.length s - String.length p) s) p
  && (String.length p <=? String.length s)%nat.

(** The longest prefix of [s] with no character satisfying [stop], and the
    rest of [s] (which is empty or starts with such a character). *)
Fixpoint break_at (stop : ascii -> bool) (s : string) : string * string :=
  match s with
  | EmptyString => (EmptyString, EmptyString)
  | String a s' =>
      if stop a then (EmptyString, s)
      else let '(l, r) := break_at stop s' in (String a l, r)
  end.

(** [s.split(c, 1)] when [c in s], and [(s, "")] otherwise: the text before
    the first [c] and the text after it. *)
Definition partition1 (c : ascii) (s : string) : string * string :=
  let '(l, r) := break_at (Ascii.eqb c) s in (l, drop 1 r).

(** [s.split(sep)] for a non-empty [sep]: the pieces between the
    non-overlapping occurrences of [sep], scanned from the left.  [skip]
    counts the characters of an occurrence still to be passed over and [acc]
    is the piece read so far. *)
Fixpoint split_aux (sep s : string) (skip : nat) (acc : string) : list string :=
  match s with
  | EmptyString => [acc]
  | String a s' =>
      match skip with
      | S k => split_aux sep s' k acc
      | O =>
          if startswith sep s
          then acc :: split_aux sep s' (String.length sep - 1) EmptyString
          else split_aux sep s' O (acc +:+ str1 a)
      end
  end.

Definition split (sep s : string) : list string := split_aux sep s O EmptyString.

(** [s.replace(old, new)] for a non-empty [old]. *)
Fixpoint replace_aux (old new s : string) (skip : nat) : string :=
  match s with
  | EmptyString => EmptyString
  | String a s' =>
      match skip with
      | S k => replace_aux old new s' k
      | O =>
          if startswith old s
          then new +:+ replace_aux old new s' (String.length old - 1)
          else String a (replace_aux old new s' O)
      end
  end.

Definition replace (old new s : string) : string := replace_aux old new s O.

(** [sep.join(l)] *)
Fixpoint join (sep : string) (l : list string) : string :=
  match l with
  | [] => EmptyString
  | [x] => x
  | x :: l' => x +:+ sep +:+ join sep l'
  end.

Definition is_lower (c : ascii) : bool := (97 <=? ord c)%nat && (ord c <=? 122)%nat.
Definition is_upper (c : ascii) : bool := (65 <=? ord c)%nat && (ord c <=? 90)%nat.
Definition is_digit (c : ascii) : bool := (48 <=? ord c)%nat && (ord c <=? 57)%nat.
(** [c.isascii() and c.isalpha()] *)
Definition is_ascii_alpha (c : ascii) : bool := is_lower c || is_upper c.

(** [c.lower()] for a code point below 256: the ASCII capitals and the
    Latin-1 capitals (192 to 222, the multiplication sign 215 apart). *)
Definition lower_char (c : ascii) : ascii :=
  if is_upper c then chr (ord c + 32)
  else if (192 <=? ord c)%nat && (ord c <=? 222)%nat && negb (ord c =? 215)%nat
       then chr (ord c + 32)
       else c.

(** [s.lower()] *)
Fixpoint lower (s : string) : string :=
  match s with
  | EmptyString => EmptyString
  | String a s' => String (lower_char a) (lower s')
  end.

Fixpoint forallb_str (p : ascii -> bool) (s : string) : bool :=
  match s with
  | EmptyString => true
  | String a s' => p a && forallb_str p s'
  end.

(** [''.join(c for c in s if keep c)] *)
Fixpoint filter_str (keep : ascii -> bool) (s : string) : string :=
  match s with
  | EmptyString => EmptyString
  | String a s' => if keep a then String a (filter_str keep s') else filter_str keep s'
  end.

(** [s.lstrip(chars)] for the set of characters satisfying [strip]. *)
Fixpoint lstrip (strip : ascii -> bool) (s : string) : string :=
  match s with
  | EmptyString => EmptyString
  | String a s' => if strip a then lstrip strip s' else s
  end.

(** [c.isdigit()] for a code point below 256: the ASCII digits and the
    superscripts two, three and one. *)
Definition isdigit (c : ascii) : bool :=
  is_digit c || (ord c =? 178)%nat || (ord c =? 179)%nat || (ord c =? 185)%nat.

(** *** JSON-like values: what the video API answers and what the metadata
    resolver returns *)

Inductive json : Type :=
| JNone
| JBool (b : bool)
| JInt (n : Z)
| JStr (s : string)
| JList (l : list json)
| JDict (d : list (string * json)).

(** [bool(j)] *)
Definition truthy (j : json) : bool :=
  match j with
  | JNone => false
  | JBool b => b
  | JInt n => negb (n =? 0)%Z
  | JStr s => negb (String.eqb s EmptyString)
  | JList l => match l with [] => false | _ => true end
  | JDict d => match d with [] => false | _ => true end
  end.

Fixpoint assoc {A : Type} (k : string) (d : list (string * A)) : option A :=
  match d with
  | [] => None
  | (k', v) :: d' => if String.eqb k' k then Some v else assoc k d'
  end.

Definition type_name (j : json) : string :=
  match j with
  | JNone => "NoneType"
  | JBool _ => "bool"
  | JInt _ => "int"
  | JStr _ => "str"
  | JList _ => "list"
  | JDict _ => "dict"
  end.

Definition not_subscriptable (j : json) : exn :=
  Exn "TypeError" ("'" +:+ type_name j +:+ "' object is not subscriptable").

(** [j[k]] for a string [k] *)
Definition getitem (j : json) (k : string) : result json :=
  match j with
  | JDict d =>
      match assoc k d with
      | Some v => Ok v
      | None => Raise (Exn "KeyError" ("'" +:+ k +:+ "'"))
      end
  | JList _ => Raise (Exn "TypeError" "list indices must be integers or slices, not str")
  | JStr _ => Raise (Exn "TypeError" "string indices must be integers, not 'str'")
  | _ => Raise (not_subscriptable j)
  end.

(** [j[0]]; the keys of a [JDict] are strings, so [0] is none of them. *)
Definition getitem0 (j : json) : result json :=
  match j with
  | JList (x :: _) => Ok x
  | JList [] => Raise (Exn "IndexError" "list index out of range")
  | JStr (String c _) => Ok (JStr (String c EmptyString))
  | JStr EmptyString => Raise (Exn "IndexError" "string index out of range")
  | JDict _ => Raise (Exn "KeyError" "0")
  | _ => Raise (not_subscriptable j)
  end.

(** [j.get(k, default)] *)
Definition get (j : json) (k : string) (default : json) : result json :=
  match j with
  | JDict d =>
      match assoc k d with
      | Some v => Ok v
      | None => Ok default
      end
  | _ => Raise (Exn "AttributeError"
                  ("'" +:+ type_name j +:+ "' object has no attribute 'get'"))
  end.

(** What [get_video_info_scraping] reads off the rendered page:
    [driver.title] and the text of the three selected elements ([None] when
    [select_one] finds nothing). *)
Record Page : Type := mkPage {
  page_title : string;
  description_element : option string;
  channel_element : option string;
  view_count_element : option string
}.

(** [not s] for [s : Optional[str]]: [None] and the empty string are falsy. *)
Definition falsy (o : option string) : bool :=
  match o with
  | None => true
  | Some s => String.eqb s EmptyString
  end.

End Py.

(** ** The parts of [urllib.parse] and [re] the extractor calls

    [urlparse] and [parse_qs] follow CPython 3.11.  Two behaviours are left
    [Unmodelled]: the validation of a bracketed host in the network location
    (it depends on the [ipaddress] module and on the interpreter version),
    and the decoding of a percent escape above [%7F] (its result may lie
    outside the strings covered here).  On strings with code points below
    256, the NFKC check of [_checknetloc] never raises. *)

Module Urllib.
Import Py.

Record ParseResult : Type := mkParseResult {
  scheme : string;
  netloc : string;
  path : string;
  params : string;
  query : string;
  fragment : string
}.

(** [_WHATWG_C0_CONTROL_OR_SPACE] *)
Definition c0_control_or_space (c : ascii) : bool := (ord c <=? 32)%nat.

(** [_UNSAFE_URL_BYTES_TO_REMOVE] *)
Definition unsafe_url_byte (c : ascii) : bool :=
  Ascii.eqb c TAB || Ascii.eqb c CR || Ascii.eqb c LF.

(** [scheme_chars] *)
Definition scheme_char (c : ascii) : bool :=
  is_lower c || is_upper c || is_digit c || has_char c "+-.".

(** The scheme test of [urlsplit]: with [i = url.find(':')], when [i > 0],
    [url[0]] is an ASCII letter and [url[:i]] holds scheme characters only,
    the result is [(url[:i].lower(), url[i+1:])]; otherwise [('', url)]. *)
Definition split_scheme (url : string) : string * string :=
  let '(pre, rest) := break_at (Ascii.eqb ":") url in
  match pre, rest with
  | String a _, String _ after =>
      if is_ascii_alpha a && forallb_str scheme_char pre
      then (lower pre, after)
      else (EmptyString, url)
  | _, _ => (EmptyString, url)
  end.

(** [_splitnetloc(url, 2)] *)
Definition _splitnetloc (url : string) : string * string :=
  break_at (fun c => has_char c "/?#") (drop 2 url).

(** [s.rfind(c)] *)
Fixpoint rfind_char (c : ascii) (s : string) : option nat :=
  match s with
  | EmptyString => None
  | String a s' =>
      match rfind_char c s' with
      | Some i => Some (S i)
      | None => if Ascii.eqb a c then Some O else None
      end
  end.

Definition _splitparams (url : string) : string * string :=
  match rfind_char "/" url with
  | Some k =>
      let '(l, r) := break_at (Ascii.eqb ";") (drop k url) in
      match r with
      | EmptyString => (url, EmptyString)
      | String _ after => (take k url +:+ l, after)
      end
  | None =>
      let '(l, r) := break_at (Ascii.eqb ";") url in
      match r with
      | EmptyString => (take (String.length url - 1) url, url)
      | String _ after => (l, after)
      end
  end.

Definition uses_params : list string :=
  [""; "ftp"; "hdl"; "prospero"; "http"; "imap"; "https"; "shttp"; "rtsp";
   "rtspu"; "sip"; "sips"; "mms"; "sftp"; "tel"].

Definition urlparse (url0 : string) : result ParseResult :=
  let url := lstrip c0_control_or_space url0 in
  let url := filter_str (fun c => negb (unsafe_url_byte c)) url in
  let '(scheme, url) := split_scheme url in
  let '(netloc, url) :=
    if startswith "//" url then _splitnetloc url else (EmptyString, url) in
  if xorb (has_char "[" netloc) (has_char "]" netloc)
  then Raise (ValueError "Invalid IPv6 URL")
  else if has_char "[" netloc then Unmodelled
  else
    let '(url, fragment) := partition1 "#" url in
    let '(url, query) := partition1 "?" url in
    let '(url, params) :=
      if existsb (String.eqb scheme) uses_params && has_char ";" url
      then _splitparams url else (url, EmptyString) in
    Ok (mkParseResult scheme netloc url params query fragment).

Definition hex_value (c : ascii) : option nat :=
  if is_digit c then Some (ord c - 48)
  else if (65 <=? ord c)%nat && (ord c <=? 70)%nat then Some (ord c - 55)
  else if (97 <=? ord c)%nat && (ord c <=? 102)%nat then Some (ord c - 87)
  else None.

(** One piece of [string.split('%')] after the first: a piece that starts
    with two hexadecimal digits stands for the character of that code. *)
Definition unquote_item (item : string) : result string :=
  match item with
  | String a (String b rest) =>
      match hex_value a, hex_value b with
      | Some x, Some y =>
          if (16 * x + y <? 128)%nat then Ok (String (chr (16 * x + y)) rest)
          else Unmodelled
      | _, _ => Ok ("%" +:+ item)
      end
  | _ => Ok ("%" +:+ item)
  end.

Fixpoint unquote_items (items : list string) : result string :=
  match items with
  | [] => Ok EmptyString
  | item :: items' =>
      bind (unquote_item item) (fun x =>
      bind (unquote_items items') (fun y => Ok (x +:+ y)))
  end.

Definition unquote (s : string) : result string :=
  if negb (has_char "%" s) then Ok s
  else match split "%" s with
       | [] => Ok EmptyString
       | first :: items => bind (unquote_items items) (fun r => Ok (first +:+ r))
       end.

(** [parse_qsl(qs)] with its default arguments. *)
Fixpoint parse_fields (query_args : list string) : result (list (string * string)) :=
  match query_args with
  | [] => Ok []
  | name_value :: rest =>
      let '(n, after) := break_at (Ascii.eqb "=") name_value in
      match after with
      | String _ (String v0 v') =>
          bind (unquote (replace "+" " " n)) (fun name =>
          bind (unquote (replace "+" " " (String v0 v'))) (fun value =>
          bind (parse_fields rest) (fun r => Ok ((name, value) :: r))))
      | _ => parse_fields rest
      end
  end.

Definition parse_qsl (qs : string) : result (list (string * string)) :=
  match qs with
  | EmptyString => Ok []
  | _ => parse_fields (split "&" qs)
  end.

(** [parse_qs(qs).get(name, [None])[0]]: the first value given to [name]. *)
Fixpoint first_value (name : string) (pairs : list (string * string)) : option string :=
  match pairs with
  | [] => None
  | (n, v) :: rest => if String.eqb n name then Some v else first_value name rest
  end.

(** [l[i]] *)
Definition index {A : Type} (l : list A) (i : nat) : result A :=
  match nth_error l i with
  | Some x => Ok x
  | None => Raise (Exn "IndexError" "list index out of range")
  end.

Definition video_id_char (c : ascii) : bool :=
  is_lower c || is_upper c || is_digit c || has_char c "_-".

(** [re.match(r'^[a-zA-Z0-9_-]{11}$', url)]: eleven characters of the class,
    then the end of the string or a line feed that ends the string. *)
Definition re_match_video_id (url : string) : bool :=
  (String.length (take 11 url) =? 11)%nat
  && forallb_str video_id_char (take 11 url)
  && (String.eqb (drop 11 url) EmptyString || String.eqb (drop 11 url) (str1 LF)).

End Urllib.

(** ** The browser session of [AntiDetectionManager] *)

Module AntiDetection.
Import Py.

(** A browser process, named by the order in which it was launched. *)
Definition handle : Type := nat.

(** The manager's [driver] attribute, with the browsers that were launched
    and not yet quit.  [peak] is the greatest number of browsers that were
    open at one time since the manager was built. *)
Record Manager : Type := mkManager {
  driver : option handle;
  open_browsers : gset handle;
  launched : nat;
  peak : nat
}.

(** [AntiDetectionManager.__init__]: [self.driver = None]. *)
Definition new_manager : Manager := mkManager None ∅ 0 0.

(** [h.quit()] *)
Definition quit (h : handle) (m : Manager) : Manager :=
  mkManager (driver m) (open_browsers m ∖ {[h]}) (launched m) (peak m).

(** [if self.driver: self.driver.quit()] *)
Definition quit_driver (m : Manager) : Manager :=
  match driver m with
  | Some h => quit h m
  | None => m
  end.

(** [self.driver = uc.Chrome(options=options)] when the launch succeeds. *)
Definition launch (m : Manager) : Manager :=
  let h := launched m in
  let opened := {[h]} ∪ open_browsers m in
  mkManager (Some h) opened (S h) (Nat.max (peak m) (size opened)).

(** The handle [launch] stores in [self.driver]. *)
Definition next_handle (m : Manager) : handle := launched m.

(** What one call of [initialize_webdriver] meets: whether a user agent is
    rotated in and what [rotate_user_agent()] answers, what [uc.Chrome]
    answers (a failed launch leaves no browser process), and what
    [execute_script] answers. *)
Record BrowserEnv : Type := mkBrowserEnv {
  user_agent_rotation : bool;
  rotate_user_agent : answer string;
  chrome : answer unit;
  execute_script : answer unit
}.

(** [AntiDetectionManager.initialize_webdriver] *)
Definition initialize_webdriver (env : BrowserEnv) (m : Manager) : Manager * result handle :=
  let handler (e : exn) (m : Manager) := (quit_driver m, Raise e) in
  let m := quit_driver m in
  match (if user_agent_rotation env then rotate_user_agent env else Returns "") with
  | Raises e => handler e m
  | Returns _ =>
      match chrome env with
      | Raises e => handler e m
      | Returns _ =>
          let h := next_handle m in
          let m := launch m in
          match execute_script env with
          | Raises e => handler e m
          | Returns _ => (m, Ok h)
          end
      end
  end.

(** [AntiDetectionManager.close_webdriver] *)
Definition close_webdriver (m : Manager) : Manager :=
  match driver m with
  | Some h => mkManager None (open_browsers (quit h m)) (launched m) (peak m)
  | None => m
  end.

(** The calls a program can make on a manager and on the drivers it was
    handed ([driver.quit()] in the [finally] blocks of the scraper). *)
Inductive op : Type :=
| InitializeWebdriver (env : BrowserEnv)
| CloseWebdriver
| DriverQuit (h : handle).

Definition step (m : Manager) (o : op) : Manager :=
  match o with
  | InitializeWebdriver env => fst (initialize_webdriver env m)
  | CloseWebdriver => close_webdriver m
  | DriverQuit h => quit h m
  end.

(** The manager after a sequence of calls on a new manager. *)
Definition after_calls (ops : list op) : Manager := foldl step new_manager ops.

End AntiDetection.

(** ** Files, the log and the monad of the download methods *)

Module Os.
Import Py.

(** The files on disk: each path with the size of its file in bytes.
    Operations on the map fail only as Python's do on a missing file. *)
Abbreviation Files := (gmap string N).

(** [os.path.join(a, b)] *)
Definition path_join (a b : string) : string :=
  if startswith "/" b then b
  else if String.eqb a "" || endswith "/" a then a +:+ b
  else a +:+ "/" +:+ b.

(** [os.path.exists(p)] *)
Definition path_exists (fs : Files) (p : string) : bool :=
  match fs !! p with
  | Some _ => true
  | None => false
  end.

Definition FileNotFoundError (p : string) : exn :=
  Exn "FileNotFoundError" ("[Errno 2] No such file or directory: '" +:+ p +:+ "'").

(** The name of [p] inside the directory [d], when [p] is a file of [d]. *)
Definition name_in (d p : string) : option string :=
  let prefix := if endswith "/" d then d else d +:+ "/" in
  if startswith prefix p then
    let name := drop (String.length prefix) p in
    if String.eqb name "" || has_char "/" name then None else Some name
  else None.

(** [os.listdir(d)], in the order the map enumerates its keys. *)
Definition listdir (fs : Files) (d : string) : list string :=
  omap (fun kv => name_in d (fst kv)) (map_to_list fs).

(** [os.rename(src, dst)] *)
Definition rename (fs : Files) (src dst : string) : result Files :=
  match fs !! src with
  | Some n => Ok (<[dst := n]> (delete src fs))
  | None => Raise (FileNotFoundError src)
  end.

(** [os.remove(p)] *)
Definition remove (fs : Files) (p : string) : result Files :=
  match fs !! p with
  | Some _ => Ok (delete p fs)
  | None => Raise (FileNotFoundError p)
  end.

Definition write_files (fs : Files) (written : list (string * N)) : Files :=
  foldl (fun fs kv => <[fst kv := snd kv]> fs) fs written.

End Os.

Module Run.
Import Py Os.

Inductive level : Type := INFO | WARNING | ERROR.

(** What a streamlit call shows on the page.  [st_write label v] stands for
    [st.write(f"{label}{v}")]. *)
Inductive widget : Type :=
| st_subheader (s : string)
| st_write (label : string) (v : json)
| st_success (s : string)
| st_warning (s : string)
| st_error (s : string)
| st_video (p : string)
| st_audio (p : string)
| st_text_area (label content : string).

(** The record [content_scraping_page] dumps as JSON. *)
Record SavedMetadata : Type := mkSavedMetadata {
  saved_video_info : json;
  saved_video_path : option string;
  saved_audio_path : option string;
  saved_has_transcript : bool;
  saved_processing_date : string
}.

(** What the program changes outside itself: the files, the records of
    [logger], the page, and the JSON documents it wrote. *)
Record World : Type := mkWorld {
  files : Files;
  log : list (level * string);
  page : list widget;
  documents : list (string * SavedMetadata)
}.

(** A computation that may change the world and may raise. *)
Definition M (A : Type) : Type := World -> World * result A.

Definition ret {A : Type} (a : A) : M A := fun w => (w, Ok a).

Definition raise {A : Type} (e : exn) : M A := fun w => (w, Raise e).

Definition lift {A : Type} (r : result A) : M A := fun w => (w, r).

Definition bindM {A B : Type} (m : M A) (k : A -> M B) : M B :=
  fun w =>
    match m w with
    | (w', Ok a) => k a w'
    | (w', Raise e) => (w', Raise e)
    | (w', Unmodelled) => (w', Unmodelled)
    end.

Notation "'run' x <- e ; k" := (bindM e (fun x => k))
  (at level 10, x name, e at level 100, k at level 200, only parsing).

(** [try: m  except Exception as e: h e] *)
Definition try_ {A : Type} (m : M A) (h : exn -> M A) : M A :=
  fun w =>
    match m w with
    | (w', Raise e) => h e w'
    | other => other
    end.

(** [logger.info], [logger.warning], [logger.error] *)
Definition logger (l : level) (msg : string) : M unit :=
  fun w => (mkWorld (files w) ((log w ++ [(l, msg)])%list) (page w) (documents w), Ok tt).

Definition show (x : widget) : M unit :=
  fun w => (mkWorld (files w) (log w) ((page w ++ [x])%list) (documents w), Ok tt).

(** A call into a function whose value is [r] and whose [logger] calls
    wrote [records] on the way. *)
Definition logged {A : Type} (records : list (level * string)) (r : result A) : M A :=
  fun w => (mkWorld (files w) ((log w ++ records)%list) (page w) (documents w), r).

Definition get_files : M Files := fun w => (w, Ok (files w)).

Definition put_files (fs : Files) : M unit :=
  fun w => (mkWorld fs (log w) (page w) (documents w), Ok tt).

(** What a download tool does: the files it leaves on disk and its answer. *)
Record tool (A : Type) : Type := mkTool {
  written : list (string * N);
  outcome : answer A
}.

Arguments mkTool {A} written outcome.
Arguments written {A} t.
Arguments outcome {A} t.

Definition use {A : Type} (t : tool A) : M A :=
  fun w => (mkWorld (write_files (files w) (written t)) (log w) (page w) (documents w),
            call (outcome t)).

End Run.

(** ** The identifier extractor and the metadata resolver *)

Module Scraper.
Import Py Urllib.

(** [YouTubeContentScraper._extract_video_id] *)
Definition _extract_video_id (url : string) : result (option string) :=
  do parsed_url <- urlparse url;
  let direct_video_id := if re_match_video_id url then Ok (Some url) else Ok None in
  if contains "youtube.com" (netloc parsed_url) then
    if contains "/watch" (path parsed_url) then
      do qs <- parse_qsl (query parsed_url);
      Ok (first_value "v" qs)
    else if contains "/shorts/" (path parsed_url) then
      do id <- index (split "/shorts/" (path parsed_url)) 1;
      Ok (Some id)
    else if contains "/live/" (path parsed_url) then
      do live_id <- index (split "/live/" (path parsed_url)) 1;
      if has_char "/" live_id
      then do live_id <- index (split "/" live_id) 0; Ok (Some live_id)
      else Ok (Some live_id)
    else direct_video_id
  else if contains "youtu.be" (netloc parsed_url) then
    Ok (Some (drop 1 (path parsed_url)))
  else direct_video_id.

(** *** Metadata: [get_video_info_api], [get_video_info_scraping],
    [get_video_info] *)

(** What the metadata resolver meets outside the program. *)
Record MetadataEnv : Type := mkMetadataEnv {
  (** [self.yt_service]: [true] when a client was built from a configured
      key, [false] when it is [None]. *)
  yt_service : bool;
  (** [self.yt_service.videos().list(part=..., id=video_id).execute()] *)
  videos_list : string -> answer json;
  (** [self.anti_detection.initialize_webdriver()] *)
  scrape_browser : answer unit;
  (** [driver.get(url)] and the reading of the rendered page. *)
  scrape_page : string -> answer Page;
  (** [datetime.now().isoformat()] *)
  now_isoformat : string
}.

(** [YouTubeContentScraper.get_video_info_api] *)
Definition get_video_info_api (env : MetadataEnv) (video_id : string) : result json :=
  if negb (yt_service env)
  then Raise (ValueError "YouTube API not initialized. Check API key.")
  else
    try_except
      (do response <- call (videos_list env video_id);
       do items <- getitem response "items";
       if negb (truthy items)
       then Raise (ValueError ("No video found with ID: " +:+ video_id))
       else
         do video_data <- getitem0 items;
         do snippet <- getitem video_data "snippet";
         do title <- getitem snippet "title";
         do description <- getitem snippet "description";
         do publishedAt <- getitem snippet "publishedAt";
         do channelTitle <- getitem snippet "channelTitle";
         do channelId <- getitem snippet "channelId";
         do thumbnails <- getitem snippet "thumbnails";
         do high <- getitem thumbnails "high";
         do thumbnailUrl <- getitem high "url";
         do contentDetails <- getitem video_data "contentDetails";
         do duration <- getitem contentDetails "duration";
         do statistics <- getitem video_data "statistics";
         do viewCount <- get statistics "viewCount" (JInt 0);
         do likeCount <- get statistics "likeCount" (JInt 0);
         do commentCount <- get statistics "commentCount" (JInt 0);
         do tags <- get snippet "tags" (JList []);
         Ok (JDict
               [("id", JStr video_id);
                ("title", title);
                ("description", description);
                ("publishedAt", publishedAt);
                ("channelTitle", channelTitle);
                ("channelId", channelId);
                ("thumbnailUrl", thumbnailUrl);
                ("duration", duration);
                ("viewCount", viewCount);
                ("likeCount", likeCount);
                ("commentCount", commentCount);
                ("tags", tags)]))
      (fun e => Raise e).

(** [YouTubeContentScraper.get_video_info_scraping] *)
Definition get_video_info_scraping (env : MetadataEnv) (video_id : string) : result json :=
  try_except
    (let url := "https://www.youtube.com/watch?v=" +:+ video_id in
     do driver <- call (scrape_browser env);
     do page <- call (scrape_page env url);
     let title := replace " - YouTube" "" (page_title page) in
     let description :=
       match description_element page with
       | Some text => text
       | None => ""
       end in
     let channel_title :=
       match channel_element page with
       | Some text => text
       | None => "Unknown Channel"
       end in
     let view_count :=
       match view_count_element page with
       | Some text => text
       | None => "0 views"
       end in
     let view_count := filter_str isdigit view_count in
     Ok (JDict
           [("id", JStr video_id);
            ("title", JStr title);
            ("description", JStr description);
            ("channelTitle", JStr channel_title);
            ("viewCount", JStr view_count);
            ("thumbnailUrl",
             JStr ("https://i.ytimg.com/vi/" +:+ video_id +:+ "/hqdefault.jpg"));
            ("publishedAt", JStr (now_isoformat env));
            ("scraped", JBool true)]))
    (fun e => Raise e).

(** [YouTubeContentScraper.get_video_info] *)
Definition get_video_info (env : MetadataEnv) (video_url : string) : result json :=
  do video_id <- _extract_video_id video_url;
  if falsy video_id
  then Raise (ValueError ("Could not extract video ID from URL: " +:+ video_url))
  else
    let video_id := default "" video_id in
    if yt_service env then
      try_except (get_video_info_api env video_id)
        (fun e => get_video_info_scraping env video_id)
    else get_video_info_scraping env video_id.

(** *** Transcript: [get_transcript] *)

(** One caption entry.  [start] and [duration] are Python floats; every
    finite float is a rational number, and the program only computes
    [int(start)]. *)
Record TranscriptEntry : Type := mkEntry {
  text : string;
  start : Q;
  duration : Q
}.

(** A caption track as [YouTubeTranscriptApi.list_transcripts] yields it:
    its language code, what [fetch()] answers, and what
    [translate('en')] answers (the translated track is only fetched, so it is
    represented by what its [fetch()] answers). *)
Record Track : Type := mkTrack {
  language_code : string;
  fetch : answer (list TranscriptEntry);
  translate_en : answer (answer (list TranscriptEntry))
}.

Record TranscriptEnv : Type := mkTranscriptEnv {
  (** [YouTubeTranscriptApi.get_transcript(video_id)] *)
  api_get_transcript : string -> answer (list TranscriptEntry);
  (** [YouTubeTranscriptApi.list_transcripts(video_id)] *)
  api_list_transcripts : string -> answer (list Track)
}.

(** How a block of statements ends: with a [return], or by running to its
    end with the local state [S]. *)
Inductive flow (R S : Type) : Type :=
| Return (r : R)
| Next (s : S).

Arguments Return {R S} r.
Arguments Next {R S} s.

(** The [for transcript in transcript_languages] loop.  [other_transcript]
    is the local variable of that name, [None] while it is unbound.  A
    [fetch()] that raises is caught by the handler inside the loop, which
    logs and goes on with the next track. *)
Fixpoint scan_tracks (tracks : list Track) (other_transcript : option Track)
  : flow (list TranscriptEntry) (option Track) :=
  match tracks with
  | [] => Next other_transcript
  | transcript :: rest =>
      if String.eqb (language_code transcript) "en" then
        match fetch transcript with
        | Returns entries => Return entries
        | Raises lang_error => scan_tracks rest other_transcript
        end
      else scan_tracks rest (Some transcript)
  end.

(** The block under [if 'other_transcript' in locals()]. *)
Definition use_other_transcript (other_transcript : Track) : result (list TranscriptEntry) :=
  try_except
    (if negb (String.eqb (language_code other_transcript) "en") then
       do translated <- call (translate_en other_transcript);
       call translated
     else call (fetch other_transcript))
    (fun trans_error => call (fetch other_transcript)).

(** [YouTubeContentScraper.get_transcript].  The inner [try] around the
    listing either returns from the function or runs to its end, after which
    the function returns the empty list. *)
Definition get_transcript (env : TranscriptEnv) (video_id : string)
  : result (list TranscriptEntry) :=
  try_except
    (try_except
       (call (api_get_transcript env video_id))
       (fun e =>
          do listing <-
            try_except
              (do transcript_languages <- call (api_list_transcripts env video_id);
               match scan_tracks transcript_languages None with
               | Return entries => Ok (Return entries)
               | Next (Some other_transcript) =>
                   do entries <- use_other_transcript other_transcript;
                   Ok (Return entries)
               | Next None => Ok (Next tt)
               end)
              (fun list_error => Ok (Next tt));
          match listing with
          | Return entries => Ok entries
          | Next _ => Ok []
          end))
    (fun e => Ok []).

(** *** Video: [download_video] *)

Import Os Run.

(** The parts of the dictionary [ydl.extract_info] returns that the program
    reads: the ['filepath'] of each entry of ['requested_downloads'] ([None]
    when the key is absent) and ['ext']. *)
Record ExtractedInfo : Type := mkExtractedInfo {
  requested_downloads : option (list string);
  ext : option string
}.

(** What [download_video] meets outside the program. *)
Record VideoEnv : Type := mkVideoEnv {
  (** [self.config["download_path"]] *)
  download_path : string;
  (** [os.makedirs(output_path, exist_ok=True)] *)
  makedirs : answer unit;
  (** whether [import yt_dlp] succeeds *)
  yt_dlp_importable : bool;
  (** [self.anti_detection.config["user_agent_rotation"]] and
      [self.anti_detection.rotate_user_agent()] *)
  ua_rotation : bool;
  rotate_ua : answer string;
  (** [yt_dlp.YoutubeDL(ydl_opts)] *)
  youtube_dl : answer unit;
  (** [ydl.extract_info(url, download=True)]; [None] stands for a falsy
      result. *)
  extract_info : tool (option ExtractedInfo);
  (** [self.anti_detection.initialize_webdriver()] *)
  relay_browser : answer unit;
  (** the download settings sent to the browser and [driver.get] of the
      relay site *)
  relay_navigate : answer unit;
  (** the wait for the download buttons and [find_elements]: whether any
      button was found *)
  relay_buttons : answer bool;
  (** the two clicks and the waits between them; the browser may leave
      files in the download directory *)
  relay_clicks : tool unit;
  (** [YouTube(url)] *)
  pytube_youtube : answer unit;
  (** the two queries on [yt.streams]: whether either found a stream *)
  pytube_stream : answer bool;
  (** [video_stream.download(output_path)]: the path it returns *)
  pytube_download : tool string
}.

(** *** What the metadata resolver and the transcript reader log

    [get_video_info] and [get_transcript] above give the value of a call.
    The functions of this part give the records the same call hands to
    [logger], in the order of the [logger] statements of the source. *)

(** The handler of [initialize_webdriver] logs the exception of a failed
    launch before it raises it again. *)
Definition initialize_webdriver_records (launch : answer unit) : list (level * string) :=
  match launch with
  | Raises e => [(ERROR, "Error initializing webdriver: " +:+ exn_str e)]
  | Returns _ => []
  end.

(** [self.anti_detection.initialize_webdriver()] as its callers meet it. *)
Definition initialize_webdriver_call (launch : answer unit) : M unit :=
  logged (initialize_webdriver_records launch) (call launch).

(** [get_video_info_api]: the test of [self.yt_service] stands before the
    [try]; the handler logs whatever the [try] block raised. *)
Definition get_video_info_api_records (env : MetadataEnv) (video_id : string)
  : list (level * string) :=
  if negb (yt_service env) then []
  else
    match get_video_info_api env video_id with
    | Raise e => [(ERROR, "Error getting video info from API: " +:+ exn_str e)]
    | _ => []
    end.

(** [get_video_info_scraping]: the record of a failed launch, then the
    handler's record of whatever the [try] block raised. *)
Definition get_video_info_scraping_records (env : MetadataEnv) (video_id : string)
  : list (level * string) :=
  (initialize_webdriver_records (scrape_browser env)
   ++ match get_video_info_scraping env video_id with
      | Raise e => [(ERROR, "Error scraping video info: " +:+ exn_str e)]
      | _ => []
      end)%list.

(** [get_video_info] *)
Definition get_video_info_records (env : MetadataEnv) (video_url : string)
  : list (level * string) :=
  match _extract_video_id video_url with
  | Ok video_id =>
      if falsy video_id then []
      else
        let video_id := default "" video_id in
        if yt_service env then
          match get_video_info_api env video_id with
          | Raise e =>
              (get_video_info_api_records env video_id
               ++ [(WARNING, "API method failed, falling back to scraping: " +:+ exn_str e)]
               ++ get_video_info_scraping_records env video_id)%list
          | _ => get_video_info_api_records env video_id
          end
        else get_video_info_scraping_records env video_id
  | _ => []
  end.

(** The records of the [for transcript in transcript_languages] loop: one
    for each English track whose [fetch()] raised before the loop ended. *)
Fixpoint scan_tracks_records (tracks : list Track) : list (level * string) :=
  match tracks with
  | [] => []
  | transcript :: rest =>
      if String.eqb (language_code transcript) "en" then
        match fetch transcript with
        | Returns entries => []
        | Raises lang_error =>
            (WARNING, "Error fetching " +:+ language_code transcript +:+ " transcript: "
                      +:+ exn_str lang_error)
            :: scan_tracks_records rest
        end
      else scan_tracks_records rest
  end.

(** The record of the block under [if 'other_transcript' in locals()]. *)
Definition use_other_transcript_records (other_transcript : Track) : list (level * string) :=
  match (if negb (String.eqb (language_code other_transcript) "en") then
           do translated <- call (translate_en other_transcript);
           call translated
         else call (fetch other_transcript)) with
  | Raise trans_error => [(WARNING, "Error translating transcript: " +:+ exn_str trans_error)]
  | _ => []
  end.

(** [get_transcript] *)
Definition get_transcript_records (env : TranscriptEnv) (video_id : string)
  : list (level * string) :=
  let nothing_worked (list_error : option exn) :=
    (match list_error with
     | Some list_error =>
         [(WARNING, "Error listing available transcripts: " +:+ exn_str list_error)]
     | None => []
     end
     ++ [(ERROR, "Could not get transcript for video " +:+ video_id)])%list in
  match api_get_transcript env video_id with
  | Returns transcript_list => []
  | Raises e =>
      (WARNING, "Error getting transcript with default language: " +:+ exn_str e)
      :: match api_list_transcripts env video_id with
         | Raises list_error => nothing_worked (Some list_error)
         | Returns transcript_languages =>
             (scan_tracks_records transcript_languages
              ++ match scan_tracks transcript_languages None with
                 | Return entries => []
                 | Next (Some other_transcript) =>
                     (use_other_transcript_records other_transcript
                      ++ match use_other_transcript other_transcript with
                         | Raise list_error => nothing_worked (Some list_error)
                         | _ => []
                         end)%list
                 | Next None => nothing_worked None
                 end)%list
         end
  end.

Definition NEWLINE : string := str1 LF.

(** Method 1 of [download_video], the [try] block around yt-dlp. *)
Definition video_method1 (env : VideoEnv) (video_id output_path : string)
    (errors : list string) : M (flow string (list string)) :=
  try_
    (run _ <-
       (if yt_dlp_importable env
        then logger INFO "Using yt-dlp for download (recommended method)"
        else
          run _ <- logger WARNING "yt-dlp not found, attempting to install automatically...";
          (* [sys] is not bound in this function: the call to
             [subprocess.check_call] raises NameError *)
          run _ <- logger ERROR "Could not install yt-dlp: name 'sys' is not defined";
          raise (Exn "ImportError"
                   "yt-dlp could not be installed. Please install manually: pip install yt-dlp"));
     run _ <- (if ua_rotation env then lift (call (rotate_ua env)) else ret "");
     run ydl <- lift (call (youtube_dl env));
     run _ <- logger INFO ("Downloading video " +:+ video_id +:+ " with yt-dlp...");
     run info <- use (extract_info env);
     match info with
     | Some info =>
         let video_path :=
           match requested_downloads info with
           | Some (filepath :: _) => filepath
           | _ => path_join output_path (video_id +:+ "." +:+ default "mp4" (ext info))
           end in
         run fs <- get_files;
         if path_exists fs video_path then
           run _ <- logger INFO ("Video successfully downloaded to " +:+ video_path);
           ret (Return video_path)
         else
           raise (Exn "FileNotFoundError" ("Expected file not found at " +:+ video_path))
     | None => ret (Next errors)
     end)
    (fun e =>
       let errors := (errors ++ ["yt-dlp method failed: " +:+ exn_str e])%list in
       run _ <- logger WARNING ("yt-dlp download failed, trying pytube: " +:+ exn_str e);
       ret (Next errors)).

(** The files [f] of [os.listdir(output_path)] with [f.endswith('.mp4')] and
    a size above 1000000 bytes. *)
Definition large_mp4_files (fs : Files) (output_path : string) : list string :=
  filter (fun f => endswith ".mp4" f = true
                   ∧ (1000000 < default 0 (fs !! path_join output_path f))%N)
         (listdir fs output_path).

(** Method 2 of [download_video], the [try] block around the browser relay.
    A launch that fails is logged by [initialize_webdriver] itself and
    raises into the outer handler.  [driver.quit()] in the [finally] clause
    changes neither the files nor the log. *)
Definition video_method2 (env : VideoEnv) (video_id output_path : string)
    (errors : list string) : M (flow string (list string)) :=
  try_
    (run _ <- logger INFO ("Attempting Selenium-based download for video " +:+ video_id);
     run driver <- initialize_webdriver_call (relay_browser env);
     run _ <- lift (call (relay_navigate env));
     try_
       (run mp4_buttons <- lift (call (relay_buttons env));
        if (mp4_buttons : bool) then
          run _ <- use (relay_clicks env);
          run fs <- get_files;
          match large_mp4_files fs output_path with
          | f :: _ =>
              let video_path := path_join output_path f in
              let final_path := path_join output_path (video_id +:+ ".mp4") in
              run _ <-
                (if negb (String.eqb video_path final_path)
                 then run fs' <- lift (rename fs video_path final_path); put_files fs'
                 else ret tt);
              run _ <- logger INFO ("Video downloaded successfully with Selenium to " +:+ final_path);
              ret (Return final_path)
          | [] => ret (Next errors)
          end
        else ret (Next errors))
       (fun e =>
          run _ <- logger ERROR ("Error during Selenium-based download action: " +:+ exn_str e);
          ret (Next errors)))
    (fun e =>
       let errors := (errors ++ ["Selenium method failed: " +:+ exn_str e])%list in
       run _ <- logger WARNING ("Selenium download failed, trying standard pytube: " +:+ exn_str e);
       ret (Next errors)).

(** Method 3 of [download_video], the [try] block around pytube. *)
Definition video_method3 (env : VideoEnv) (video_id output_path : string)
    (errors : list string) : M (flow string (list string)) :=
  try_
    (run _ <- logger INFO ("Attempting standard pytube download for video " +:+ video_id);
     run yt <- lift (call (pytube_youtube env));
     try_
       (run video_stream <- lift (call (pytube_stream env));
        if (video_stream : bool) then
          run video_path <- use (pytube_download env);
          run fs <- get_files;
          if path_exists fs video_path && (0 <? default 0 (fs !! video_path))%N then
            run _ <- logger INFO ("Video downloaded to " +:+ video_path +:+ " (standard method)");
            ret (Return video_path)
          else ret (Next errors)
        else ret (Next errors))
       (fun pytube_err =>
          run _ <- logger ERROR ("Specific pytube download error: " +:+ exn_str pytube_err);
          ret (Next ((errors ++ ["Pytube stream error: " +:+ exn_str pytube_err])%list))))
    (fun e =>
       let errors := (errors ++ ["Standard pytube method failed: " +:+ exn_str e])%list in
       run _ <- logger ERROR ("All download methods failed for video " +:+ video_id);
       ret (Next errors)).

(** The message of the [ValueError] raised when no method returned. *)
Definition video_error_msg (errors : list string) : string :=
  let error_msg :=
    "Video download failed after multiple attempts. Errors: " +:+ join "; " errors in
  let error_msg :=
    if existsb (fun err => contains "age" (lower err)) errors
    then error_msg +:+ NEWLINE +:+
         "This video may be age-restricted. Try logging in to YouTube and exporting cookies.txt."
    else error_msg in
  if existsb (fun err => contains "geo" (lower err) || contains "your country" (lower err)) errors
  then error_msg +:+ NEWLINE +:+
       "This video may be geographically restricted. Try using a VPN."
  else error_msg.

(** The statements of [download_video] from [errors = []] to the end of its
    outer [try] block: the three methods in order, each tried only when the
    one before it did not return, and the final test on [output_file]. *)
Definition video_chain (env : VideoEnv) (video_id output_path : string) : M string :=
  let errors := [] in
  let output_file := path_join output_path (video_id +:+ ".mp4") in
  run m1 <- video_method1 env video_id output_path errors;
  match m1 with
  | Return video_path => ret video_path
  | Next errors =>
      run m2 <- video_method2 env video_id output_path errors;
      match m2 with
      | Return final_path => ret final_path
      | Next errors =>
          run m3 <- video_method3 env video_id output_path errors;
          match m3 with
          | Return video_path => ret video_path
          | Next errors =>
              run fs <- get_files;
              if negb (path_exists fs output_file)
                 || (default 0 (fs !! output_file) =? 0)%N
              then raise (ValueError (video_error_msg errors))
              else ret output_file
          end
      end
  end.

(** [YouTubeContentScraper.download_video] *)
Definition download_video (env : VideoEnv) (video_url : string)
    (output_path : option string) : M string :=
  try_
    (run video_id <- lift (_extract_video_id video_url);
     if falsy video_id
     then raise (ValueError ("Could not extract video ID from URL: " +:+ video_url))
     else
       let video_id := default "" video_id in
       let output_path :=
         if falsy output_path
         then path_join (download_path env) video_id
         else default "" output_path in
       run _ <- lift (call (makedirs env));
       video_chain env video_id output_path)
    (fun e =>
       run _ <- logger ERROR ("Error downloading video: " +:+ exn_str e);
       raise e).

(** *** Audio: [download_audio] *)

(** What the conversion to mp3 does ([AudioFileClip(audio_path)],
    [write_audiofile(mp3_path)], [close()]): the size of the file it leaves
    at [mp3_path], if it leaves one, and its answer ([Raises] when any of the
    three calls raises).  It writes no other file. *)
Record Conversion : Type := mkConversion {
  mp3_written : option N;
  converted : answer unit
}.

(** What [download_audio] meets outside the program. *)
Record AudioEnv : Type := mkAudioEnv {
  audio_download_path : string;
  audio_makedirs : answer unit;
  audio_yt_dlp_importable : bool;
  (** [subprocess.check_call([sys.executable, "-m", "pip", "install",
      "yt-dlp"])] followed by [import yt_dlp] *)
  pip_install : answer unit;
  audio_ua_rotation : bool;
  audio_rotate_ua : answer string;
  (** [yt_dlp.YoutubeDL(ydl_opts)] and [ydl.download([url])] *)
  audio_youtube_dl : answer unit;
  ydl_download : tool unit;
  audio_pytube_youtube : answer unit;
  (** [yt.streams.filter(only_audio=True).first()]: whether a stream was
      found *)
  audio_stream : answer bool;
  (** [audio_stream.download(output_path)]: the path it returns *)
  audio_stream_download : tool string;
  (** the conversion of the file at the given path *)
  convert : string -> Conversion
}.

Definition convert_to_mp3 (c : Conversion) (mp3_path : string) : M unit :=
  use (mkTool (match mp3_written c with
               | Some n => [(mp3_path, n)]
               | None => []
               end)
              (converted c)).

(** Method 1 of [download_audio], the [try] block around yt-dlp. *)
Definition audio_method1 (env : AudioEnv) (video_id output_path mp3_path : string)
    (errors : list string) : M (flow string (list string)) :=
  try_
    (run _ <-
       (if audio_yt_dlp_importable env
        then logger INFO "Using yt-dlp for audio download (recommended method)"
        else
          run _ <- logger WARNING "yt-dlp not found, attempting to install automatically...";
          try_
            (run _ <- lift (call (pip_install env));
             logger INFO "Successfully installed yt-dlp")
            (fun e =>
               run _ <- logger ERROR ("Could not install yt-dlp: " +:+ exn_str e);
               raise (Exn "ImportError"
                        "Could not install yt-dlp. Please install manually with: pip install yt-dlp")));
     run _ <- (if audio_ua_rotation env then lift (call (audio_rotate_ua env)) else ret "");
     run ydl <- lift (call (audio_youtube_dl env));
     run _ <- logger INFO ("Downloading audio for video " +:+ video_id +:+ " with yt-dlp...");
     run _ <- use (ydl_download env);
     let mp3_file := path_join output_path (video_id +:+ ".mp3") in
     run fs <- get_files;
     if path_exists fs mp3_file && (0 <? default 0 (fs !! mp3_file))%N then
       run _ <- logger INFO ("Audio downloaded to " +:+ mp3_file);
       ret (Return mp3_file)
     else
       match filter (fun f => endswith ".mp3" f = true) (listdir fs output_path) with
       | f :: _ =>
           let found_mp3 := path_join output_path f in
           run fs' <- lift (rename fs found_mp3 mp3_path);
           run _ <- put_files fs';
           run _ <- logger INFO ("Audio downloaded and renamed to " +:+ mp3_path);
           ret (Return mp3_path)
       | [] => ret (Next errors)
       end)
    (fun e =>
       let errors := (errors ++ ["yt-dlp audio extraction failed: " +:+ exn_str e])%list in
       run _ <- logger WARNING ("yt-dlp audio extraction failed, trying pytube: " +:+ exn_str e);
       ret (Next errors)).

(** The block under [if audio_path.endswith('.mp4')]. *)
Definition convert_downloaded (env : AudioEnv) (audio_path : string) : M string :=
  try_
    (let mp3_path := replace ".mp4" ".mp3" audio_path in
     run _ <- convert_to_mp3 (convert env audio_path) mp3_path;
     run fs <- get_files;
     run _ <-
       (if path_exists fs audio_path
        then run fs' <- lift (remove fs audio_path); put_files fs'
        else ret tt);
     run _ <- logger INFO ("Audio downloaded and converted to " +:+ mp3_path);
     ret mp3_path)
    (fun conv_error =>
       run _ <- logger WARNING ("Could not convert to mp3: " +:+ exn_str conv_error
                                +:+ ". Keeping original format.");
       ret audio_path).

(** Method 2 of [download_audio], the [try] block around pytube.  Every
    path through the block that does not raise returns from the function. *)
Definition audio_method2 (env : AudioEnv) (video_id output_path : string)
    (errors : list string) : M (flow string (list string)) :=
  try_
    (run _ <- logger INFO ("Attempting pytube audio download for video " +:+ video_id);
     run yt <- lift (call (audio_pytube_youtube env));
     run audio_stream <- lift (call (audio_stream env));
     if negb audio_stream
     then raise (ValueError "No audio stream found for this video")
     else
       run audio_path <- use (audio_stream_download env);
       if endswith ".mp4" audio_path then
         run p <- convert_downloaded env audio_path;
         ret (Return p)
       else ret (Return audio_path))
    (fun e =>
       let errors := (errors ++ ["pytube audio download failed: " +:+ exn_str e])%list in
       run _ <- logger ERROR ("All audio download methods failed for video " +:+ video_id);
       ret (Next errors)).

(** The statements of [download_audio] from [errors = []] to the end of its
    outer [try] block. *)
Definition audio_chain (env : AudioEnv) (video_id output_path : string) : M string :=
  let errors := [] in
  let mp3_path := path_join output_path (video_id +:+ ".mp3") in
  run m1 <- audio_method1 env video_id output_path mp3_path errors;
  match m1 with
  | Return mp3_file => ret mp3_file
  | Next errors =>
      run m2 <- audio_method2 env video_id output_path errors;
      match m2 with
      | Return audio_path => ret audio_path
      | Next errors =>
          raise (ValueError ("Audio download failed after multiple attempts. Errors: "
                             +:+ join "; " errors))
      end
  end.

(** [YouTubeContentScraper.download_audio] *)
Definition download_audio (env : AudioEnv) (video_url : string)
    (output_path : option string) : M string :=
  try_
    (run video_id <- lift (_extract_video_id video_url);
     if falsy video_id
     then raise (ValueError ("Could not extract video ID from URL: " +:+ video_url))
     else
       let video_id := default "" video_id in
       let output_path :=
         if falsy output_path
         then path_join (audio_download_path env) video_id
         else default "" output_path in
       run _ <- lift (call (audio_makedirs env));
       audio_chain env video_id output_path)
    (fun e =>
       run _ <- logger ERROR ("Error downloading audio: " +:+ exn_str e);
       raise e).

End Scraper.

(** ** The scraping page: [YouTubeContentScraperApp.content_scraping_page] *)

Module App.
Import Py Os Run Scraper.

(** What the page meets: the widgets' values, the scraper's environments,
    and the answers of the calls that display media and write files. *)
Record PageEnv : Type := mkPageEnv {
  (** [st.text_input("Enter YouTube URL")] *)
  youtube_url : string;
  (** the three checkboxes *)
  want_video : bool;
  want_audio : bool;
  want_transcript : bool;
  (** [st.button("Process Video")] and [st.button("Save Transcript to File")] *)
  process_clicked : bool;
  save_transcript_clicked : bool;
  metadata_env : MetadataEnv;
  video_env : VideoEnv;
  audio_env : AudioEnv;
  transcript_env : TranscriptEnv;
  (** [self.config_manager.get_config()["output_path"]] *)
  output_path : string;
  (** [st.video(video_path)] and [st.audio(audio_path)] *)
  play_video : answer unit;
  play_audio : answer unit;
  (** [os.makedirs], [open] and [f.write] of the transcript file *)
  write_transcript : answer unit;
  (** [os.makedirs], [open] and [json.dump] of the metadata file *)
  dump_metadata : answer unit;
  (** [datetime.now().isoformat()] *)
  processing_date : string
}.

(** [str(n)] for a natural number *)
Definition decimal (n : N) : string := NilZero.string_of_uint (N.to_uint n).

(** [f"{z:02d}"] *)
Definition format_02d (z : Z) : string :=
  if (z <? 0)%Z then "-" +:+ decimal (Z.to_N (- z))
  else if (z <? 10)%Z then "0" +:+ decimal (Z.to_N z)
  else decimal (Z.to_N z).

(** [int(x)] for a float [x]: rounding towards zero. *)
Definition int_of (x : Q) : Z := Z.quot (Qnum x) (Zpos (Qden x)).

(** The loop that builds [transcript_text]. *)
Fixpoint transcript_lines (transcript_data : list TranscriptEntry) : string :=
  match transcript_data with
  | [] => ""
  | entry :: rest =>
      let start_time := start entry in
      let minutes := (int_of start_time / 60)%Z in
      let seconds := (int_of start_time mod 60)%Z in
      "[" +:+ format_02d minutes +:+ ":" +:+ format_02d seconds +:+ "] "
      +:+ text entry +:+ NEWLINE +:+ transcript_lines rest
  end.

(** The number of bytes of [s] in UTF-8. *)
Fixpoint utf8_size (s : string) : N :=
  match s with
  | EmptyString => 0
  | String c s' => ((if (ord c <? 128)%nat then 1 else 2) + utf8_size s')%N
  end.

Definition save_document (p : string) (d : SavedMetadata) : M unit :=
  fun w => (mkWorld (files w) (log w) (page w) (documents w ++ [(p, d)])%list, Ok tt).

(** The block under [if download_video:].  Its value is the local variable
    [video_path] after the block. *)
Definition video_step (env : PageEnv) : M (option string) :=
  try_
    (run video_path <- download_video (video_env env) (youtube_url env) None;
     run _ <- show (st_success "Video downloaded successfully!");
     run fs <- get_files;
     run _ <-
       (if path_exists fs video_path && (0 <? default 0 (fs !! video_path))%N then
          match play_video env with
          | Returns _ => show (st_video video_path)
          | Raises video_display_error =>
              run _ <- show (st_warning
                ("Video downloaded but cannot be displayed in the browser. You can find it at: "
                 +:+ video_path));
              logger WARNING ("Error displaying video: " +:+ exn_str video_display_error)
          end
        else show (st_warning "Video download completed but the file may be corrupted or empty."));
     ret (Some video_path))
    (fun video_error =>
       run _ <- show (st_error ("Error downloading video: " +:+ exn_str video_error));
       run _ <- logger ERROR ("Video download error: " +:+ exn_str video_error);
       ret None).

(** The block under [if download_audio:]. *)
Definition audio_step (env : PageEnv) : M (option string) :=
  try_
    (run audio_path <- download_audio (audio_env env) (youtube_url env) None;
     run _ <- show (st_success "Audio downloaded successfully!");
     run fs <- get_files;
     run _ <-
       (if path_exists fs audio_path && (0 <? default 0 (fs !! audio_path))%N then
          match play_audio env with
          | Returns _ => show (st_audio audio_path)
          | Raises audio_play_error =>
              run _ <- show (st_warning
                ("Audio downloaded but cannot be played in the browser. You can find it at: "
                 +:+ audio_path));
              logger WARNING ("Error playing audio: " +:+ exn_str audio_play_error)
          end
        else show (st_warning "Audio download completed but the file may be corrupted or empty."));
     ret (Some audio_path))
    (fun audio_error =>
       run _ <- show (st_error ("Error downloading audio: " +:+ exn_str audio_error));
       run _ <- logger ERROR ("Audio download error: " +:+ exn_str audio_error);
       ret None).

(** The block under [if get_transcript:].  Its value is the local variable
    [transcript_data] after the block ([None] while it is unbound): the
    handler of the block leaves it as the statements before the failure set
    it. *)
Definition transcript_step (env : PageEnv) : M (option (list TranscriptEntry)) :=
  let handler (transcript_data : option (list TranscriptEntry)) (transcript_error : exn) :=
    run _ <- show (st_warning ("Error retrieving transcript: " +:+ exn_str transcript_error));
    run _ <- logger WARNING ("Transcript error: " +:+ exn_str transcript_error);
    ret transcript_data in
  try_
    (run video_id <- lift (_extract_video_id (youtube_url env));
     let video_id := default "" video_id in
     run transcript_data <- logged (get_transcript_records (transcript_env env) video_id)
                                   (get_transcript (transcript_env env) video_id);
     try_
       (match transcript_data with
        | _ :: _ =>
            run _ <- show (st_subheader "Video Transcript");
            let transcript_text := transcript_lines transcript_data in
            run _ <- show (st_text_area "Transcript" transcript_text);
            run _ <-
              (if save_transcript_clicked env then
                 let output_dir := path_join (output_path env) "transcripts" in
                 let transcript_file := path_join output_dir (video_id +:+ "_transcript.txt") in
                 run _ <- use (mkTool
                                 (match write_transcript env with
                                  | Returns _ => [(transcript_file, utf8_size transcript_text)]
                                  | Raises _ => []
                                  end)
                                 (write_transcript env));
                 show (st_success ("Transcript saved to " +:+ transcript_file))
               else ret tt);
            ret (Some transcript_data)
        | [] =>
            run _ <- show (st_warning
              "Could not retrieve transcript for this video. It may not have subtitles or captions.");
            ret (Some transcript_data)
        end)
       (handler (Some transcript_data)))
    (handler None).

(** The block under [if video_info:]. *)
Definition metadata_step (env : PageEnv) (video_info : json)
    (video_path audio_path : option string)
    (transcript_data : option (list TranscriptEntry)) : M unit :=
  try_
    (let metadata_dir := path_join (output_path env) "metadata" in
     run video_id <- lift (_extract_video_id (youtube_url env));
     let metadata_file := path_join metadata_dir (default "" video_id +:+ "_metadata.json") in
     run fs <- get_files;
     let kept (p : option string) :=
       match p with
       | Some (String c rest) =>
           if path_exists fs (String c rest) then Some (String c rest) else None
       | _ => None
       end in
     let metadata :=
       mkSavedMetadata video_info (kept video_path) (kept audio_path)
         (match transcript_data with
          | Some (_ :: _) => true
          | _ => false
          end)
         (processing_date env) in
     run _ <- lift (call (dump_metadata env));
     run _ <- save_document metadata_file metadata;
     show (st_success
       "Content processed and metadata saved successfully! You can now repurpose it in the Content Repurposing tab."))
    (fun metadata_error =>
       run _ <- show (st_warning ("Error saving metadata: " +:+ exn_str metadata_error));
       logger WARNING ("Metadata error: " +:+ exn_str metadata_error)).

(** [YouTubeContentScraperApp.content_scraping_page], from the
    ["Process Video"] button on. *)
Definition content_scraping_page (env : PageEnv) : M unit :=
  if process_clicked env then
    if negb (String.eqb (youtube_url env) "") then
      try_
        (run video_info <- logged (get_video_info_records (metadata_env env) (youtube_url env))
                             (get_video_info (metadata_env env) (youtube_url env));
         run _ <- show (st_subheader "Video Information");
         run title <- lift (get video_info "title" (JStr "N/A"));
         run _ <- show (st_write "**Title:** " title);
         run channel <- lift (get video_info "channelTitle" (JStr "N/A"));
         run _ <- show (st_write "**Channel:** " channel);
         run views <- lift (get video_info "viewCount" (JStr "N/A"));
         run _ <- show (st_write "**Views:** " views);
         run published <- lift (get video_info "publishedAt" (JStr "N/A"));
         run _ <- show (st_write "**Published:** " published);
         run video_path <- (if want_video env then video_step env else ret None);
         run audio_path <- (if want_audio env then audio_step env else ret None);
         run transcript_data <- (if want_transcript env then transcript_step env else ret None);
         if truthy video_info
         then metadata_step env video_info video_path audio_path transcript_data
         else ret tt)
        (fun e =>
           run _ <- show (st_error ("Error processing video: " +:+ exn_str e));
           logger ERROR ("Error in content_scraping_page: " +:+ exn_str e))
    else show (st_warning "Please enter a YouTube URL")
  else ret tt.

End App.

(** ** More of Python's [str], of [re] and of the JSON values *)

Module Text.
Import Py.

(** [c.isspace()] for a code point below 256, which is also the class [\s]
    of [re] on a [str]. *)
Definition isspace (c : ascii) : bool :=
  (9 <=? ord c)%nat && (ord c <=? 13)%nat
  || (28 <=? ord c)%nat && (ord c <=? 32)%nat
  || (ord c =? 133)%nat || (ord c =? 160)%nat.

(** [s.rstrip(chars)] for the set of characters satisfying [strip]. *)
Fixpoint rstrip (strip : ascii -> bool) (s : string) : string :=
  match s with
  | EmptyString => EmptyString
  | String a s' =>
      match rstrip strip s' with
      | EmptyString => if strip a then EmptyString else String a EmptyString
      | r => String a r
      end
  end.

(** [s.strip()] *)
Definition strip (s : string) : string := rstrip isspace (lstrip isspace s).

(** The class [\w] of [re] on a [str], for a code point below 256: the
    characters with [c.isalnum()], and the underscore. *)
Definition word_char (c : ascii) : bool :=
  is_lower c || is_upper c || is_digit c || Ascii.eqb c "_"
  || existsb (Nat.eqb (ord c)) [170; 178; 179; 181; 185; 186; 188; 189; 190]
  || (192 <=? ord c)%nat && (ord c <=? 214)%nat
  || (216 <=? ord c)%nat && (ord c <=? 246)%nat
  || (248 <=? ord c)%nat.

(** The maximal runs of [\w] characters of [s], from the left.  [run] is the
    run being read. *)
Fixpoint word_runs (s : string) (run : string) : list string :=
  match s with
  | EmptyString => match run with EmptyString => [] | _ => [run] end
  | String c s' =>
      if word_char c then word_runs s' (run +:+ str1 c)
      else match run with
           | EmptyString => word_runs s' EmptyString
           | _ => run :: word_runs s' EmptyString
           end
  end.

(** [re.findall(r'\b[a-z]{3,15}\b', s)].  A match starts and ends at a word
    boundary and holds letters of [a-z], which are [\w] characters: it is a
    whole maximal run of [\w] characters, made of 3 to 15 letters of
    [a-z]. *)
Definition findall_words (s : string) : list string :=
  List.filter
    (fun run => forallb_str is_lower run
                && (3 <=? String.length run)%nat && (String.length run <=? 15)%nat)
    (word_runs s EmptyString).

Fixpoint chars (s : string) : list string :=
  match s with
  | EmptyString => []
  | String c s' => str1 c :: chars s'
  end.

(** [list(j)]: what a [for] loop or [list.extend] runs over.  A dictionary
    yields its keys. *)
Definition iterate (j : json) : result (list json) :=
  match j with
  | JList l => Ok l
  | JDict d => Ok (map (fun kv => JStr (fst kv)) d)
  | JStr s => Ok (map JStr (chars s))
  | _ => Raise (Exn "TypeError" ("'" +:+ type_name j +:+ "' object is not iterable"))
  end.

(** [k in j] for a string [k] *)
Definition py_in (k : string) (j : json) : result bool :=
  match j with
  | JDict d => Ok (match assoc k d with Some _ => true | None => false end)
  | JStr s => Ok (contains k s)
  | JList l => Ok (existsb (fun x => match x with JStr s => String.eqb s k | _ => false end) l)
  | _ => Raise (Exn "TypeError" ("argument of type '" +:+ type_name j +:+ "' is not iterable"))
  end.

(** The strings of [l] when every element of [l] is a string. *)
Fixpoint strings_of (l : list json) : option (list string) :=
  match l with
  | [] => Some []
  | JStr s :: l' => option_map (cons s) (strings_of l')
  | _ :: _ => None
  end.

(** [sep.join(l)] for a list of JSON values: every item must be a [str]. *)
Definition join_json (sep : string) (l : list json) : result string :=
  match strings_of l with
  | Some strs => Ok (join sep strs)
  | None => Raise (Exn "TypeError" "sequence item: expected str instance")
  end.

Fixpoint map_result {A B : Type} (f : A -> result B) (l : list A) : result (list B) :=
  match l with
  | [] => Ok []
  | x :: l' =>
      do y <- f x;
      do ys <- map_result f l';
      Ok (y :: ys)
  end.

(** [x] put into [l], which is sorted by decreasing key, before the first
    element whose key is not above its own. *)
Fixpoint insert_desc {A : Type} (key : A -> nat) (x : A) (l : list A) : list A :=
  match l with
  | [] => [x]
  | y :: l' => if (key y <=? key x)%nat then x :: l else y :: insert_desc key x l'
  end.

(** [sorted(l, key=key, reverse=True)]: by decreasing key, elements of equal
    key in the order they have in [l]. *)
Definition sorted_desc {A : Type} (key : A -> nat) (l : list A) : list A :=
  foldr (insert_desc key) [] l.

End Text.

(** ** [ChannelGrowthManager] *)

Module Growth.
Import Py Text.

(** What the trend analysis meets outside the program. *)
Record TrendsEnv : Type := mkTrendsEnv {
  (** [self.config["youtube_api_key"]] *)
  trends_api_key : string;
  (** [googleapiclient.discovery.build("youtube", "v3", ...)] *)
  trends_build : answer unit;
  (** [youtube.videos().list(chart="mostPopular", ...).execute()] *)
  most_popular : answer json;
  (** [self.anti_detection.initialize_webdriver()] *)
  trends_browser : answer unit;
  (** [driver.get] of the trending page, [find_elements] and the [text] of
      each element found *)
  trending_titles : answer (list string)
}.

Definition stop_words : list string :=
  ["the"; "and"; "you"; "that"; "have"; "for"; "this"; "with"; "not"; "are"; "from"; "your"].

(** [word_counts[word] += 1], or [word_counts[word] = 1] for a new word: a
    dictionary keeps its keys in the order of their first insertion. *)
Fixpoint count_word (word : string) (word_counts : list (string * nat)) : list (string * nat) :=
  match word_counts with
  | [] => [(word, 1%nat)]
  | (w, n) :: rest =>
      if String.eqb w word then (w, S n) :: rest else (w, n) :: count_word word rest
  end.

(** The statements both branches of [analyze_trending_keywords] run on
    [all_text], from [re.findall] to the list of the twenty first words. *)
Definition keywords_of (all_text : string) : list string :=
  let words := findall_words all_text in
  let filtered_words :=
    List.filter (fun word => negb (existsb (String.eqb word) stop_words)) words in
  let word_counts := foldl (fun counts word => count_word word counts) [] filtered_words in
  let sorted_words := sorted_desc snd word_counts in
  map fst (firstn 20 sorted_words).

(** What one item of the trending response adds to [text_data]. *)
Definition texts_of_item (item : json) : result (list json) :=
  do snippet <- getitem item "snippet";
  do title <- getitem snippet "title";
  do description <- getitem snippet "description";
  do has_tags <- py_in "tags" snippet;
  if (has_tags : bool) then
    do tags <- getitem snippet "tags";
    do tags <- iterate tags;
    Ok (title :: description :: tags)
  else Ok [title; description].

(** [ChannelGrowthManager.analyze_trending_keywords].  [trending_keywords] is
    assigned by the last statement of each branch, so a failure before it
    leaves it empty; [driver.quit()] runs after the assignment, or after the
    failure, and changes nothing of what is returned, whether it raises or
    not. *)
Definition analyze_trending_keywords (env : TrendsEnv) : list string :=
  let attempt : result (list string) :=
    if negb (String.eqb (trends_api_key env) "") then
      do youtube <- call (trends_build env);
      do trending_response <- call (most_popular env);
      do items <- get trending_response "items" (JList []);
      do items <- iterate items;
      do text_data <- map_result texts_of_item items;
      do all_text <- join_json " " (concat text_data);
      Ok (keywords_of (lower all_text))
    else
      do driver <- call (trends_browser env);
      do titles <- call (trending_titles env);
      let titles := List.filter (fun text => negb (String.eqb text "")) titles in
      Ok (keywords_of (lower (join " " titles)))
  in
  match attempt with
  | Ok trending_keywords => trending_keywords
  | _ => []
  end.

(** What the idea generator meets outside the program. *)
Record IdeasEnv : Type := mkIdeasEnv {
  (** [self.config["openai_api_key"]] and [self.config["youtube_api_key"]] *)
  openai_api_key : string;
  ideas_api_key : string;
  ideas_build : answer unit;
  (** [youtube.channels().list(...).execute()] *)
  channels_list : answer json;
  (** [youtube.playlistItems().list(...).execute()] *)
  playlist_items : answer json;
  (** [openai.ChatCompletion.create(...)] and the reading of
      [response.choices[0].message.content]; [Raises] also stands for a
      content that is not a string, on which [strip] raises. *)
  chat_completion : answer string
}.

Definition templates : list string :=
  ["How to [keyword] in 2023";
   "Top 10 [keyword] Tips You Need to Know";
   "Why [keyword] Is Changing Everything";
   "The Ultimate Guide to [keyword]";
   "I Tried [keyword] for a Week, Here's What Happened";
   "[keyword] vs [keyword2]: Which Is Better?";
   "How [keyword] Is Disrupting [industry]";
   "[keyword] Mistakes Everyone Makes";
   "The Truth About [keyword] Nobody Tells You";
   "Beginners Guide to [keyword]"].

(** The class [[\d\-\.\s]] *)
Definition numbering_char (c : ascii) : bool :=
  is_digit c || Ascii.eqb c "-" || Ascii.eqb c "." || isspace c.

(** The body of the loop over the lines of the answer: the idea a line
    yields, if it yields one.  [re.sub(r'^[\d\-\.\s]+', '', line)] removes
    the longest prefix of [line] made of characters of the class. *)
Definition idea_of_line (line : string) : option string :=
  let line := strip line in
  if negb (String.eqb line "")
     && (startswith "-" line || startswith "1" line || startswith "2" line)
  then
    let idea := strip (lstrip numbering_char line) in
    if negb (String.eqb idea "") then Some idea else None
  else None.

(** The body of the loop over [templates]. *)
Definition ideas_of_template (trending_keywords : list string) (template : string)
  : list string :=
  if contains "[keyword]" template && contains "[keyword2]" template then
    match trending_keywords with
    | keyword0 :: keyword1 :: _ =>
        [replace "[keyword2]" keyword1 (replace "[keyword]" keyword0 template)]
    | _ => []
    end
  else
    map (fun keyword =>
           replace "[industry]" "the industry" (replace "[keyword]" keyword template))
        (firstn 5 trending_keywords).

(** The titles of the channel's recent videos, read for the prompt. *)
Definition recent_titles_of (env : IdeasEnv) : result (list json) :=
  if negb (String.eqb (ideas_api_key env) "") then
    do youtube <- call (ideas_build env);
    do channel_response <- call (channels_list env);
    do items <- getitem channel_response "items";
    if truthy items then
      do channel <- getitem0 items;
      do snippet <- getitem channel "snippet";
      do title <- getitem snippet "title";
      do description <- getitem snippet "description";
      do contentDetails <- getitem channel "contentDetails";
      do relatedPlaylists <- getitem contentDetails "relatedPlaylists";
      do uploads_playlist_id <- getitem relatedPlaylists "uploads";
      do playlist_response <- call (playlist_items env);
      do items <- getitem playlist_response "items";
      do items <- iterate items;
      map_result (fun item => do snippet <- getitem item "snippet"; getitem snippet "title")
                 items
    else Ok []
  else Ok [].

(** [ChannelGrowthManager.suggest_video_ideas].  The text of the prompt goes
    to the service only; building it raises when one of the five first
    recent titles is not a string.  Nothing raises once the first idea is
    appended, so a failure leaves [video_ideas] empty. *)
Definition suggest_video_ideas (env : IdeasEnv) (channel_id : string)
    (trending_keywords : list string) : list string :=
  let attempt : result (list string) :=
    if negb (String.eqb (openai_api_key env) "") then
      do recent_titles <- recent_titles_of env;
      do titles_text <-
        (match recent_titles with
         | [] => Ok "No recent videos available"
         | _ => join_json ", " (firstn 5 recent_titles)
         end);
      do content <- call (chat_completion env);
      let lines := split (str1 LF) (strip content) in
      Ok (omap idea_of_line lines)
    else
      match trending_keywords with
      | [] => Ok []
      | _ => Ok (concat (map (ideas_of_template trending_keywords) templates))
      end
  in
  match attempt with
  | Ok video_ideas => video_ideas
  | _ => []
  end.

End Growth.

(** ** [ConfigManager] *)

Module Config.
Import Py.

(** The values a configuration holds.  A float is given by its [repr],
    which [json.dump] writes and from which [json.load] reads the same
    float again. *)
Inductive value : Type :=
| VNone
| VBool (b : bool)
| VInt (n : Z)
| VFloat (repr : string)
| VStr (s : string)
| VTuple (l : list value)
| VList (l : list value)
| VDict (d : list (string * value)).

(** A dictionary with string keys, its keys in the order of their first
    insertion. *)
Definition Dict : Type := list (string * value).

(** [json.load] of what [json.dump] wrote for [v]: a tuple is written as an
    array, which is read as a list; every other value is read as it was. *)
Fixpoint reloaded (v : value) : value :=
  match v with
  | VTuple l => VList (map reloaded l)
  | VList l => VList (map reloaded l)
  | VDict d => VDict (map (fun kv : string * value => let (k, x) := kv in (k, reloaded x)) d)
  | _ => v
  end.

(** [d[k] = v] *)
Fixpoint setitem (k : string) (v : value) (d : Dict) : Dict :=
  match d with
  | [] => [(k, v)]
  | (k', v') :: d' => if String.eqb k' k then (k', v) :: d' else (k', v') :: setitem k v d'
  end.

(** [d.update(other)] *)
Definition update (d other : Dict) : Dict :=
  foldl (fun d kv => setitem (fst kv) (snd kv) d) d other.

(** [os.getenv(name, default)] on the environment [environ]. *)
Definition getenv (environ : string -> option string) (name default : string) : value :=
  VStr (match environ name with
        | Some value => value
        | None => default
        end).

(** The dictionary [ConfigManager.__init__] builds. *)
Definition default_config (environ : string -> option string) : Dict :=
  [("youtube_api_key", getenv environ "YOUTUBE_API_KEY" "");
   ("openai_api_key", getenv environ "OPENAI_API_KEY" "");
   ("facebook_access_token", getenv environ "FACEBOOK_ACCESS_TOKEN" "");
   ("instagram_username", getenv environ "INSTAGRAM_USERNAME" "");
   ("instagram_password", getenv environ "INSTAGRAM_PASSWORD" "");
   ("download_path", getenv environ "DOWNLOAD_PATH" "./downloads");
   ("output_path", getenv environ "OUTPUT_PATH" "./output");
   ("proxy_list_path", getenv environ "PROXY_LIST_PATH" "./proxies.txt");
   ("user_agent_rotation", VBool true);
   ("proxy_rotation", VBool true);
   ("delay_min", VInt 3);
   ("delay_max", VInt 10);
   ("resize_dims",
    VDict [("instagram_story", VTuple [VInt 1080; VInt 1920]);
           ("instagram_post", VTuple [VInt 1080; VInt 1080]);
           ("facebook_story", VTuple [VInt 1080; VInt 1920]);
           ("facebook_post", VTuple [VInt 1200; VInt 630])]);
   ("blog_template_path", getenv environ "BLOG_TEMPLATE_PATH" "./templates/blog_template.html")].

(** What a file holds for [json.load]: a document, given by the value
    [json.load] reads from it, or a text that is not JSON. *)
Inductive content : Type :=
| Document (v : value)
| NotJson.

(** The files [save_config] and [load_config] work on. *)
Abbreviation Store := (gmap string content).

(** The manager's [config] attribute and the files. *)
Record State : Type := mkState {
  config : Dict;
  store : Store
}.

(** [ConfigManager.__init__]; [makedirs] is what the six calls of
    [os.makedirs] answer. *)
Definition init (environ : string -> option string) (makedirs : answer unit)
    (files : Store) : result State :=
  do _ <- call makedirs;
  Ok (mkState (default_config environ) files).

(** [ConfigManager.update_config] *)
Definition update_config (new_config : Dict) (s : State) : State :=
  mkState (update (config s) new_config) (store s).

Definition sensitive : list string :=
  ["youtube_api_key"; "openai_api_key"; "facebook_access_token"; "instagram_password"].

(** [ConfigManager.save_config]; [opened] is what [open(path, 'w')]
    answers.  The file then holds what [json.dump] writes for
    [safe_config]. *)
Definition save_config (path : string) (opened : answer unit) (s : State)
  : State * result unit :=
  let safe_config :=
    List.filter (fun kv => negb (existsb (String.eqb (fst kv)) sensitive)) (config s) in
  match opened with
  | Returns _ =>
      (mkState (config s) (<[path := Document (reloaded (VDict safe_config))]> (store s)), Ok tt)
  | Raises e => (s, Raise e)
  end.

(** [ConfigManager.load_config], for a file that can be opened when it
    exists; the two log records are left out.  A missing file and a file
    that is not JSON are the two failures it catches; what [dict.update]
    does with a document that is not an object is left [Unmodelled]. *)
Definition load_config (path : string) (s : State) : State * result unit :=
  match store s !! path with
  | None => (s, Ok tt)
  | Some NotJson => (s, Ok tt)
  | Some (Document (VDict loaded_config)) => (update_config loaded_config s, Ok tt)
  | Some (Document _) => (s, Unmodelled)
  end.

End Config.

(** ** The proxies and the request headers of [AntiDetectionManager] *)

Module Proxies.
Import Py Text.

Record ProxyEnv : Type := mkProxyEnv {
  (** [self.config["proxy_rotation"]] when [_load_proxies] runs, and
      [self.config["user_agent_rotation"]] *)
  proxy_rotation : bool;
  header_rotation : bool;
  (** [None] when [os.path.exists(proxy_list_path)] is false; otherwise what
      opening the file and reading its lines answers. *)
  proxy_file : option (answer (list string));
  (** [FreeProxy(rand=True).get()], call by call; [None] stands for [None]. *)
  free_proxy : nat -> answer (option string);
  (** [self.user_agent.random] *)
  random_user_agent : string
}.

(** The five calls of the loop over [range(5)], from call [i] on. *)
Fixpoint free_proxies (env : ProxyEnv) (calls i : nat) : list string :=
  match calls with
  | O => []
  | S calls' =>
      match free_proxy env i with
      | Returns (Some (String c rest)) => String c rest :: free_proxies env calls' (S i)
      | _ => free_proxies env calls' (S i)
      end
  end.

(** [AntiDetectionManager._load_proxies].  A failure while the file is read
    leaves [proxies] empty and ends the function. *)
Definition _load_proxies (env : ProxyEnv) : list string :=
  let attempt : result (list string) :=
    do proxies <-
      (match proxy_file env with
       | Some reading =>
           do lines <- call reading;
           Ok (map strip (List.filter (fun line => negb (String.eqb (strip line) "")) lines))
       | None => Ok []
       end);
    match proxies with
    | [] => if proxy_rotation env then Ok (free_proxies env 5 0) else Ok proxies
    | _ => Ok proxies
    end
  in
  match attempt with
  | Ok proxies => proxies
  | _ => []
  end.

(** The manager's [proxies] and [current_proxy] attributes. *)
Record Rotation : Type := mkRotation {
  proxies : list string;
  current_proxy : option string
}.

(** [AntiDetectionManager.__init__] *)
Definition new_rotation (env : ProxyEnv) : Rotation := mkRotation (_load_proxies env) None.

(** [random.choice(l)] for a non-empty [l]: the element at an index the
    generator draws. *)
Definition choice (draw : nat) (l : list string) : string :=
  nth (draw mod length l) l "".

(** [AntiDetectionManager.rotate_proxy]; [rotation] is what
    [self.config["proxy_rotation"]] holds when the method is called: the
    dictionary is the one the configuration manager updates. *)
Definition rotate_proxy (rotation : bool) (draw : nat) (r : Rotation)
  : Rotation * option string :=
  match proxies r with
  | [] => (r, None)
  | _ =>
      if negb rotation then (r, None)
      else
        let proxy := choice draw (proxies r) in
        (mkRotation (proxies r) (Some proxy), Some proxy)
  end.

(** [AntiDetectionManager.get_request_proxies] *)
Definition get_request_proxies (rotation : bool) (draw : nat) (r : Rotation)
  : Rotation * list (string * string) :=
  if negb rotation then (r, [])
  else
    let '(r, proxy) := rotate_proxy rotation draw r in
    if falsy proxy then (r, [])
    else
      let proxy := default "" proxy in
      if startswith "http" proxy
      then (r, [("http", proxy); ("https", proxy)])
      else (r, [("http", "http://" +:+ proxy); ("https", "https://" +:+ proxy)]).

(** [AntiDetectionManager.get_request_headers] *)
Definition get_request_headers (env : ProxyEnv) : list (string * string) :=
  let headers :=
    [("Accept", "text/html,application/xhtml+xml,application/xml;q=0.9,image/webp,*/*;q=0.8");
     ("Accept-Language", "en-US,en;q=0.5");
     ("Connection", "keep-alive");
     ("Upgrade-Insecure-Requests", "1")] in
  if header_rotation env
  then (headers ++ [("User-Agent", random_user_agent env)])%list
  else headers.

End Proxies.

(** ** Computations on a state of their own *)

Module Effects.
Import Py.

(** A computation that may change a state of type [W] and may raise. *)
Definition eff (W A : Type) : Type := W -> W * result A.

Definition done {W A : Type} (a : A) : eff W A := fun w => (w, Ok a).

Definition of_result {W A : Type} (r : result A) : eff W A := fun w => (w, r).

Definition and_then {W A B : Type} (m : eff W A) (k : A -> eff W B) : eff W B :=
  fun w =>
    match m w with
    | (w', Ok a) => k a w'
    | (w', Raise e) => (w', Raise e)
    | (w', Unmodelled) => (w', Unmodelled)
    end.

Notation "'exec' x <- e ; k" := (and_then e (fun x => k))
  (at level 10, x name, e at level 100, k at level 200, only parsing).

(** [try: m  except Exception as e: h e] *)
Definition except {W A : Type} (m : eff W A) (h : exn -> eff W A) : eff W A :=
  fun w =>
    match m w with
    | (w', Raise e) => h e w'
    | other => other
    end.

(** A computation on the second part of a state, and a change of the first
    part. *)
Definition on_snd {V W A : Type} (m : eff W A) : eff (V * W) A :=
  fun vw => let (w', a) := m (snd vw) in ((fst vw, w'), a).

Definition on_fst {V W : Type} (f : V -> V) : eff (V * W) unit :=
  fun vw => ((f (fst vw), snd vw), Ok tt).

End Effects.

(** ** [SocialMediaManager] *)

Module Social.
Import Py Run Config Effects.

(** [bool(v)] *)
Definition truthy_value (v : value) : bool :=
  match v with
  | VNone => false
  | VBool b => b
  | VInt n => negb (n =? 0)%Z
  | VFloat repr => negb (String.eqb repr "0.0" || String.eqb repr "-0.0")
  | VStr s => negb (String.eqb s EmptyString)
  | VTuple l => match l with [] => false | _ => true end
  | VList l => match l with [] => false | _ => true end
  | VDict d => match d with [] => false | _ => true end
  end.

(** [config[k]] *)
Definition config_item (config : Dict) (k : string) : result value :=
  match assoc k config with
  | Some v => Ok v
  | None => Raise (Exn "KeyError" ("'" +:+ k +:+ "'"))
  end.

(** The calls on the clients of the two services, with the arguments that
    carry the post.  The file object handed to [put_video] and [put_photo]
    is given by the path it was opened from. *)
Inductive request : Type :=
| put_video (media_path title : string)
| put_photo (media_path message : string)
| put_object (parent_object connection_name message : string)
| get_object (id fields : string)
| video_upload (media_path caption : string)
| photo_upload (media_path caption : string)
| upload_video (media_path caption : string)
| upload_photo (media_path caption : string)
| media_info (post_id : string).

(** What [media_info] returns: the attributes [monitor_engagement] reads;
    [view_count] is [None] when the object has no such attribute. *)
Record Media : Type := mkMedia {
  like_count : json;
  comment_count : json;
  view_count : option json
}.

(** What the manager meets outside the program. *)
Record SocialEnv : Type := mkSocialEnv {
  (** [facebook.GraphAPI(access_token=..., version="3.1")] *)
  graph_api : answer unit;
  (** [InstagrapiClient()] and its [login]; [instabot.Bot()] and its [login] *)
  instagrapi_login : answer unit;
  instabot_login : answer unit;
  (** [open(media_path, 'rb')] *)
  open_media : string -> answer unit;
  (** What a client answers to a call that posts, to [get_object] and to
      [media_info]. *)
  posted : request -> answer unit;
  post_data_of : request -> answer json;
  media_of : request -> answer Media;
  (** [datetime.now().isoformat()] *)
  now : string
}.

(** The calls made on the clients so far, and the records of [logger]. *)
Record Sent : Type := mkSent {
  requests : list request;
  records : list (level * string)
}.

Definition logging (l : level) (msg : string) : eff Sent unit :=
  fun s => (mkSent (requests s) (records s ++ [(l, msg)])%list, Ok tt).

(** The call [r] is made, and answered by [a]. *)
Definition send {A : Type} (r : request) (a : answer A) : eff Sent A :=
  fun s => (mkSent (requests s ++ [r])%list (records s), call a).

Inductive graph : Type := GraphAPI.

Inductive instagram : Type := InstagrapiClient | Bot.

(** The manager's [facebook_client] and [instagram_client] attributes. *)
Record Manager : Type := mkManager {
  facebook_client : option graph;
  instagram_client : option instagram
}.

(** [SocialMediaManager._initialize_facebook] *)
Definition _initialize_facebook (env : SocialEnv) : eff Sent (option graph) :=
  except
    (exec _ <- of_result (call (graph_api env));
     done (Some GraphAPI))
    (fun e =>
       exec _ <- logging ERROR ("Error initializing Facebook API: " +:+ exn_str e);
       done None).

(** [SocialMediaManager._initialize_instagram] *)
Definition _initialize_instagram (env : SocialEnv) : eff Sent (option instagram) :=
  except
    (exec _ <- of_result (call (instagrapi_login env));
     done (Some InstagrapiClient))
    (fun e =>
       exec _ <- logging WARNING ("Error initializing with instagrapi: " +:+ exn_str e
                                  +:+ ", trying instabot...");
       except
         (exec _ <- of_result (call (instabot_login env));
          done (Some Bot))
         (fun e =>
            exec _ <- logging ERROR ("Error initializing Instagram API: " +:+ exn_str e);
            done None)).

(** [SocialMediaManager.__init__] on the dictionary of the configuration
    manager. *)
Definition init (env : SocialEnv) (config : Dict) : eff Sent Manager :=
  exec token <- of_result (config_item config "facebook_access_token");
  exec facebook_client <-
    (if truthy_value token then _initialize_facebook env else done None);
  exec username <- of_result (config_item config "instagram_username");
  exec instagram_client <-
    (if truthy_value username then
       exec password <- of_result (config_item config "instagram_password");
       if truthy_value password then _initialize_instagram env else done None
     else done None);
  done (mkManager facebook_client instagram_client).

(** [media_path.endswith(('.mp4', '.mov', '.avi'))] *)
Definition is_video (media_path : string) : bool :=
  existsb (fun suffix => endswith suffix media_path) [".mp4"; ".mov"; ".avi"].

(** [SocialMediaManager.post_to_facebook] *)
Definition post_to_facebook (env : SocialEnv) (m : Manager) (content : string)
    (media_path : option string) : eff Sent bool :=
  match facebook_client m with
  | None =>
      exec _ <- logging WARNING "Facebook client not initialized. Check access token.";
      done false
  | Some _ =>
      except
        (exec _ <-
           (if falsy media_path then
              send (put_object "me" "feed" content) (posted env (put_object "me" "feed" content))
            else
              let media_path := default "" media_path in
              if is_video media_path then
                exec f <- of_result (call (open_media env media_path));
                send (put_video media_path (take 40 content))
                     (posted env (put_video media_path (take 40 content)))
              else
                exec f <- of_result (call (open_media env media_path));
                send (put_photo media_path content) (posted env (put_photo media_path content)));
         exec _ <- logging INFO "Successfully posted to Facebook";
         done true)
        (fun e =>
           exec _ <- logging ERROR ("Error posting to Facebook: " +:+ exn_str e);
           done false)
  end.

(** [SocialMediaManager.post_to_instagram] *)
Definition post_to_instagram (env : SocialEnv) (m : Manager) (content media_path : string)
  : eff Sent bool :=
  match instagram_client m with
  | None =>
      exec _ <- logging WARNING
                  "Instagram client not initialized. Check username and password.";
      done false
  | Some client =>
      except
        (exec _ <-
           (let r :=
              match client with
              | InstagrapiClient =>
                  if is_video media_path then video_upload media_path content
                  else photo_upload media_path content
              | Bot =>
                  if is_video media_path then upload_video media_path content
                  else upload_photo media_path content
              end in
            send r (posted env r));
         exec _ <- logging INFO "Successfully posted to Instagram";
         done true)
        (fun e =>
           exec _ <- logging ERROR ("Error posting to Instagram: " +:+ exn_str e);
           done false)
  end.

(** The dictionary [monitor_engagement] returns: its keys are fixed. *)
Record Engagement : Type := mkEngagement {
  likes : json;
  comments : json;
  shares : json;
  views : json;
  platform : string;
  post_id : string;
  timestamp : string
}.

Definition set_likes (v : json) (e : Engagement) : Engagement :=
  mkEngagement v (comments e) (shares e) (views e) (platform e) (post_id e) (timestamp e).

Definition set_comments (v : json) (e : Engagement) : Engagement :=
  mkEngagement (likes e) v (shares e) (views e) (platform e) (post_id e) (timestamp e).

Definition set_shares (v : json) (e : Engagement) : Engagement :=
  mkEngagement (likes e) (comments e) v (views e) (platform e) (post_id e) (timestamp e).

Definition set_views (v : json) (e : Engagement) : Engagement :=
  mkEngagement (likes e) (comments e) (shares e) v (platform e) (post_id e) (timestamp e).

(** [post_data.get(field, {}).get('summary', {}).get('total_count', 0)] *)
Definition total_count (post_data : json) (field : string) : result json :=
  do entry <- get post_data field (JDict []);
  do summary <- get entry "summary" (JDict []);
  get summary "total_count" (JInt 0).

(** The body of the [try] of [monitor_engagement], on the dictionary
    [engagement] and the calls made. *)
Definition read_engagement (env : SocialEnv) (m : Manager) (platform post_id : string)
  : eff (Engagement * Sent) unit :=
  exec _ <-
    (if String.eqb platform "facebook"
        && match facebook_client m with Some _ => true | None => false end
     then
       let r := get_object post_id "shares,comments.summary(true),reactions.summary(true)" in
       exec post_data <- on_snd (send r (post_data_of env r));
       exec reactions <- of_result (total_count post_data "reactions");
       exec _ <- on_fst (set_likes reactions);
       exec comments <- of_result (total_count post_data "comments");
       exec _ <- on_fst (set_comments comments);
       exec shares <- of_result (do entry <- get post_data "shares" (JDict []);
                                 get entry "count" (JInt 0));
       on_fst (set_shares shares)
     else if String.eqb platform "instagram"
             && match instagram_client m with Some InstagrapiClient => true | _ => false end
     then
       let r := media_info post_id in
       exec media <- on_snd (send r (media_of env r));
       exec _ <- on_fst (set_likes (like_count media));
       exec _ <- on_fst (set_comments (comment_count media));
       on_fst (set_views (match view_count media with Some v => v | None => JInt 0 end))
     else done tt);
  on_snd (logging INFO ("Retrieved engagement metrics for " +:+ platform +:+ " post "
                        +:+ post_id)).

(** [SocialMediaManager.monitor_engagement] *)
Definition monitor_engagement (env : SocialEnv) (m : Manager) (platform post_id : string)
  : eff Sent Engagement :=
  fun s =>
    let engagement :=
      mkEngagement (JInt 0) (JInt 0) (JInt 0) (JInt 0) platform post_id (now env) in
    let '((engagement, s), outcome) :=
      except (read_engagement env m platform post_id)
        (fun e => on_snd (logging ERROR ("Error monitoring engagement for " +:+ platform
                                         +:+ " post " +:+ post_id +:+ ": " +:+ exn_str e)))
        (engagement, s) in
    (s, do _ <- outcome; Ok engagement).

End Social.

(** ** [YouTubeContentScraperApp.__init__] *)

Module Startup.
Import Py Run Config Proxies Effects Social.

(** What the constructors meet outside the program. *)
Record StartEnv : Type := mkStartEnv {
  (** [os.getenv] *)
  environ : string -> option string;
  (** the six calls of [os.makedirs] in [ConfigManager.__init__] *)
  makedirs : answer unit;
  (** [UserAgent()], and its [random] attribute *)
  user_agent : answer unit;
  user_agent_random : string;
  (** for a path, [None] when [os.path.exists] is false, otherwise what
      opening the file and reading its lines answers *)
  proxy_lines : string -> option (answer (list string));
  (** [FreeProxy(rand=True).get()], call by call *)
  free_proxy_of : nat -> answer (option string);
  (** [googleapiclient.discovery.build("youtube", "v3", ...)] *)
  youtube_build : answer unit;
  (** [pipeline("summarization")] *)
  summarization : answer unit;
  social_env : SocialEnv;
  (** [st.set_page_config(...)] *)
  set_page_config : answer unit
}.

(** The application's managers: the configuration and the files, the proxies
    of the anti-detection manager, the scraper's [yt_service], the
    processor's [summarizer], and the clients of the social media manager.
    The managers share the dictionary of the configuration manager. *)
Record App : Type := mkApp {
  config_manager : State;
  anti_detection_manager : Rotation;
  yt_service : option unit;
  summarizer : option unit;
  social_media_manager : Manager
}.

(** What [_load_proxies] meets under a configuration that has the three
    settings it reads, the path of the proxy list being a string, as in
    every configuration [ConfigManager.__init__] builds; other
    configurations are left [Unmodelled]. *)
Definition proxy_env (env : StartEnv) (config : Dict) : result ProxyEnv :=
  match assoc "proxy_list_path" config, assoc "proxy_rotation" config,
        assoc "user_agent_rotation" config with
  | Some (VStr path), Some rotation, Some agents =>
      Ok (mkProxyEnv (truthy_value rotation) (truthy_value agents) (proxy_lines env path)
            (free_proxy_of env) (user_agent_random env))
  | _, _, _ => Unmodelled
  end.

(** [AntiDetectionManager.__init__] *)
Definition anti_detection_init (env : StartEnv) (config : Dict) : eff Sent Rotation :=
  exec _ <- of_result (call (user_agent env));
  exec proxies <- of_result (proxy_env env config);
  done (new_rotation proxies).

(** [YouTubeContentScraper.__init__], with [_initialize_youtube_api] *)
Definition scraper_init (env : StartEnv) (config : Dict) : eff Sent (option unit) :=
  exec key <- of_result (config_item config "youtube_api_key");
  if truthy_value key then
    except
      (exec _ <- of_result (call (youtube_build env));
       done (Some tt))
      (fun e =>
         exec _ <- logging ERROR ("Error initializing YouTube API: " +:+ exn_str e);
         done None)
  else done None.

(** [ContentProcessor.__init__] *)
Definition processor_init (env : StartEnv) (config : Dict) : eff Sent (option unit) :=
  exec key <- of_result (config_item config "openai_api_key");
  except
    (exec _ <- of_result (call (summarization env));
     done (Some tt))
    (fun e =>
       exec _ <- logging WARNING ("Could not initialize summarizer: " +:+ exn_str e);
       done None).

(** [YouTubeContentScraperApp.__init__]: the managers are built, the page is
    configured, and then [config.json] is loaded if it is there. *)
Definition app_init (env : StartEnv) (files : Store) : eff Sent App :=
  exec config_manager <- of_result (Config.init (environ env) (makedirs env) files);
  exec anti_detection_manager <- anti_detection_init env (config config_manager);
  exec yt_service <- scraper_init env (config config_manager);
  exec summarizer <- processor_init env (config config_manager);
  exec social_media_manager <- Social.init (social_env env) (config config_manager);
  exec _ <- of_result (call (set_page_config env));
  exec config_manager <-
    (match store config_manager !! "config.json" with
     | Some _ =>
         let (loaded, outcome) := load_config "config.json" config_manager in
         of_result (do _ <- outcome; Ok loaded)
     | None => done config_manager
     end);
  done (mkApp config_manager anti_detection_manager yt_service summarizer
          social_media_manager).

(** [get_request_proxies] on the anti-detection manager of the application:
    its [config] is the dictionary of the configuration manager, as it is
    when the method is called. *)
Definition request_proxies_of (app : App) (draw : nat)
  : result (Rotation * list (string * string)) :=
  do rotation <- config_item (config (config_manager app)) "proxy_rotation";
  Ok (get_request_proxies (truthy_value rotation) draw (anti_detection_manager app)).

End Startup.

(** ** [ChannelGrowthManager.find_similar_channels] *)

Module Channels.
Import Py Text Growth.

(** An entry of [channel_data]: a dictionary with the keys ["id"],
    ["title"] and ["count"]. *)
Record Channel : Type := mkChannel {
  channel_id_of : json;
  channel_title_of : json;
  count_of : nat
}.

(** The number a [bool] or an [int] is as a dictionary key. *)
Definition key_number (j : json) : option Z :=
  match j with
  | JBool b => Some (if b then 1 else 0)%Z
  | JInt n => Some n
  | _ => None
  end.

(** [a == b] for two keys of a dictionary: [True] is the key [1]. *)
Definition key_eqb (a b : json) : bool :=
  match a, b with
  | JNone, JNone => true
  | JStr x, JStr y => String.eqb x y
  | _, _ =>
      match key_number a, key_number b with
      | Some m, Some n => (m =? n)%Z
      | _, _ => false
      end
  end.

(** [hash(j)], which a dictionary takes of its keys *)
Definition hashable (j : json) : result unit :=
  match j with
  | JList _ => Raise (Exn "TypeError" "unhashable type: 'list'")
  | JDict _ => Raise (Exn "TypeError" "unhashable type: 'dict'")
  | _ => Ok tt
  end.

(** [j != s] for a string [s] *)
Definition differs (j : json) (s : string) : bool :=
  match j with
  | JStr x => negb (String.eqb x s)
  | _ => true
  end.

(** The entry of [related_channel_id] is made with count 1, or its count is
    raised by 1. *)
Fixpoint count_channel (related_channel_id related_channel_title : json)
    (channel_data : list Channel) : list Channel :=
  match channel_data with
  | [] => [mkChannel related_channel_id related_channel_title 1]
  | c :: rest =>
      if key_eqb (channel_id_of c) related_channel_id
      then mkChannel (channel_id_of c) (channel_title_of c) (S (count_of c)) :: rest
      else c :: count_channel related_channel_id related_channel_title rest
  end.

(** What both branches do with a related channel. *)
Definition note_channel (channel_id : string) (related_channel_id related_channel_title : json)
    (channel_data : list Channel) : result (list Channel) :=
  if differs related_channel_id channel_id then
    do _ <- hashable related_channel_id;
    Ok (count_channel related_channel_id related_channel_title channel_data)
  else Ok channel_data.

(** [l[:n]] *)
Definition slice_to {A : Type} (n : Z) (l : list A) : list A :=
  if (0 <=? n)%Z then firstn (Z.to_nat n) l
  else firstn (length l - Z.to_nat (- n)) l.

(** A loop whose body may raise. *)
Fixpoint fold_result {A B : Type} (body : B -> A -> result B) (l : list A) (b : B)
  : result B :=
  match l with
  | [] => Ok b
  | x :: l' =>
      do b' <- body b x;
      fold_result body l' b'
  end.

(** What the search for similar channels meets outside the program. *)
Record SimilarEnv : Type := mkSimilarEnv {
  (** [self.config["youtube_api_key"]] *)
  similar_api_key : string;
  similar_build : answer unit;
  (** [youtube.channels().list(...).execute()] *)
  channel_answer : answer json;
  (** [youtube.playlistItems().list(...).execute()] *)
  uploads_answer : answer json;
  (** [youtube.search().list(relatedToVideoId=video_id, ...).execute()] *)
  search_answer : json -> answer json;
  (** [self.anti_detection.initialize_webdriver()] *)
  similar_browser : answer unit;
  (** [driver.get] of the channel page and [find_elements]: for each
      element found, what [get_attribute("href")] answers *)
  video_links : answer (list (answer (option string)));
  (** [driver.get(video_url)], the scrolling and [find_elements]: for each
      element found, what finding the channel link in it answers, with the
      [href] and the [text] of the link *)
  related_links : string -> answer (list (answer (option string * string)))
}.

(** The body of the loop over the items of a search response. *)
Definition note_item (channel_id : string) (channel_data : list Channel) (item : json)
  : result (list Channel) :=
  do snippet <- getitem item "snippet";
  do related_channel_id <- getitem snippet "channelId";
  do related_channel_title <- getitem snippet "channelTitle";
  note_channel channel_id related_channel_id related_channel_title channel_data.

(** The body of the loop over [video_ids[:3]]. *)
Definition note_video (env : SimilarEnv) (channel_id : string) (channel_data : list Channel)
    (video_id : json) : result (list Channel) :=
  do search_response <- call (search_answer env video_id);
  do items <- get search_response "items" (JList []);
  do items <- iterate items;
  fold_result (note_item channel_id) items channel_data.

(** The body of the loop over [related_elements[:10]]: a failure is logged
    and the element passed over. *)
Definition note_element (channel_id : string) (channel_data : list Channel)
    (elem : answer (option string * string)) : list Channel :=
  match elem with
  | Returns (Some related_channel_url, related_channel_title) =>
      let related_channel_id := List.last (split "/" related_channel_url) "" in
      match note_channel channel_id (JStr related_channel_id) (JStr related_channel_title)
              channel_data with
      | Ok channel_data' => channel_data'
      | _ => channel_data
      end
  | _ => channel_data
  end.

(** The body of the loop over [video_urls]. *)
Definition note_page (env : SimilarEnv) (channel_id : string) (channel_data : list Channel)
    (video_url : option string) : result (list Channel) :=
  if falsy video_url then Ok channel_data
  else
    do related_elements <- call (related_links env (default "" video_url));
    Ok (foldl (note_element channel_id) channel_data (firstn 10 related_elements)).

(** [ChannelGrowthManager.find_similar_channels].  [similar_channels] is
    assigned by the last statement of each branch, so a failure before it
    leaves it empty; [driver.quit()] changes nothing of what is returned. *)
Definition find_similar_channels (env : SimilarEnv) (channel_id : string) (max_results : Z)
  : list Channel :=
  let attempt : result (list Channel) :=
    if negb (String.eqb (similar_api_key env) "") then
      do youtube <- call (similar_build env);
      do channel_response <- call (channel_answer env);
      do items <- getitem channel_response "items";
      if negb (truthy items) then Ok []
      else
        do channel <- getitem0 items;
        do contentDetails <- getitem channel "contentDetails";
        do relatedPlaylists <- getitem contentDetails "relatedPlaylists";
        do uploads_playlist_id <- getitem relatedPlaylists "uploads";
        do playlist_response <- call (uploads_answer env);
        do items <- getitem playlist_response "items";
        do items <- iterate items;
        do video_ids <-
          map_result (fun item =>
                        do snippet <- getitem item "snippet";
                        do resourceId <- getitem snippet "resourceId";
                        getitem resourceId "videoId")
                     items;
        do channel_data <- fold_result (note_video env channel_id) (firstn 3 video_ids) [];
        Ok (slice_to max_results (sorted_desc count_of channel_data))
    else
      do driver <- call (similar_browser env);
      do video_elements <- call (video_links env);
      do video_urls <- map_result call (firstn 3 video_elements);
      do channel_data <- fold_result (note_page env channel_id) video_urls [];
      Ok (slice_to max_results (sorted_desc count_of channel_data))
  in
  match attempt with
  | Ok similar_channels => similar_channels
  | _ => []
  end.

End Channels.

(** ** [ContentProcessor.create_blog_post] *)

Module Blog.
Import Py Os Run Scraper App Text Effects.

(** What the blog writer meets outside the program. *)
Record BlogEnv : Type := mkBlogEnv {
  (** [self.config["openai_api_key"]] and [self.config["output_path"]] *)
  blog_api_key : string;
  blog_output_path : string;
  (** [openai.ChatCompletion.create(...)] and the [content] of the message
      of its first choice *)
  blog_completion : answer (option string);
  (** [self.summarizer], and what it answers for a chunk *)
  summarizer_of : option (string -> answer json);
  (** [sent_tokenize(transcript_text)] *)
  sent_tokenize : string -> answer (list string);
  (** [os.makedirs(path, exist_ok=True)] *)
  blog_makedirs : string -> answer unit;
  (** [open(path, "w", encoding="utf-8")] *)
  blog_open : string -> answer unit;
  (** [f.write(content)] on the file opened at a path, and the closing of
      the file at the end of the [with] block *)
  blog_write : string -> string -> answer unit
}.

(** The texts written, each with its path; the files opened for writing,
    which the open created or emptied; and the records of [logger]. *)
Record Written : Type := mkWritten {
  blog_files : list (string * string);
  blog_opened : list string;
  blog_log : list (level * string)
}.

Definition noting (l : level) (msg : string) : eff Written unit :=
  fun w => (mkWritten (blog_files w) (blog_opened w) (blog_log w ++ [(l, msg)])%list, Ok tt).

(** [with open(path, "w", encoding="utf-8") as f: f.write(content)].  An
    open that raises touches nothing.  A write that raises leaves the file
    as the open and the failed write made it: opened, its text not
    written. *)
Definition write_text (env : BlogEnv) (path content : string) : eff Written unit :=
  fun w =>
    match blog_open env path with
    | Raises e => (w, Raise e)
    | Returns f =>
        let opened := (blog_opened w ++ [path])%list in
        match blog_write env path content with
        | Returns _ =>
            (mkWritten (blog_files w ++ [(path, content)])%list opened (blog_log w), Ok tt)
        | Raises e => (mkWritten (blog_files w) opened (blog_log w), Raise e)
        end
    end.

(** [f"{j}"]; the text of a list or of a dictionary is left [Unmodelled]. *)
Definition format_value (j : json) : result string :=
  match j with
  | JStr s => Ok s
  | JInt n => Ok (if (n <? 0)%Z then "-" +:+ decimal (Z.to_N (- n)) else decimal (Z.to_N n))
  | JBool b => Ok (if b then "True" else "False")
  | JNone => Ok "None"
  | _ => Unmodelled
  end.

Definition BLANK_LINE : string := NEWLINE +:+ NEWLINE.

(** [[s[i:i+n] for i in range(0, len(s), n)]], [fuel] being at least the
    length of [s]. *)
Fixpoint chunks_aux (fuel n : nat) (s : string) : list string :=
  match fuel with
  | O => []
  | S fuel' =>
      match s with
      | EmptyString => []
      | _ => take n s :: chunks_aux fuel' n (drop n s)
      end
  end.

Definition text_chunks (n : nat) (s : string) : list string :=
  chunks_aux (String.length s) n s.

(** The loop that groups the sentences into paragraphs; [rest] is empty
    when [i == len(sentences) - 1]. *)
Fixpoint group_sentences (sentences current_paragraph : list string) : list string :=
  match sentences with
  | [] => []
  | sentence :: rest =>
      let current_paragraph := (current_paragraph ++ [sentence])%list in
      if (3 <=? length current_paragraph)%nat || match rest with [] => true | _ => false end
      then join " " current_paragraph :: group_sentences rest []
      else group_sentences rest current_paragraph
  end.

(** What the loop over [enumerate(paragraphs[:10])] adds for a paragraph. *)
Definition section_of (i : nat) (paragraph : string) : string :=
  (if (i mod 3 =? 0)%nat
   then "### Part " +:+ decimal (N.of_nat (i / 3 + 1)) +:+ BLANK_LINE
   else "")
  +:+ paragraph +:+ BLANK_LINE.

Definition main_content (paragraphs : list string) : string :=
  join "" (imap section_of (firstn 10 paragraphs)).

(** [ContentProcessor._get_output_path] *)
Definition _get_output_path (env : BlogEnv) (video_id : json) (content_type : string)
  : eff Written string :=
  let base_path := path_join (blog_output_path env) content_type in
  exec _ <- of_result (call (blog_makedirs env base_path));
  exec video_id <- of_result (format_value video_id);
  done (path_join base_path video_id).

(** The summary that opens the post. *)
Definition summary_of (env : BlogEnv) (transcript_text : string) : eff Written string :=
  match summarizer_of env with
  | Some summarizer =>
      except
        (exec summarized_chunks <-
           of_result
             (map_result (fun chunk =>
                            do summary <- call (summarizer chunk);
                            do first <- getitem0 summary;
                            getitem first "summary_text")
                         (firstn 5 (text_chunks 1000 transcript_text)));
         of_result (join_json " " summarized_chunks))
        (fun e =>
           exec _ <- noting ERROR ("Error summarizing with transformers: " +:+ exn_str e);
           done (take 500 transcript_text +:+ "..."))
  | None => done (take 500 transcript_text +:+ "...")
  end.

(** The post made without OpenAI. *)
Definition basic_post (env : BlogEnv) (video_info : json) (transcript_text : string)
  : eff Written string :=
  exec summary_text <- summary_of env transcript_text;
  exec sentences <- of_result (call (sent_tokenize env transcript_text));
  let paragraphs := group_sentences sentences [] in
  exec title <- of_result (do title <- getitem video_info "title"; format_value title);
  exec channel <- of_result (do channel <- get video_info "channelTitle" (JStr "YouTube Channel");
                             format_value channel);
  exec published <- of_result (do date <- get video_info "publishedAt" (JStr "Unknown Date");
                               format_value date);
  done ("# " +:+ title +:+ BLANK_LINE
        +:+ "*Published by " +:+ channel +:+ " on " +:+ published +:+ "*" +:+ BLANK_LINE
        +:+ "## Introduction" +:+ BLANK_LINE +:+ summary_text +:+ BLANK_LINE
        +:+ "## Main Content" +:+ BLANK_LINE
        +:+ main_content paragraphs
        +:+ "## Conclusion" +:+ BLANK_LINE
        +:+ "This article was created based on a YouTube video titled '" +:+ title +:+ "'. "
        +:+ "For more details, please watch the original video on YouTube." +:+ BLANK_LINE).

(** [ContentProcessor.create_blog_post].  The text of the prompt goes to
    the service only; building it reads the title. *)
Definition create_blog_post (env : BlogEnv) (video_info : json)
    (transcript : list TranscriptEntry) : eff Written string :=
  except
    (let transcript_text := join " " (map text transcript) in
     exec blog_content <-
       (if negb (String.eqb (blog_api_key env) "") then
          except
            (exec title <- of_result (do title <- getitem video_info "title";
                                      format_value title);
             of_result (call (blog_completion env)))
            (fun e =>
               exec _ <- noting ERROR ("Error generating blog with OpenAI: " +:+ exn_str e);
               done (Some ""))
        else done (Some ""));
     exec blog_content <-
       (if falsy blog_content then basic_post env video_info transcript_text
        else done (default "" blog_content));
     exec video_id <- of_result (getitem video_info "id");
     exec output_dir <- _get_output_path env video_id "blogs";
     exec _ <- of_result (call (blog_makedirs env output_dir));
     exec name <- of_result (format_value video_id);
     let blog_file_path := path_join output_dir (name +:+ "_blog.md") in
     exec _ <- write_text env blog_file_path blog_content;
     exec _ <- noting INFO ("Blog post created: " +:+ blog_file_path);
     done blog_file_path)
    (fun e =>
       exec _ <- noting ERROR ("Error creating blog post: " +:+ exn_str e);
       of_result (Raise e)).

End Blog.

(** * Vocabulary of the properties *)

Import Py Urllib AntiDetection Os Run Scraper App.

(** ** Texts *)

(** A scheme as [urlsplit] accepts it. *)
Definition scheme_text (sch : string) : bool :=
  match sch with
  | String a _ => is_ascii_alpha a && forallb_str scheme_char sch
  | EmptyString => false
  end.

Definition host_char (c : ascii) : bool :=
  negb (has_char c "/?#[]") && negb (unsafe_url_byte c).

Definition path_char (c : ascii) : bool :=
  negb (has_char c "#?;") && negb (unsafe_url_byte c).

Definition query_char (c : ascii) : bool :=
  negb (Ascii.eqb c "#") && negb (unsafe_url_byte c).

Definition query_value_char (c : ascii) : bool :=
  negb (has_char c "#&%+") && negb (unsafe_url_byte c).

(** A path as it stands after the host: empty or starting with a slash, and
    free of the characters that end a path. *)
Definition path_text (p : string) : bool :=
  forallb_str path_char p && (String.eqb p "" || startswith "/" p).

(** No tab, carriage return or line feed. *)
Definition safe_text (s : string) : bool :=
  forallb_str (fun c => negb (unsafe_url_byte c)) s.

(** [a] occurs in [b]. *)
Definition infix (a b : string) : Prop := exists p q, b = p +:+ a +:+ q.

(** The canonical identifier: eleven characters of [[A-Za-z0-9_-]]. *)
Definition is_video_id (t : string) : bool :=
  (String.length t =? 11)%nat && forallb_str video_id_char t.

(** An identifier followed by one line feed: the one text other than an
    identifier that [re.match(r'^[a-zA-Z0-9_-]{11}$', ...)] accepts. *)
Definition is_video_id_line (url : string) : bool :=
  is_video_id (take 11 url) && String.eqb (drop 11 url) (str1 LF).

(** The supported shapes in the words of the specification, read as
    generously as they allow: the text holds one of the markers [watch?v=],
    [/shorts/], [/live/], [youtu.be/], or is a bare identifier. *)
Definition spec_supported_shape (url : string) : bool :=
  contains "watch?v=" url || contains "/shorts/" url || contains "/live/" url
  || contains "youtu.be/" url || is_video_id url.

(** ** Browsers *)

(** Every open browser is the one [self.driver] names and was launched by
    the manager, and no two browsers were ever open together. *)
Definition single_browser (m : Manager) : Prop :=
  (forall h, h ∈ open_browsers m -> driver m = Some h)
  /\ (forall h, h ∈ open_browsers m -> h < launched m)
  /\ peak m <= 1.

(** The launch goes through: the user agent, when one is rotated in, is
    picked, [uc.Chrome] starts a browser and the start-up script runs. *)
Definition launches (env : BrowserEnv) : bool :=
  match (if user_agent_rotation env then rotate_user_agent env else Returns ""),
        chrome env, execute_script env with
  | Returns _, Returns _, Returns _ => true
  | _, _, _ => false
  end.

(** A rotating launch in which every step succeeds. *)
Definition env_launch : BrowserEnv :=
  mkBrowserEnv true (Returns "agent") (Returns tt) (Returns tt).

(** ** Captions *)

Definition fails {A : Type} (a : answer A) : bool :=
  match a with
  | Returns _ => false
  | Raises _ => true
  end.

(** No call on the track yields captions. *)
Definition track_unavailable (t : Track) : bool :=
  fails (fetch t)
  && match translate_en t with
     | Returns translated => fails translated
     | Raises _ => true
     end.

(** No state of the resolver can obtain captions. *)
Definition no_transcript (env : TranscriptEnv) (video_id : string) : bool :=
  fails (api_get_transcript env video_id)
  && match api_list_transcripts env video_id with
     | Returns tracks => forallb track_unavailable tracks
     | Raises _ => true
     end.

Definition no_english (tracks : list Track) : bool :=
  forallb (fun t => negb (String.eqb (language_code t) "en")) tracks.

(** ** The strategies of [download_video] *)


















(** ** The page *)

(** A computation that leaves the page and the written documents as they
    are. *)
Definition keeps_page {A : Type} (m : M A) : Prop :=
  forall w, page (m w).1 = page w /\ documents (m w).1 = documents w.


(** [video_info.get(key, 'N/A')] *)
Definition field (video_info : json) (key : string) : json :=
  match get video_info key (JStr "N/A") with
  | Ok v => v
  | _ => JStr "N/A"
  end.


Definition metadata_file (env : PageEnv) (video_id : string) : string :=
  path_join (path_join (output_path env) "metadata") (video_id +:+ "_metadata.json").

(** ** Concrete environments *)

Definition nothing_yet : World := mkWorld ∅ [] [] [].

Definition a_page : Page :=
  mkPage "A title - YouTube" None (Some "A channel") (Some "1,234 views").

(** A credential is configured, the API knows no such video, and the page
    can be scraped. *)
Definition env_zero_results : MetadataEnv :=
  mkMetadataEnv true (fun _ => Returns (JDict [("items", JList [])]))
    (Returns tt) (fun _ => Returns a_page) "2024-01-01T00:00:00".

(** Every video method fails: yt-dlp raises, the relay times out while it
    waits for the download buttons, pytube raises on its streams. *)
Definition env_all_fail : VideoEnv :=
  mkVideoEnv "./downloads" (Returns tt) true false (Returns "")
    (Returns tt) (mkTool [] (Raises (Exn "DownloadError" "ERROR: Video unavailable")))
    (Returns tt) (Returns tt) (Raises (Exn "TimeoutException" "Message: "))
    (mkTool [] (Returns tt))
    (Returns tt) (Raises (Exn "VideoUnavailable" "abcdefghijk is unavailable"))
    (mkTool [] (Returns "")).

(** yt-dlp raises, the relay leaves a file of 500000 bytes, pytube downloads
    a file of 42 bytes. *)
Definition env_small_relay : VideoEnv :=
  mkVideoEnv "./downloads" (Returns tt) true false (Returns "")
    (Returns tt) (mkTool [] (Raises (Exn "DownloadError" "ERROR: Video unavailable")))
    (Returns tt) (Returns tt) (Returns true)
    (mkTool [("./downloads/abcdefghijk/abcdefghijk.mp4", 500000%N)] (Returns tt))
    (Returns tt) (Returns true)
    (mkTool [("./downloads/abcdefghijk/A title.mp4", 42%N)]
       (Returns "./downloads/abcdefghijk/A title.mp4")).


(** yt-dlp raises, the browser of the relay cannot be launched, pytube
    downloads a file of 42 bytes. *)
Definition env_no_browser : VideoEnv :=
  mkVideoEnv "./downloads" (Returns tt) true false (Returns "")
    (Returns tt) (mkTool [] (Raises (Exn "DownloadError" "ERROR: Video unavailable")))
    (Raises (Exn "WebDriverException" "Message: chrome not reachable"))
    (Returns tt) (Returns true) (mkTool [] (Returns tt))
    (Returns tt) (Returns true)
    (mkTool [("./downloads/abcdefghijk/A title.mp4", 42%N)]
       (Returns "./downloads/abcdefghijk/A title.mp4")).

(** The default language has no captions; the only track is German and can
    be translated. *)
Definition german_track : Track :=
  mkTrack "de" (Returns [mkEntry "Hallo" (0 # 1) (3 # 2)])
    (Returns (Returns [mkEntry "Hello" (0 # 1) (3 # 2)])).

Definition env_german : TranscriptEnv :=
  mkTranscriptEnv (fun _ => Raises (Exn "NoTranscriptFound" "no transcript"))
    (fun _ => Returns [german_track]).

(** yt-dlp is missing and cannot be installed; pytube downloads an mp4 file
    of 42 bytes, which converts to an mp3 file of 30 bytes. *)
Definition env_mp4_audio : AudioEnv :=
  mkAudioEnv "./downloads" (Returns tt) false
    (Raises (Exn "CalledProcessError" "pip failed")) false (Returns "")
    (Returns tt) (mkTool [] (Returns tt))
    (Returns tt) (Returns true)
    (mkTool [("./downloads/abcdefghijk/A title.mp4", 42%N)]
       (Returns "./downloads/abcdefghijk/A title.mp4"))
    (fun _ => mkConversion (Some 30%N) (Returns tt)).

(** The page asked for the video and the transcript of a short link. *)
Definition env_page : PageEnv :=
  mkPageEnv "https://youtu.be/abcdefghijk" true false true true false
    env_zero_results env_all_fail env_mp4_audio env_german "./output"
    (Returns tt) (Returns tt) (Returns tt) (Returns tt) "2024-01-02T00:00:00".

(** What scraping yields for [a_page]. *)
Definition scraped_record : json :=
  JDict
    [("id", JStr "abcdefghijk"); ("title", JStr "A title"); ("description", JStr "");
     ("channelTitle", JStr "A channel"); ("viewCount", JStr "1234");
     ("thumbnailUrl", JStr "https://i.ytimg.com/vi/abcdefghijk/hqdefault.jpg");
     ("publishedAt", JStr "2024-01-01T00:00:00"); ("scraped", JBool true)].


(** ** Vocabulary and environments of the further properties *)

Module Terms.
Import Py Urllib AntiDetection Os Run Scraper App Text Growth Config Proxies Effects Social
  Startup Channels Blog.

(** A computation whose outcome is always a value or an exception. *)
Definition modelled {A : Type} (m : M A) : Prop := forall w, (m w).2 <> Unmodelled.

(** A computation that returns in every world. *)
Definition always_returns {A : Type} (m : M A) : Prop := forall w, exists a, (m w).2 = Ok a.

(** A character of the parameters that follow the identifier in a query. *)
Definition parameter_char (c : ascii) : bool :=
  negb (has_char c "#%") && negb (unsafe_url_byte c).

(** A keyword as the trend analysis lists them: 3 to 15 letters of [a-z],
    and no stop word. *)
Definition is_keyword (word : string) : bool :=
  forallb_str is_lower word
  && (3 <=? String.length word)%nat && (String.length word <=? 15)%nat
  && negb (existsb (String.eqb word) stop_words).

(** The number of times [word] is found in [all_text], stop words apart. *)
Definition occurrences (all_text word : string) : nat :=
  count_occ string_dec
    (List.filter (fun word => negb (existsb (String.eqb word) stop_words))
       (findall_words all_text))
    word.

(** The text the scraping branch of the trend analysis works on. *)
Definition titles_text (titles : list string) : string :=
  lower (join " " (List.filter (fun text => negb (String.eqb text "")) titles)).

Definition no_bracket (s : string) : bool := negb (has_char "[" s) && negb (has_char "]" s).

(** A title as a numbered list carries it: not empty, on one line, starting
    with no digit, dash, dot or space and ending with no space. *)
Definition plain_title (title : string) : bool :=
  match title with
  | EmptyString => false
  | String c _ => negb (numbering_char c)
  end
  && negb (has_char LF title) && String.eqb (rstrip isspace title) title.

(** The line [n. title] of a numbered list, for the title at index [i]. *)
Definition numbered_line (i : nat) (title : string) : string :=
  decimal (N.of_nat (S i)) +:+ ". " +:+ title.

Definition numbered_list (titles : list string) : string :=
  join (str1 LF) (imap numbered_line titles).

(** The numbers 1, 2, 10 to 29, 100 to 299, and so on. *)
Definition starts_with_1_or_2 (i : nat) : bool :=
  startswith "1" (decimal (N.of_nat (S i))) || startswith "2" (decimal (N.of_nat (S i))).

(** The titles of a numbered list whose numbers, counted from [i + 1], start
    with 1 or 2. *)
Fixpoint kept_titles (i : nat) (titles : list string) : list string :=
  match titles with
  | [] => []
  | title :: titles' =>
      if starts_with_1_or_2 i then title :: kept_titles (S i) titles'
      else kept_titles (S i) titles'
  end.

Definition is_sensitive (k : string) : bool := existsb (String.eqb k) sensitive.

(** A value that holds no tuple. *)
Fixpoint tuple_free (v : value) : bool :=
  match v with
  | VTuple _ => false
  | VList l => forallb tuple_free l
  | VDict d => forallb (fun kv : string * value => let (_, x) := kv in tuple_free x) d
  | _ => true
  end.

(** What a setting is after the configuration was saved and loaded. *)
Definition after_round_trip (kv : string * value) : string * value :=
  if is_sensitive (fst kv) then kv else (fst kv, reloaded (snd kv)).

(** An environment variable that is not set, or set to the empty string. *)
Definition unset (variable : option string) : bool :=
  match variable with
  | Some v => String.eqb v ""
  | None => true
  end.

(** The path [__init__] gives the proxy list. *)
Definition default_proxy_list_path (environ : string -> option string) : string :=
  match environ "PROXY_LIST_PATH" with
  | Some path => path
  | None => "./proxies.txt"
  end.

(** The media and the text a call that posts carries. *)
Definition carries (r : request) : option (string * string) :=
  match r with
  | put_video media_path title => Some (media_path, title)
  | put_photo media_path message => Some (media_path, message)
  | video_upload media_path caption | photo_upload media_path caption
  | upload_video media_path caption | upload_photo media_path caption =>
      Some (media_path, caption)
  | _ => None
  end.

(** The calls that post a video, and the client a call is made on. *)
Definition posts_video (r : request) : bool :=
  match r with
  | put_video _ _ | video_upload _ _ | upload_video _ _ => true
  | _ => false
  end.

Definition made_on (r : request) : option instagram :=
  match r with
  | video_upload _ _ | photo_upload _ _ => Some InstagrapiClient
  | upload_video _ _ | upload_photo _ _ => Some Bot
  | _ => None
  end.

(** The page of [env_page] with the address of another site. *)
Definition env_other_site : PageEnv :=
  mkPageEnv "https://example.org/video" true true true true false
    env_zero_results env_all_fail env_mp4_audio env_german "./output"
    (Returns tt) (Returns tt) (Returns tt) (Returns tt) "2024-01-02T00:00:00".

(** The same page with an address whose host opens a bracket that is never
    closed. *)
Definition env_broken_address : PageEnv :=
  mkPageEnv "http://[example.org/video" true true true true false
    env_zero_results env_all_fail env_mp4_audio env_german "./output"
    (Returns tt) (Returns tt) (Returns tt) (Returns tt) "2024-01-02T00:00:00".

(** yt-dlp is missing and cannot be installed, and pytube finds no video. *)
Definition env_audio_fails : AudioEnv :=
  mkAudioEnv "./downloads" (Returns tt) false
    (Raises (Exn "CalledProcessError" "pip failed")) false (Returns "")
    (Returns tt) (mkTool [] (Returns tt))
    (Raises (Exn "VideoUnavailable" "abcdefghijk is unavailable")) (Returns true)
    (mkTool [] (Returns ""))
    (fun _ => mkConversion None (Returns tt)).

(** An English track that cannot be fetched, and one that can. *)
Definition broken_english_track : Track :=
  mkTrack "en" (Raises (Exn "CouldNotRetrieveTranscript" "blocked"))
    (Raises (Exn "NotTranslatable" "not translatable")).

Definition english_track : Track :=
  mkTrack "en" (Returns [mkEntry "Hello" (0 # 1) (3 # 2)])
    (Raises (Exn "NotTranslatable" "not translatable")).

Definition env_three_tracks : TranscriptEnv :=
  mkTranscriptEnv (fun _ => Raises (Exn "NoTranscriptFound" "no transcript"))
    (fun _ => Returns [german_track; broken_english_track; english_track]).

(** No API key; the trending page shows three titles. *)
Definition env_trending_page : TrendsEnv :=
  mkTrendsEnv "" (Returns tt) (Returns JNone) (Returns tt)
    (Returns ["Rust tutorial for beginners"; ""; "Advanced Rust tutorial";
              "The rust belt"]).

(** Neither an OpenAI key nor a YouTube key. *)
Definition env_no_keys : IdeasEnv :=
  mkIdeasEnv "" "" (Returns tt) (Returns JNone) (Returns JNone) (Returns "").

(** An OpenAI key, and an answer that is a numbered list of ten titles. *)
Definition env_numbered_answer : IdeasEnv :=
  mkIdeasEnv "sk-test" "" (Returns tt) (Returns JNone) (Returns JNone)
    (Returns (numbered_list
                ["Alpha"; "Beta"; "Gamma"; "Delta"; "Epsilon"; "Zeta"; "Eta"; "Theta";
                 "Iota"; "Kappa"])).

(** A configuration in which two secrets, a path and a switch were set by
    hand, and no file yet. *)
Definition typed_settings : State :=
  mkState
    (update (default_config (fun _ => None))
       [("youtube_api_key", VStr "typed-api-key");
        ("instagram_password", VStr "typed-password");
        ("download_path", VStr "/data/downloads");
        ("proxy_rotation", VBool false)])
    ∅.

(** The sentences three by three, the last group holding what is left. *)
Fixpoint threes (sentences : list string) : list (list string) :=
  match sentences with
  | a :: b :: c :: rest => [a; b; c] :: threes rest
  | [] => []
  | _ => [sentences]
  end.

(** How far into the text of the transcript the introduction reads: the
    first five chunks of 1000 characters when a summarizer is configured,
    the first 500 characters without one. *)
Definition summary_reach (env : BlogEnv) : nat :=
  match summarizer_of env with
  | Some _ => 5000
  | None => 500
  end.

(** [" ".join([item["text"] for item in transcript])] *)
Definition transcript_text_of (transcript : list TranscriptEntry) : string :=
  join " " (map text transcript).

(** The path of the post of a video named [name]. *)
Definition blog_path (env : BlogEnv) (name : string) : string :=
  path_join (path_join (path_join (blog_output_path env) "blogs") name)
    (name +:+ "_blog.md").

(** The identifier of the video as a text. *)
Definition video_name (video_info : json) : result string :=
  do video_id <- getitem video_info "id";
  format_value video_id.

(** The channels counted so far: every identifier can be a key and is
    listed once, none is the channel asked about, and every count is at
    least 1. *)
Definition counted (channel_id : string) (channel_data : list Channel) : Prop :=
  NoDup (map channel_id_of channel_data)
  /\ Forall (fun c => hashable (channel_id_of c) = Ok tt
                      /\ differs (channel_id_of c) channel_id = true
                      /\ 1 <= count_of c) channel_data.

(** A computation that opens and writes no file. *)
Definition logs_only {A} (m : eff Written A) : Prop :=
  forall w w' r, m w = (w', r) ->
    blog_files w' = blog_files w /\ blog_opened w' = blog_opened w.

(** Services that answer every call. *)
Definition env_services : SocialEnv :=
  mkSocialEnv (Returns tt) (Returns tt) (Returns tt) (fun _ => Returns tt)
    (fun _ => Returns tt) (fun _ => Returns (JDict []))
    (fun _ => Returns (mkMedia (JInt 0) (JInt 0) None)) "2024-01-02T00:00:00".

(** No environment variable and no proxy file; free proxies can be had. *)
Definition env_start : StartEnv :=
  mkStartEnv (fun _ => None) (Returns tt) (Returns tt) "Mozilla/5.0" (fun _ => None)
    (fun _ => Returns (Some "203.0.113.7:8080")) (Returns tt) (Returns tt) env_services
    (Returns tt).

(** A [config.json] written by hand: a token, and proxy rotation off. *)
Definition settings_written_by_hand : Dict :=
  [("facebook_access_token", VStr "EAAB-token"); ("proxy_rotation", VBool false)].

Definition settings_file : Store :=
  {[ "config.json" := Document (VDict settings_written_by_hand) ]}.

(** No OpenAI key and no summarizer; the directories can be made and the
    file written. *)
Definition env_blog : BlogEnv :=
  mkBlogEnv "" "./output" (Returns None) None (fun _ => Returns [])
    (fun _ => Returns tt) (fun _ => Returns tt) (fun _ _ => Returns tt).

(** The same with a tokenizer that cuts the text after each full stop that
    a space follows. *)
Definition env_blog_sentences : BlogEnv :=
  mkBlogEnv "" "./output" (Returns None) None (fun t => Returns (split ". " t))
    (fun _ => Returns tt) (fun _ => Returns tt) (fun _ _ => Returns tt).

(** The directories can be made and the file opened; the disk is full when
    the text is written. *)
Definition env_blog_disk_full : BlogEnv :=
  mkBlogEnv "sk-test" "./output" (Returns (Some "A post about the video.")) None
    (fun _ => Returns []) (fun _ => Returns tt) (fun _ => Returns tt)
    (fun _ _ => Raises (Exn "OSError" "[Errno 28] No space left on device")).

(** An OpenAI key, and a post for answer. *)
Definition env_blog_openai : BlogEnv :=
  mkBlogEnv "sk-test" "./output" (Returns (Some "A post about the video.")) None
    (fun _ => Returns []) (fun _ => Returns tt) (fun _ => Returns tt)
    (fun _ _ => Returns tt).

Definition video_record : json :=
  JDict [("id", JStr "abcdefghijk"); ("title", JStr "A video")].

(** A transcript of [n] entries, each one sentence of 39 or 40
    characters. *)
Definition talk (n : nat) : list TranscriptEntry :=
  map (fun i => mkEntry ("This is sentence number " +:+ decimal (N.of_nat i)
                         +:+ " of the talk.") (0 # 1) (1 # 1))
      (seq 1 n).

End Terms.

(** * Properties *)

(** ** Texts *)

Section Texts.

#[local] Arguments String.append : simpl nomatch.
#[local] Arguments Ascii.eqb : simpl nomatch.

Ltac by_chars c := destruct c as [[] [] [] [] [] [] [] []]; try reflexivity; try discriminate.

Lemma append_assoc (a b c : string) : (a +:+ b) +:+ c = a +:+ (b +:+ c).
Proof. induction a as [|x a IH]; simpl; [reflexivity | f_equal; exact IH]. Qed.

Lemma append_empty_r (a : string) : a +:+ "" = a.
Proof. induction a as [|x a IH]; simpl; [reflexivity | f_equal; exact IH]. Qed.

Lemma forallb_str_impl (p q : ascii -> bool) t :
  (forall c, p c = true -> q c = true) -> forallb_str p t = true -> forallb_str q t = true.
Proof.
  intros Hpq. induction t as [|a t IH]; simpl; [reflexivity|].
  intros H. apply andb_prop in H as [Ha Ht]. rewrite (Hpq _ Ha), (IH Ht). reflexivity.
Qed.

Lemma forallb_str_app p a b :
  forallb_str p (a +:+ b) = forallb_str p a && forallb_str p b.
Proof. induction a as [|x a IH]; simpl; [reflexivity | now rewrite IH, andb_assoc]. Qed.

Lemma break_at_none stop t :
  forallb_str (fun c => negb (stop c)) t = true -> break_at stop t = (t, "").
Proof.
  induction t as [|a t IH]; simpl; [reflexivity|].
  intros H. apply andb_prop in H as [Ha Ht].
  apply negb_true_iff in Ha. rewrite Ha, (IH Ht). reflexivity.
Qed.

Lemma break_at_app stop a b :
  forallb_str (fun c => negb (stop c)) a = true ->
  break_at stop (a +:+ b) = (a +:+ fst (break_at stop b), snd (break_at stop b)).
Proof.
  induction a as [|x a IH]; simpl.
  - intros _. now destruct (break_at stop b).
  - intros H. apply andb_prop in H as [Hx Ha]. apply negb_true_iff in Hx.
    rewrite Hx, (IH Ha). reflexivity.
Qed.

Lemma break_at_append stop s : fst (break_at stop s) +:+ snd (break_at stop s) = s.
Proof.
  induction s as [|a s IH]; simpl; [reflexivity|].
  destruct (stop a); simpl; [reflexivity|].
  destruct (break_at stop s) as [l r]. simpl in *. now rewrite IH.
Qed.

Lemma filter_str_all keep t : forallb_str keep t = true -> filter_str keep t = t.
Proof.
  induction t as [|a t IH]; simpl; [reflexivity|].
  intros H. apply andb_prop in H as [Ha Ht]. rewrite Ha, (IH Ht). reflexivity.
Qed.

Lemma has_char_none c t :
  forallb_str (fun a => negb (Ascii.eqb a c)) t = true -> has_char c t = false.
Proof.
  induction t as [|a t IH]; simpl; [reflexivity|].
  intros H. apply andb_prop in H as [Ha Ht]. apply negb_true_iff in Ha.
  rewrite Ha. auto.
Qed.

Lemma has_char_app c a b : has_char c (a +:+ b) = has_char c a || has_char c b.
Proof. induction a as [|x a IH]; simpl; [reflexivity|]. destruct (Ascii.eqb x c); auto. Qed.

Lemma startswith_app p s : startswith p (p +:+ s) = true.
Proof. induction p as [|x p IH]; simpl; [reflexivity|]. now rewrite Ascii.eqb_refl. Qed.

Lemma startswith_refl p : startswith p p = true.
Proof. induction p as [|a p IH]; simpl; [reflexivity|]. now rewrite Ascii.eqb_refl. Qed.

Lemma startswith_spec p s : startswith p s = true <-> exists q, s = p +:+ q.
Proof.
  revert s. induction p as [|a p IH]; intros s; simpl.
  - split; eauto.
  - destruct s as [|b s]; [split; [discriminate | intros (q & Hq); discriminate]|].
    destruct (Ascii.eqb a b) eqn:E.
    + apply Ascii.eqb_eq in E as ->. rewrite IH. split; intros (q & Hq); exists q; congruence.
    + split; [discriminate|]. intros (q & Hq). injection Hq as -> _.
      now rewrite Ascii.eqb_refl in E.
Qed.

Lemma contains_unfold x a s :
  contains x (String a s) = if startswith x (String a s) then true else contains x s.
Proof. reflexivity. Qed.

Lemma contains_cons sub a s :
  contains sub (String a s) = startswith sub (String a s) || contains sub s.
Proof. rewrite contains_unfold. now destruct (startswith sub (String a s)). Qed.

Lemma contains_startswith sub s : startswith sub s = true -> contains sub s = true.
Proof. destruct s; simpl; intros ->; reflexivity. Qed.

Lemma contains_prefix p s : contains p (p +:+ s) = true.
Proof. apply contains_startswith, startswith_app. Qed.

Lemma contains_char c t : contains (str1 c) t = has_char c t.
Proof.
  induction t as [|a t IH]; simpl; [reflexivity|].
  rewrite (Ascii.eqb_sym c a). destruct (Ascii.eqb a c); [reflexivity | exact IH].
Qed.

Lemma contains_needs_char c x t : has_char c t = false -> contains (String c x) t = false.
Proof.
  induction t as [|a t IH]; simpl; [reflexivity|].
  rewrite (Ascii.eqb_sym c a). destruct (Ascii.eqb a c); [discriminate | exact IH].
Qed.

Lemma contains_app_r x p s : contains x s = true -> contains x (p +:+ s) = true.
Proof.
  intros H. induction p as [|a p IH]; [exact H|].
  change (String a p +:+ s) with (String a (p +:+ s)).
  rewrite contains_unfold, IH. now destruct (startswith x (String a (p +:+ s))).
Qed.

Lemma startswith_needs_char c p s :
  has_char c p = true -> has_char c s = false -> startswith p s = false.
Proof.
  intros Hp Hs. destruct (startswith p s) eqn:E; [|reflexivity].
  apply startswith_spec in E as (q & ->). rewrite has_char_app, Hp in Hs. discriminate.
Qed.

Lemma split_aux_none sep s acc :
  contains sep s = false -> split_aux sep s 0 acc = [acc +:+ s].
Proof.
  revert acc. induction s as [|a s IH]; intros acc H.
  - simpl. now rewrite append_empty_r.
  - rewrite contains_unfold in H.
    change (split_aux sep (String a s) 0 acc)
      with (if startswith sep (String a s)
            then acc :: split_aux sep s (String.length sep - 1) ""
            else split_aux sep s 0 (acc +:+ str1 a)).
    destruct (startswith sep (String a s)); [discriminate|].
    rewrite (IH _ H). unfold str1. now rewrite append_assoc.
Qed.

Lemma split_aux_head c s acc :
  hd "" (split_aux (str1 c) s 0 acc) = acc +:+ fst (break_at (Ascii.eqb c) s).
Proof.
  revert acc. induction s as [|a s IH]; intros acc; simpl.
  - now rewrite append_empty_r.
  - destruct (Ascii.eqb c a); simpl.
    + now rewrite append_empty_r.
    + rewrite IH. destruct (break_at (Ascii.eqb c) s). simpl.
      unfold str1. now rewrite append_assoc.
Qed.

Lemma split_aux_cons sep s k acc : exists x l, split_aux sep s k acc = x :: l.
Proof.
  revert k acc. induction s as [|a s IH]; intros k acc; simpl; [eauto|].
  destruct k; [|apply IH]. destruct (startswith sep (String a s)); [eauto | apply IH].
Qed.

Lemma replace_aux_none old new s :
  contains old s = false -> replace_aux old new s 0 = s.
Proof.
  induction s as [|a s IH]; intros H; [reflexivity|].
  rewrite contains_unfold in H.
  change (replace_aux old new (String a s) 0)
    with (if startswith old (String a s)
          then new +:+ replace_aux old new s (String.length old - 1)
          else String a (replace_aux old new s 0)).
  destruct (startswith old (String a s)); [discriminate|].
  now rewrite (IH H).
Qed.

(** *** Occurrences *)

Lemma infix_refl a : infix a a.
Proof. exists "", "". simpl. now rewrite append_empty_r. Qed.

Lemma infix_trans a b c : infix a b -> infix b c -> infix a c.
Proof.
  intros (p & q & ->) (p' & q' & ->). exists (p' +:+ p), (q +:+ q').
  now rewrite !append_assoc.
Qed.

Lemma infix_cons a c b : infix a b -> infix a (String c b).
Proof. intros (p & q & ->). now exists (String c p), q. Qed.

Lemma infix_suffix p s : infix s (p +:+ s).
Proof. exists p, "". now rewrite append_empty_r. Qed.

Lemma infix_prefix s q : infix s (s +:+ q).
Proof. now exists "", q. Qed.

Lemma contains_spec x s : contains x s = true <-> infix x s.
Proof.
  induction s as [|a s IH].
  - change (contains x "") with (if startswith x "" then true else false).
    destruct (startswith x "") eqn:E.
    + apply startswith_spec in E as (q & Hq). split; [|reflexivity]. intros _.
      exists "", q. exact Hq.
    + split; [discriminate|]. intros (p & q & Hq).
      destruct p; [|discriminate]. simpl in Hq.
      assert (startswith x "" = true) by (apply startswith_spec; eauto). congruence.
  - rewrite contains_unfold.
    destruct (startswith x (String a s)) eqn:E.
    + apply startswith_spec in E as (q & Hq). split; [|reflexivity]. intros _.
      exists "", q. exact Hq.
    + rewrite IH. split; [apply infix_cons|].
      intros (p & q & Hq). destruct p as [|b p].
      * simpl in Hq. assert (startswith x (String a s) = true) by (apply startswith_spec; eauto).
        congruence.
      * injection Hq as _ ->. now exists p, q.
Qed.

Lemma contains_infix x a b : infix a b -> contains x b = false -> contains x a = false.
Proof.
  intros Hab Hb. destruct (contains x a) eqn:E; [|reflexivity].
  apply contains_spec in E.
  assert (contains x b = true) by (apply contains_spec; eapply infix_trans; eauto).
  congruence.
Qed.

Lemma has_char_infix c a b : infix a b -> has_char c b = false -> has_char c a = false.
Proof. rewrite <- !contains_char. apply contains_infix. Qed.

Lemma lstrip_infix f s : infix (lstrip f s) s.
Proof.
  induction s as [|a s IH]; simpl; [apply infix_refl|].
  destruct (f a); [now apply infix_cons | apply infix_refl].
Qed.

Lemma drop_infix n s : infix (drop n s) s.
Proof.
  revert s. induction n as [|n IH]; intros s; simpl; [apply infix_refl|].
  destruct s; [apply infix_refl | now apply infix_cons].
Qed.

Lemma break_at_fst_infix stop s : infix (fst (break_at stop s)) s.
Proof. rewrite <- (break_at_append stop s) at 2. apply infix_prefix. Qed.

Lemma break_at_snd_infix stop s : infix (snd (break_at stop s)) s.
Proof. rewrite <- (break_at_append stop s) at 2. apply infix_suffix. Qed.

Lemma endswith_contains p s : endswith p s = true -> contains p s = true.
Proof.
  unfold endswith. intros H. apply andb_prop in H as [H _]. apply String.eqb_eq in H.
  apply contains_spec. rewrite <- H. apply drop_infix.
Qed.

(** *** Lengths *)

Lemma take_all n s : (String.length s <= n)%nat -> take n s = s.
Proof.
  revert s. induction n as [|n IH]; intros [|a s] H; simpl in *; try reflexivity; try lia.
  f_equal. apply IH. lia.
Qed.

Lemma drop_all n s : (String.length s <= n)%nat -> drop n s = "".
Proof.
  revert s. induction n as [|n IH]; intros [|a s] H; simpl in *; try reflexivity; try lia.
  apply IH. lia.
Qed.

Lemma length_take n s : String.length (take n s) = Nat.min n (String.length s).
Proof.
  revert s. induction n as [|n IH]; intros [|a s]; simpl; try reflexivity.
  now rewrite IH.
Qed.

Lemma length_drop n s : String.length (drop n s) = (String.length s - n)%nat.
Proof.
  revert s. induction n as [|n IH]; intros [|a s]; simpl; try reflexivity; try lia.
  apply IH.
Qed.

Lemma forallb_take p n s : forallb_str p s = true -> forallb_str p (take n s) = true.
Proof.
  revert s. induction n as [|n IH]; intros [|a s] H; simpl in *; try reflexivity.
  apply andb_prop in H as [Ha Hs]. now rewrite Ha, IH.
Qed.

Lemma forallb_drop p n s : forallb_str p s = true -> forallb_str p (drop n s) = true.
Proof.
  revert s. induction n as [|n IH]; intros [|a s] H; simpl in *; auto.
  apply andb_prop in H as [Ha Hs]. auto.
Qed.

Lemma forallb_lstrip p f s : forallb_str p s = true -> forallb_str p (lstrip f s) = true.
Proof.
  induction s as [|a s IH]; simpl; [auto|]. intros H.
  destruct (f a); [|exact H]. apply andb_prop in H as [_ H]. auto.
Qed.

(** *** Classes of characters *)

Lemma alpha_not_space a : is_ascii_alpha a = true -> c0_control_or_space a = false.
Proof. by_chars a. Qed.

Lemma scheme_char_safe c : scheme_char c = true -> negb (unsafe_url_byte c) = true.
Proof. by_chars c. Qed.

Lemma scheme_char_colon c : scheme_char c = true -> negb (Ascii.eqb ":" c) = true.
Proof. by_chars c. Qed.

Lemma host_char_safe c : host_char c = true -> negb (unsafe_url_byte c) = true.
Proof. by_chars c. Qed.

Lemma host_char_stop c : host_char c = true -> negb (has_char c "/?#") = true.
Proof. by_chars c. Qed.

Lemma host_char_open c : host_char c = true -> negb (Ascii.eqb c "[") = true.
Proof. by_chars c. Qed.

Lemma host_char_close c : host_char c = true -> negb (Ascii.eqb c "]") = true.
Proof. by_chars c. Qed.

Lemma path_char_safe c : path_char c = true -> negb (unsafe_url_byte c) = true.
Proof. by_chars c. Qed.

Lemma path_char_hash c : path_char c = true -> negb (Ascii.eqb "#" c) = true.
Proof. by_chars c. Qed.

Lemma path_char_mark c : path_char c = true -> negb (Ascii.eqb "?" c) = true.
Proof. by_chars c. Qed.

Lemma path_char_semi c : path_char c = true -> negb (Ascii.eqb c ";") = true.
Proof. by_chars c. Qed.

Lemma query_char_safe c : query_char c = true -> negb (unsafe_url_byte c) = true.
Proof. by_chars c. Qed.

Lemma query_char_hash c : query_char c = true -> negb (Ascii.eqb "#" c) = true.
Proof. by_chars c. Qed.

Lemma query_value_amp c : query_value_char c = true -> negb (Ascii.eqb c "&") = true.
Proof. by_chars c. Qed.

Lemma query_value_pct c : query_value_char c = true -> negb (Ascii.eqb c "%") = true.
Proof. by_chars c. Qed.

Lemma query_value_plus c : query_value_char c = true -> negb (Ascii.eqb c "+") = true.
Proof. by_chars c. Qed.

Lemma query_value_query c : query_value_char c = true -> query_char c = true.
Proof. by_chars c. Qed.

Lemma id_char_safe c : video_id_char c = true -> negb (unsafe_url_byte c) = true.
Proof. by_chars c. Qed.

Lemma id_char_path c : video_id_char c = true -> path_char c = true.
Proof. by_chars c. Qed.

Lemma id_char_query c : video_id_char c = true -> query_value_char c = true.
Proof. by_chars c. Qed.

Lemma id_char_not c x :
  video_id_char x = false -> video_id_char c = true -> negb (Ascii.eqb c x) = true.
Proof.
  intros Hx Hc. destruct (Ascii.eqb c x) eqn:E; [|reflexivity].
  apply Ascii.eqb_eq in E as ->. congruence.
Qed.

Lemma id_text_has_no c t :
  video_id_char c = false -> forallb_str video_id_char t = true -> has_char c t = false.
Proof.
  intros Hc Ht. apply has_char_none.
  exact (forallb_str_impl _ _ _ (fun a => id_char_not a c Hc) Ht).
Qed.

(** *** [urlparse] on a plain URL *)

Lemma netloc_ends p tail :
  (String.eqb p "" || startswith "/" p = true) ->
  (tail = "" \/ exists q, tail = String "?" q) ->
  break_at (fun c => has_char c "/?#") (p +:+ tail) = ("", p +:+ tail).
Proof.
  intros Hp Ht. destruct p as [|c p].
  - simpl. destruct Ht as [-> | [q ->]]; reflexivity.
  - simpl in Hp. destruct (Ascii.eqb "/" c) eqn:E; [|discriminate].
    apply Ascii.eqb_eq in E as <-. reflexivity.
Qed.

(** The six parts of [scheme://host/path?query]. *)
Lemma urlparse_tail sch host p tail q :
  scheme_text sch = true -> forallb_str host_char host = true ->
  path_text p = true -> forallb_str query_char q = true ->
  (tail = "" /\ q = "" \/ tail = String "?" q) ->
  urlparse (sch +:+ "://" +:+ host +:+ p +:+ tail)
  = Ok (mkParseResult (lower sch) host p "" q "").
Proof.
  intros Hs Hh Hp Hq Ht.
  assert (Htq : forallb_str query_char tail = true).
  { destruct Ht as [[-> _] | ->]; [reflexivity | simpl; now rewrite Hq]. }
  destruct sch as [|a sch']; [discriminate|].
  simpl in Hs. apply andb_prop in Hs as [Ha Hs]. apply andb_prop in Hs as [Ha' Hs].
  apply andb_prop in Hp as [Hp Hp0].
  unfold urlparse.
  assert (Hsch : forallb_str scheme_char (String a sch') = true) by (simpl; now rewrite Ha', Hs).
  replace (lstrip c0_control_or_space (String a sch' +:+ "://" +:+ host +:+ p +:+ tail))
    with (String a sch' +:+ "://" +:+ host +:+ p +:+ tail)
    by (simpl; now rewrite (alpha_not_space _ Ha)).
  rewrite filter_str_all.
  2:{ rewrite !forallb_str_app.
      rewrite (forallb_str_impl _ _ _ scheme_char_safe Hsch).
      rewrite (forallb_str_impl _ _ _ host_char_safe Hh).
      rewrite (forallb_str_impl _ _ _ path_char_safe Hp).
      rewrite (forallb_str_impl _ _ _ query_char_safe Htq). reflexivity. }
  unfold split_scheme.
  rewrite break_at_app by (exact (forallb_str_impl _ _ _ scheme_char_colon Hsch)).
  simpl break_at. simpl fst. simpl snd. rewrite append_empty_r.
  cbv beta iota. rewrite Ha, Hsch. change (true && true) with true. cbv beta iota.
  change (startswith "//" (String "/" (String "/" (host +:+ p +:+ tail)))) with true.
  cbv beta iota. unfold _splitnetloc.
  change (drop 2 (String "/" (String "/" (host +:+ p +:+ tail)))) with (host +:+ p +:+ tail).
  rewrite break_at_app by (exact (forallb_str_impl _ _ _ host_char_stop Hh)).
  rewrite netloc_ends by (auto; destruct Ht as [[-> _] | ->]; eauto).
  simpl fst. simpl snd. rewrite append_empty_r.
  rewrite (has_char_none "[" host) by (exact (forallb_str_impl _ _ _ host_char_open Hh)).
  rewrite (has_char_none "]" host) by (exact (forallb_str_impl _ _ _ host_char_close Hh)).
  cbv beta iota. simpl xorb. cbv beta iota.
  unfold partition1.
  rewrite (break_at_none (Ascii.eqb "#") (p +:+ tail)).
  2:{ rewrite forallb_str_app, (forallb_str_impl _ _ _ path_char_hash Hp),
        (forallb_str_impl _ _ _ query_char_hash Htq). reflexivity. }
  cbv beta iota.
  rewrite break_at_app by (exact (forallb_str_impl _ _ _ path_char_mark Hp)).
  assert (Hsemi : has_char ";" p = false).
  { apply has_char_none. exact (forallb_str_impl _ _ _ path_char_semi Hp). }
  destruct Ht as [[-> ->] | ->]; simpl break_at; simpl fst; simpl snd; simpl drop;
    rewrite append_empty_r; cbv beta iota; rewrite Hsemi, andb_false_r; reflexivity.
Qed.

Lemma urlparse_path sch host p :
  scheme_text sch = true -> forallb_str host_char host = true -> path_text p = true ->
  urlparse (sch +:+ "://" +:+ host +:+ p) = Ok (mkParseResult (lower sch) host p "" "" "").
Proof.
  intros Hs Hh Hp.
  rewrite <- (append_empty_r p) at 1.
  apply urlparse_tail; auto.
Qed.

Lemma slash_path t : forallb_str path_char t = true -> path_text (String "/" t) = true.
Proof. intros H. unfold path_text. simpl. now rewrite H. Qed.

Lemma split_scheme_infix s : infix (snd (split_scheme s)) s.
Proof.
  unfold split_scheme.
  pose proof (break_at_snd_infix (Ascii.eqb ":") s) as H.
  destruct (break_at (Ascii.eqb ":") s) as [pre rest]. simpl in H.
  destruct pre as [|a pre]; [apply infix_refl|].
  destruct rest as [|c after]; [apply infix_refl|].
  destruct (is_ascii_alpha a && forallb_str scheme_char (String a pre)); [|apply infix_refl].
  simpl. eapply infix_trans; [|exact H]. apply (infix_suffix (String c "")).
Qed.

(** The network location is a piece of the text given to [urlparse]. *)
Lemma urlparse_netloc url :
  safe_text url = true -> has_char "[" url = false -> has_char "]" url = false ->
  exists r, urlparse url = Ok r /\ infix (netloc r) url.
Proof.
  intros Hsafe Ho Hc. unfold urlparse.
  rewrite filter_str_all by (now apply forallb_lstrip).
  pose proof (lstrip_infix c0_control_or_space url) as H1.
  set (u1 := lstrip c0_control_or_space url) in *.
  pose proof (split_scheme_infix u1) as H2.
  destruct (split_scheme u1) as [sch u2]. simpl in H2.
  assert (Hn : exists n u3,
    (if startswith "//" u2 then _splitnetloc u2 else ("", u2)) = (n, u3) /\ infix n url).
  { destruct (startswith "//" u2).
    - unfold _splitnetloc.
      pose proof (break_at_fst_infix (fun c => has_char c "/?#") (drop 2 u2)) as H3.
      destruct (break_at (fun c => has_char c "/?#") (drop 2 u2)) as [n u3].
      change (infix n (drop 2 u2)) in H3.
      exists n, u3. split; [reflexivity|].
      eapply infix_trans; [exact H3|]. eapply infix_trans; [apply drop_infix|].
      eapply infix_trans; eauto.
    - exists "", u2. split; [reflexivity|]. exists "", url. reflexivity. }
  destruct Hn as (n & u3 & -> & Hn).
  rewrite (has_char_infix _ _ _ Hn Ho), (has_char_infix _ _ _ Hn Hc). simpl xorb. cbv iota.
  destruct (partition1 "#" u3) as [u4 frag].
  destruct (partition1 "?" u4) as [u5 qry].
  destruct (if existsb (String.eqb sch) uses_params && has_char ";" u5
            then _splitparams u5 else (u5, "")) as [u6 prm].
  eexists. split; [reflexivity|]. exact Hn.
Qed.

(** *** The extractor on each shape *)

#[local] Arguments contains : simpl never.
#[local] Arguments split : simpl never.
#[local] Arguments parse_qsl : simpl never.
#[local] Arguments re_match_video_id : simpl never.

Lemma youtu_be_path t :
  forallb_str path_char t = true ->
  _extract_video_id ("https://youtu.be/" +:+ t) = Ok (Some t).
Proof.
  intros H. unfold _extract_video_id.
  change ("https://youtu.be/" +:+ t) with ("https" +:+ "://" +:+ "youtu.be" +:+ String "/" t).
  rewrite urlparse_path by (auto using slash_path).
  reflexivity.
Qed.

Lemma shorts_path t :
  forallb_str path_char t = true ->
  contains "/watch" ("/shorts/" +:+ t) = false ->
  contains "/shorts/" t = false ->
  _extract_video_id ("https://www.youtube.com/shorts/" +:+ t) = Ok (Some t).
Proof.
  intros H Hw Hs. unfold _extract_video_id.
  change ("https://www.youtube.com/shorts/" +:+ t)
    with ("https" +:+ "://" +:+ "www.youtube.com" +:+ String "/" ("shorts/" +:+ t)).
  rewrite urlparse_path.
  2: reflexivity. 2: reflexivity.
  2:{ apply slash_path. rewrite forallb_str_app, H. reflexivity. }
  simpl.
  change (contains "youtube.com" "www.youtube.com") with true. cbv iota.
  change (String "/" (String "s" (String "h" (String "o" (String "r" (String "t"
            (String "s" (String "/" t))))))))
    with ("/shorts/" +:+ t) in *.
  rewrite Hw. rewrite ?contains_prefix.
  change (split "/shorts/" ("/shorts/" +:+ t)) with ("" :: split_aux "/shorts/" t 0 "").
  rewrite split_aux_none by auto.
  reflexivity.
Qed.

Lemma live_path t :
  forallb_str path_char t = true ->
  contains "/watch" ("/live/" +:+ t) = false ->
  contains "/shorts/" ("/live/" +:+ t) = false ->
  contains "/live/" t = false ->
  _extract_video_id ("https://www.youtube.com/live/" +:+ t)
  = Ok (Some (fst (break_at (Ascii.eqb "/") t))).
Proof.
  intros H Hw Hs Hl. unfold _extract_video_id.
  change ("https://www.youtube.com/live/" +:+ t)
    with ("https" +:+ "://" +:+ "www.youtube.com" +:+ String "/" ("live/" +:+ t)).
  rewrite urlparse_path.
  2: reflexivity. 2: reflexivity.
  2:{ apply slash_path. rewrite forallb_str_app, H. reflexivity. }
  simpl.
  change (contains "youtube.com" "www.youtube.com") with true. cbv iota.
  change (String "/" (String "l" (String "i" (String "v" (String "e" (String "/" t))))))
    with ("/live/" +:+ t) in *.
  rewrite Hw, Hs. rewrite ?contains_prefix.
  change (split "/live/" ("/live/" +:+ t)) with ("" :: split_aux "/live/" t 0 "").
  rewrite split_aux_none by auto.
  simpl. destruct (has_char "/" t) eqn:E.
  - unfold split. pose proof (split_aux_head "/" t "") as Hh.
    change (str1 "/") with "/" in Hh.
    destruct (split_aux_cons "/" t 0 "") as (x & l & Ex). rewrite Ex in *.
    simpl in *. now subst x.
  - rewrite break_at_none; [reflexivity|].
    clear -E. induction t as [|a t IH]; simpl in *; [reflexivity|].
    rewrite (Ascii.eqb_sym "/" a). destruct (Ascii.eqb a "/"); [discriminate|]. auto.
Qed.

Lemma watch_query t :
  forallb_str query_value_char t = true -> t <> "" ->
  _extract_video_id ("https://www.youtube.com/watch?v=" +:+ t) = Ok (Some t).
Proof.
  intros H Hne. unfold _extract_video_id.
  change ("https://www.youtube.com/watch?v=" +:+ t)
    with ("https" +:+ "://" +:+ "www.youtube.com" +:+ "/watch" +:+ String "?" ("v=" +:+ t)).
  rewrite (urlparse_tail _ _ _ _ ("v=" +:+ t)).
  2: reflexivity. 2: reflexivity. 2: reflexivity.
  2:{ simpl. exact (forallb_str_impl _ _ _ query_value_query H). }
  2:{ now right. }
  simpl.
  change (contains "youtube.com" "www.youtube.com") with true.
  change (contains "/watch" "/watch") with true. cbv iota.
  unfold parse_qsl. unfold split. simpl.
  assert (Hamp : contains "&" t = false).
  { change "&" with (str1 "&"). rewrite contains_char. apply has_char_none.
    exact (forallb_str_impl _ _ _ query_value_amp H). }
  rewrite split_aux_none by auto.
  simpl. destruct t as [|c t']; [congruence|].
  set (t := String c t') in *.
  unfold replace.
  change (replace_aux "+" " " "v" 0) with "v".
  rewrite replace_aux_none.
  2:{ change "+" with (str1 "+"). rewrite contains_char. apply has_char_none.
      exact (forallb_str_impl _ _ _ query_value_plus H). }
  unfold unquote.
  rewrite (has_char_none "%" t) by (exact (forallb_str_impl _ _ _ query_value_pct H)).
  reflexivity.
Qed.

(** Without a host that names the service, only [re.match] decides. *)
Lemma other_netloc url parsed :
  urlparse url = Ok parsed ->
  contains "youtube.com" (netloc parsed) = false ->
  contains "youtu.be" (netloc parsed) = false ->
  _extract_video_id url = Ok (if re_match_video_id url then Some url else None).
Proof.
  intros Hp Hy Hb. unfold _extract_video_id. rewrite Hp. simpl bind.
  rewrite Hy, Hb. now destruct (re_match_video_id url).
Qed.

Lemma other_host url :
  safe_text url = true -> has_char "[" url = false -> has_char "]" url = false ->
  contains "youtube.com" url = false -> contains "youtu.be" url = false ->
  _extract_video_id url = Ok (if re_match_video_id url then Some url else None).
Proof.
  intros Hsafe Ho Hc Hy Hb.
  destruct (urlparse_netloc url Hsafe Ho Hc) as (r & Hr & Hn).
  apply (other_netloc url r Hr); eapply contains_infix; eauto.
Qed.

(** [re.match] on a text of identifier characters tests its length. *)
Lemma re_match_id_text u :
  forallb_str video_id_char u = true ->
  re_match_video_id u = (String.length u =? 11)%nat.
Proof.
  intros H. unfold re_match_video_id.
  rewrite (forallb_take _ 11 _ H), andb_true_r, length_take.
  destruct (Nat.lt_trichotomy (String.length u) 11) as [Hlt | [Heq | Hgt]].
  - rewrite Nat.min_r by lia.
    destruct (String.length u =? 11)%nat eqn:E; [apply Nat.eqb_eq in E; lia | reflexivity].
  - rewrite Heq. simpl Nat.min. rewrite drop_all by lia. reflexivity.
  - rewrite Nat.min_l by lia.
    assert (Hd : forallb_str video_id_char (drop 11 u) = true) by now apply forallb_drop.
    pose proof (length_drop 11 u) as Hl.
    destruct (drop 11 u) as [|c r]; [simpl in Hl; lia|].
    simpl in Hd. apply andb_prop in Hd as [Hc _].
    replace (String.length u =? 11)%nat with false
      by (symmetry; apply Nat.eqb_neq; lia).
    simpl. unfold str1. simpl.
    destruct (Ascii.eqb c LF) eqn:E; [|now rewrite ?andb_false_r].
    apply Ascii.eqb_eq in E as ->. discriminate.
Qed.

Lemma id_text_names_no_host x u :
  has_char "." x = true -> forallb_str video_id_char u = true -> contains x u = false.
Proof.
  intros Hx H. destruct (contains x u) eqn:E; [|reflexivity].
  apply contains_spec in E as (p & q & ->).
  assert (Hd : has_char "." (p +:+ x +:+ q) = false) by now apply id_text_has_no.
  rewrite !has_char_app, Hx, orb_true_r in Hd. discriminate.
Qed.

Lemma bare_text u :
  forallb_str video_id_char u = true ->
  _extract_video_id u = Ok (if (String.length u =? 11)%nat then Some u else None).
Proof.
  intros H. rewrite other_host.
  - now rewrite re_match_id_text.
  - exact (forallb_str_impl _ _ _ id_char_safe H).
  - now apply id_text_has_no.
  - now apply id_text_has_no.
  - now apply id_text_names_no_host.
  - now apply id_text_names_no_host.
Qed.

Lemma shorts_no_watch t :
  has_char "/" t = false ->
  contains "/watch" ("/shorts/" +:+ t) = startswith "watch" t.
Proof.
  intros H. change ("/shorts/" +:+ t)
    with (String "/" (String "s" (String "h" (String "o" (String "r" (String "t"
            (String "s" (String "/" t)))))))).
  rewrite !contains_cons. rewrite (contains_needs_char "/" "watch" t H).
  simpl. now rewrite orb_false_r.
Qed.

Lemma live_no_watch t :
  has_char "/" t = false ->
  contains "/watch" ("/live/" +:+ t) = startswith "watch" t.
Proof.
  intros H. change ("/live/" +:+ t)
    with (String "/" (String "l" (String "i" (String "v" (String "e" (String "/" t)))))).
  rewrite !contains_cons. rewrite (contains_needs_char "/" "watch" t H).
  simpl. now rewrite orb_false_r.
Qed.

Lemma live_no_shorts t :
  has_char "/" t = false -> contains "/shorts/" ("/live/" +:+ t) = false.
Proof.
  intros H. change ("/live/" +:+ t)
    with (String "/" (String "l" (String "i" (String "v" (String "e" (String "/" t)))))).
  rewrite !contains_cons. rewrite (contains_needs_char "/" "shorts/" t H).
  change (startswith "/shorts/" (String "/" t)) with (startswith "shorts/" t).
  rewrite (startswith_needs_char "/" "shorts/" t) by auto.
  reflexivity.
Qed.

Lemma canonical_shorts T :
  forallb_str video_id_char T = true -> startswith "watch" T = false ->
  _extract_video_id ("https://www.youtube.com/shorts/" +:+ T) = Ok (Some T).
Proof.
  intros Hid Hw. assert (Hs : has_char "/" T = false) by now apply id_text_has_no.
  apply shorts_path.
  - exact (forallb_str_impl _ _ _ id_char_path Hid).
  - now rewrite shorts_no_watch.
  - now apply contains_needs_char.
Qed.

Lemma canonical_live T :
  forallb_str video_id_char T = true -> startswith "watch" T = false ->
  _extract_video_id ("https://www.youtube.com/live/" +:+ T) = Ok (Some T).
Proof.
  intros Hid Hw. assert (Hs : has_char "/" T = false) by now apply id_text_has_no.
  rewrite live_path.
  - rewrite break_at_none; [reflexivity|].
    apply (forallb_str_impl video_id_char); [|exact Hid].
    intros c Hc. rewrite Ascii.eqb_sym. now apply id_char_not.
  - exact (forallb_str_impl _ _ _ id_char_path Hid).
  - now rewrite live_no_watch.
  - now apply live_no_shorts.
  - now apply contains_needs_char.
Qed.

Lemma invalid_reference env url :
  _extract_video_id url = Ok None ->
  get_video_info env url
  = Raise (ValueError ("Could not extract video ID from URL: " +:+ url)).
Proof. intros H. unfold get_video_info. rewrite H. reflexivity. Qed.

(** *** The identifier extractor (claims C1 and C9) *)

(** C1, as the specification states it, fails on a look-alike host: the
    text below has none of the supported shapes, and yet the extractor
    returns an identifier for it and [get_video_info] goes on to resolve
    that identifier instead of raising. *)
Lemma lookalike_host_is_accepted :
  spec_supported_shape "https://youtu.be.example.org/hello" = false
  /\ _extract_video_id "https://youtu.be.example.org/hello" = Ok (Some "hello")
  /\ get_video_info env_zero_results "https://youtu.be.example.org/hello"
     = get_video_info_scraping env_zero_results "hello"
  /\ exists info, get_video_info_scraping env_zero_results "hello" = Ok info.
Proof.
  split_and!; try (vm_compute; reflexivity).
  eexists. vm_compute. reflexivity.
Qed.

(** [re.match] accepts an identifier, and an identifier followed by a line
    feed, and nothing else. *)
Lemma re_match_video_id_spec url :
  re_match_video_id url = is_video_id url || is_video_id_line url.
Proof.
  unfold re_match_video_id, is_video_id_line.
  pose proof (length_drop 11 url) as Hl.
  destruct (String.eqb (drop 11 url) "") eqn:E0.
  - apply String.eqb_eq in E0. rewrite E0 in *.
    change (String.length "") with 0%nat in Hl.
    rewrite take_all by lia.
    change (String.eqb "" (str1 LF)) with false.
    unfold is_video_id.
    now rewrite andb_true_r, andb_false_r, orb_false_r.
  - assert (11 < String.length url)%nat as Hlt.
    { destruct (drop 11 url); [discriminate | simpl in Hl; lia]. }
    unfold is_video_id at 1.
    replace (String.length url =? 11)%nat with false by (symmetry; apply Nat.eqb_neq; lia).
    unfold is_video_id. now rewrite orb_false_l.
Qed.

Lemma filter_str_app keep a b :
  filter_str keep (a +:+ b) = filter_str keep a +:+ filter_str keep b.
Proof.
  induction a as [|c a IH]; simpl; [reflexivity|]. rewrite IH. now destruct (keep c).
Qed.

Lemma lstrip_id_text t :
  forallb_str video_id_char t = true -> forall q, lstrip c0_control_or_space (t +:+ q)
  = match t with "" => lstrip c0_control_or_space q | _ => t +:+ q end.
Proof.
  intros H q. destruct t as [|a t]; [reflexivity|]. simpl in H.
  apply andb_prop in H as [Ha _]. simpl.
  replace (c0_control_or_space a) with false; [reflexivity|].
  symmetry. clear -Ha. by_chars a.
Qed.

(** [urlparse] drops the line feed that follows an identifier. *)
Lemma urlparse_line t :
  forallb_str video_id_char t = true -> t <> "" ->
  urlparse (t +:+ str1 LF) = urlparse t.
Proof.
  intros H Hne. unfold urlparse.
  rewrite (lstrip_id_text t H). pose proof (lstrip_id_text t H "") as H0.
  rewrite append_empty_r in H0. rewrite H0.
  destruct t as [|a t]; [congruence|].
  rewrite filter_str_app.
  rewrite (filter_str_all _ (String a t)) by exact (forallb_str_impl _ _ _ id_char_safe H).
  change (filter_str (fun c => negb (unsafe_url_byte c)) (str1 LF)) with "".
  now rewrite append_empty_r.
Qed.

(** A text that [re.match] accepts has no network location that names a
    host. *)
Lemma host_is_no_identifier url parsed x :
  urlparse url = Ok parsed -> has_char "." x = true ->
  contains x (netloc parsed) = true -> re_match_video_id url = false.
Proof.
  intros Hp Hx Hc. destruct (re_match_video_id url) eqn:E; [exfalso|reflexivity].
  unfold re_match_video_id in E. apply andb_prop in E as [E Hd].
  apply andb_prop in E as [Hl Hid]. apply Nat.eqb_eq in Hl.
  set (t := take 11 url) in *.
  assert (t <> "") as Hne by (intros Ht; rewrite Ht in Hl; discriminate).
  assert (urlparse t = Ok parsed) as Ht.
  { assert (url = t +:+ drop 11 url) as Hu.
    { unfold t. generalize 11%nat url. intros n.
      induction n as [|n IH]; intros [|a u]; simpl; try reflexivity. now rewrite <- IH. }
    apply orb_prop in Hd as [Hd|Hd]; apply String.eqb_eq in Hd; rewrite Hd in Hu.
    - rewrite append_empty_r in Hu. now rewrite <- Hu.
    - rewrite <- (urlparse_line t Hid Hne). now rewrite <- Hu. }
  destruct (urlparse_netloc t) as (r & Hr & Hn).
  - exact (forallb_str_impl _ _ _ id_char_safe Hid).
  - now apply id_text_has_no.
  - now apply id_text_has_no.
  - rewrite Ht in Hr. injection Hr as <-.
    pose proof (id_text_names_no_host x t Hx Hid) as Hno.
    apply contains_spec in Hc.
    assert (contains x t = true) as Hyes
      by (apply contains_spec; eapply infix_trans; eauto).
    congruence.
Qed.

(** The inputs that yield no identifier, by what [urlparse] finds in them. *)
Lemma unsupported_input url parsed :
  urlparse url = Ok parsed ->
  (contains "youtube.com" (netloc parsed) = false
   /\ contains "youtu.be" (netloc parsed) = false
   /\ is_video_id url = false /\ is_video_id_line url = false)
  \/ (contains "youtube.com" (netloc parsed) = true
      /\ contains "/watch" (path parsed) = false
      /\ contains "/shorts/" (path parsed) = false
      /\ contains "/live/" (path parsed) = false)
  \/ (contains "youtube.com" (netloc parsed) = true
      /\ contains "/watch" (path parsed) = true
      /\ exists fields, parse_qsl (query parsed) = Ok fields
                        /\ first_value "v" fields = None) ->
  _extract_video_id url = Ok None.
Proof.
  intros Hp [(Hy & Hb & Hi & Hl) | [(Hy & Hw & Hs & Hl) | (Hy & Hw & fields & Hq & Hv)]].
  - rewrite (other_netloc url parsed Hp Hy Hb), re_match_video_id_spec, Hi, Hl. reflexivity.
  - unfold _extract_video_id. rewrite Hp. simpl bind. rewrite Hy, Hw, Hs, Hl.
    now rewrite (host_is_no_identifier url parsed "youtube.com" Hp eq_refl Hy).
  - unfold _extract_video_id. rewrite Hp. simpl bind. rewrite Hy, Hw, Hq. simpl bind.
    now rewrite Hv.
Qed.

(** C1, as amended: for every canonical identifier [T], the watch URL, the
    short link and the bare [T] extract to [T], and so do the shorts and
    live URLs when [T] does not begin with [watch].  An input that
    [urlparse] accepts yields no identifier, and [get_video_info] then
    raises [ValueError], in each of these cases: its network location names
    neither [youtube.com] nor [youtu.be] and the input is neither an
    identifier nor an identifier followed by a line feed; its network
    location names [youtube.com] and its path holds none of [/watch],
    [/shorts/] and [/live/]; its network location names [youtube.com], its
    path holds [/watch] and its query gives no value to [v].  A short link
    with nothing after the host yields the empty identifier, and
    [get_video_info] raises the same [ValueError].  An input on which
    [urlparse] raises is refused with the error [urlparse] raised. *)
Theorem extraction_of_canonical_forms (T : string) :
  is_video_id T = true ->
  _extract_video_id ("https://www.youtube.com/watch?v=" +:+ T) = Ok (Some T)
  /\ _extract_video_id ("https://youtu.be/" +:+ T) = Ok (Some T)
  /\ _extract_video_id T = Ok (Some T)
  /\ (startswith "watch" T = false ->
      _extract_video_id ("https://www.youtube.com/shorts/" +:+ T) = Ok (Some T)
      /\ _extract_video_id ("https://www.youtube.com/live/" +:+ T) = Ok (Some T))
  /\ (forall env url parsed,
        urlparse url = Ok parsed ->
        (contains "youtube.com" (netloc parsed) = false
         /\ contains "youtu.be" (netloc parsed) = false
         /\ is_video_id url = false /\ is_video_id_line url = false)
        \/ (contains "youtube.com" (netloc parsed) = true
            /\ contains "/watch" (path parsed) = false
            /\ contains "/shorts/" (path parsed) = false
            /\ contains "/live/" (path parsed) = false)
        \/ (contains "youtube.com" (netloc parsed) = true
            /\ contains "/watch" (path parsed) = true
            /\ exists fields, parse_qsl (query parsed) = Ok fields
                              /\ first_value "v" fields = None) ->
        _extract_video_id url = Ok None
        /\ get_video_info env url
           = Raise (ValueError ("Could not extract video ID from URL: " +:+ url)))
  /\ (forall env url parsed,
        urlparse url = Ok parsed ->
        contains "youtube.com" (netloc parsed) = false ->
        contains "youtu.be" (netloc parsed) = true ->
        drop 1 (path parsed) = "" ->
        _extract_video_id url = Ok (Some "")
        /\ get_video_info env url
           = Raise (ValueError ("Could not extract video ID from URL: " +:+ url)))
  /\ (forall env url e,
        urlparse url = Raise e ->
        _extract_video_id url = Raise e /\ get_video_info env url = Raise e).
Proof.
  intros HT. apply andb_prop in HT as [Hlen Hid]. apply Nat.eqb_eq in Hlen.
  split_and!.
  - apply watch_query; [exact (forallb_str_impl _ _ _ id_char_query Hid)|].
    intros ->. discriminate.
  - apply youtu_be_path. exact (forallb_str_impl _ _ _ id_char_path Hid).
  - rewrite (bare_text T Hid), Hlen. reflexivity.
  - intros Hw. split; [now apply canonical_shorts | now apply canonical_live].
  - intros env url parsed Hp Hcase.
    pose proof (unsupported_input url parsed Hp Hcase) as Hx.
    split; [exact Hx | now apply invalid_reference].
  - intros env url parsed Hp Hy Hb Hd.
    assert (_extract_video_id url = Ok (Some "")) as Hx
      by (unfold _extract_video_id; rewrite Hp; simpl bind; rewrite Hy, Hb;
          exact (f_equal (fun x => Ok (Some x)) Hd)).
    split; [exact Hx|]. unfold get_video_info. rewrite Hx. reflexivity.
  - intros env url e Hp.
    assert (_extract_video_id url = Raise e) as Hx
      by (unfold _extract_video_id; rewrite Hp; reflexivity).
    split; [exact Hx|]. unfold get_video_info. rewrite Hx. reflexivity.
Qed.

Lemma extraction_of_canonical_forms_witness :
  is_video_id "abcdefghijk" = true
  /\ _extract_video_id "https://www.youtube.com/watch?v=abcdefghijk" = Ok (Some "abcdefghijk")
  /\ _extract_video_id "https://youtu.be/abcdefghijk" = Ok (Some "abcdefghijk")
  /\ _extract_video_id "abcdefghijk" = Ok (Some "abcdefghijk")
  /\ _extract_video_id "https://www.youtube.com/shorts/abcdefghijk" = Ok (Some "abcdefghijk")
  /\ _extract_video_id "https://www.youtube.com/live/abcdefghijk" = Ok (Some "abcdefghijk")
  /\ _extract_video_id "https://vimeo.com/123456789" = Ok None
  /\ _extract_video_id "https://www.youtube.com/channel/UCabcdefghijk" = Ok None
  /\ _extract_video_id "https://www.youtube.com/watch?list=PL123" = Ok None
  /\ get_video_info env_zero_results "http://[youtube.com/watch?v=abcdefghijk"
     = Raise (ValueError "Invalid IPv6 URL").
Proof.
  pose proof (extraction_of_canonical_forms "abcdefghijk" eq_refl)
    as (Hw & Hs & Hb & Hsl & Hrej & _ & Hraise).
  destruct (Hsl eq_refl) as [Hshorts Hlive].
  split; [reflexivity|]. split; [exact Hw|]. split; [exact Hs|]. split; [exact Hb|].
  split; [exact Hshorts|]. split; [exact Hlive|].
  split.
  { refine (proj1 (Hrej env_zero_results "https://vimeo.com/123456789" _ eq_refl _)).
    left. repeat split. }
  split.
  { refine (proj1 (Hrej env_zero_results "https://www.youtube.com/channel/UCabcdefghijk"
                     _ eq_refl _)).
    right. left. repeat split. }
  split.
  { refine (proj1 (Hrej env_zero_results "https://www.youtube.com/watch?list=PL123"
                     _ eq_refl _)).
    right. right. split; [reflexivity|]. split; [reflexivity|].
    eexists. split; reflexivity. }
  exact (proj2 (Hraise env_zero_results "http://[youtube.com/watch?v=abcdefghijk" _ eq_refl)).
Defined.

(** C9: a URL-shaped input yields whatever text stands where the identifier
    should, of any length and with any characters of a path or of a query
    value, while a bare input is returned only when it has eleven characters
    of the identifier class; a shorts URL with a further path component
    yields a text with a slash in it. *)
Theorem url_tokens_are_not_validated (t u : string) :
  forallb_str path_char t = true ->
  forallb_str video_id_char u = true ->
  _extract_video_id ("https://youtu.be/" +:+ t) = Ok (Some t)
  /\ (contains "/watch" ("/shorts/" +:+ t) = false ->
      contains "/shorts/" t = false ->
      _extract_video_id ("https://www.youtube.com/shorts/" +:+ t) = Ok (Some t))
  /\ (contains "/watch" ("/live/" +:+ t) = false ->
      contains "/shorts/" ("/live/" +:+ t) = false ->
      contains "/live/" t = false ->
      _extract_video_id ("https://www.youtube.com/live/" +:+ t)
      = Ok (Some (fst (break_at (Ascii.eqb "/") t))))
  /\ (forallb_str query_value_char t = true -> t <> "" ->
      _extract_video_id ("https://www.youtube.com/watch?v=" +:+ t) = Ok (Some t))
  /\ _extract_video_id u = Ok (if (String.length u =? 11)%nat then Some u else None)
  /\ _extract_video_id "https://www.youtube.com/shorts/abcdefghijk/extra"
     = Ok (Some "abcdefghijk/extra")
  /\ is_video_id "abcdefghijk/extra" = false.
Proof.
  intros Ht Hu. split_and!.
  - now apply youtu_be_path.
  - intros Hw Hs. now apply shorts_path.
  - intros Hw Hs Hl. now apply live_path.
  - intros Hq Hne. now apply watch_query.
  - now apply bare_text.
  - vm_compute. reflexivity.
  - reflexivity.
Qed.

Lemma url_tokens_are_not_validated_witness :
  _extract_video_id "https://youtu.be/x/y" = Ok (Some "x/y")
  /\ _extract_video_id "https://www.youtube.com/shorts/x/y" = Ok (Some "x/y")
  /\ _extract_video_id "https://www.youtube.com/live/x/y" = Ok (Some "x")
  /\ _extract_video_id "https://www.youtube.com/watch?v=x/y" = Ok (Some "x/y")
  /\ _extract_video_id "abc" = Ok None.
Proof.
  pose proof (url_tokens_are_not_validated "x/y" "abc" eq_refl eq_refl)
    as (H1 & H2 & H3 & H4 & H5 & _).
  split; [exact H1|]. split; [exact (H2 eq_refl eq_refl)|].
  split; [exact (H3 eq_refl eq_refl eq_refl)|].
  split; [apply H4; [reflexivity | discriminate] | exact H5].
Defined.

(** The extractor on inputs the amended C1 leaves out. *)
Example shorts_with_trailing_slash :
  _extract_video_id "https://www.youtube.com/shorts/abcdefghijk/" = Ok (Some "abcdefghijk/").
Proof. vm_compute. reflexivity. Qed.

Example shorts_identifier_beginning_with_watch :
  is_video_id "watch_me_ok" = true
  /\ _extract_video_id "https://www.youtube.com/watch?v=watch_me_ok" = Ok (Some "watch_me_ok")
  /\ _extract_video_id "https://www.youtube.com/shorts/watch_me_ok" = Ok None.
Proof. split_and!; vm_compute; reflexivity. Qed.

Example bare_identifier_with_line_feed :
  _extract_video_id ("abcdefghijk" +:+ str1 LF) = Ok (Some ("abcdefghijk" +:+ str1 LF)).
Proof. vm_compute. reflexivity. Qed.

Example scheme_is_needed :
  _extract_video_id "youtube.com/watch?v=abcdefghijk" = Ok None.
Proof. vm_compute. reflexivity. Qed.

(** *** The name of the converted file *)

Lemma startswith_mp4 s :
  startswith ".mp4" s = true ->
  exists q, s = String "." (String "m" (String "p" (String "4" q))).
Proof.
  intros H. destruct s as [|a [|b [|c [|d q]]]]; simpl in H;
    repeat match type of H with
           | (if ?x then _ else _) = true => destruct x eqn:?; try discriminate
           end; try discriminate.
  repeat match goal with
         | E : Ascii.eqb _ _ = true |- _ => apply Ascii.eqb_eq in E
         end.
  subst. eauto.
Qed.

Lemma replace_mp4_changes s :
  replace ".mp4" ".mp3" s = s -> contains ".mp4" s = false.
Proof.
  unfold replace. induction s as [|a s IH]; intros H; [reflexivity|].
  change (replace_aux ".mp4" ".mp3" (String a s) 0)
    with (if startswith ".mp4" (String a s)
          then ".mp3" +:+ replace_aux ".mp4" ".mp3" s 3
          else String a (replace_aux ".mp4" ".mp3" s 0)) in H.
  rewrite contains_unfold.
  destruct (startswith ".mp4" (String a s)) eqn:E.
  - exfalso. apply startswith_mp4 in E as (q & Hq). rewrite Hq in H.
    simpl in H. discriminate.
  - injection H as H. now apply IH.
Qed.

Lemma mp3_path_differs audio_path :
  endswith ".mp4" audio_path = true -> replace ".mp4" ".mp3" audio_path <> audio_path.
Proof.
  intros He Hr. apply replace_mp4_changes in Hr. apply endswith_contains in He. congruence.
Qed.

End Texts.

(** ** The browser session (claim C8) *)

Section Browsers.

Lemma single_new : single_browser new_manager.
Proof. unfold single_browser, new_manager; simpl. split_and!; [set_solver | set_solver | lia]. Qed.

Lemma single_quit h m : single_browser m -> single_browser (quit h m).
Proof.
  intros (Hd & Hl & Hp). unfold single_browser, quit; simpl.
  split_and!; [| |exact Hp]; intros h' Hin; apply elem_of_difference in Hin as [Hin _];
    [apply Hd | apply Hl]; exact Hin.
Qed.

Lemma quit_driver_closed m : single_browser m -> open_browsers (quit_driver m) = ∅.
Proof.
  intros (Hd & _ & _). unfold quit_driver. destruct (driver m) as [h|] eqn:E; simpl.
  - apply set_eq. intros h'. split; [|set_solver].
    intros Hin. apply elem_of_difference in Hin as [Hin Hne].
    specialize (Hd _ Hin). set_solver.
  - apply set_eq. intros h'. split; [|set_solver]. intros Hin. specialize (Hd _ Hin). congruence.
Qed.

Lemma single_quit_driver m : single_browser m -> single_browser (quit_driver m).
Proof. intros H. unfold quit_driver. destruct (driver m); [now apply single_quit | exact H]. Qed.

Lemma launch_one m :
  open_browsers m = ∅ -> peak m <= 1 ->
  open_browsers (launch m) = {[next_handle m]} /\ driver (launch m) = Some (next_handle m)
  /\ single_browser (launch m).
Proof.
  intros He Hp. unfold launch, next_handle, single_browser; simpl. rewrite He.
  rewrite (right_id_L ∅ (∪)), size_singleton.
  split_and!; try reflexivity; try lia.
  - intros h Hh. apply elem_of_singleton in Hh as ->. reflexivity.
  - intros h Hh. apply elem_of_singleton in Hh as ->. lia.
Qed.

Lemma initialize_webdriver_spec env m :
  single_browser m ->
  single_browser (initialize_webdriver env m).1
  /\ (launches env = true ->
      (initialize_webdriver env m).2 = Ok (next_handle (quit_driver m))
      /\ open_browsers (initialize_webdriver env m).1 = {[next_handle (quit_driver m)]}
      /\ driver (initialize_webdriver env m).1 = Some (next_handle (quit_driver m))
      /\ next_handle (quit_driver m) ∉ open_browsers m)
  /\ (launches env = false ->
      (exists e, (initialize_webdriver env m).2 = Raise e)
      /\ open_browsers (initialize_webdriver env m).1 = ∅).
Proof.
  intros Hm.
  pose proof (single_quit_driver m Hm) as Hq.
  pose proof (quit_driver_closed m Hm) as Hq0.
  assert (Hfail : forall m', single_browser m' ->
            single_browser (quit_driver m') /\ open_browsers (quit_driver m') = ∅).
  { intros m' H'. split; [now apply single_quit_driver | now apply quit_driver_closed]. }
  unfold initialize_webdriver, launches.
  destruct (if user_agent_rotation env then rotate_user_agent env else Returns "") as [ua|e].
  2:{ simpl. destruct (Hfail _ Hq) as [H1 H2]. split; [exact H1|].
      split; [discriminate|]. intros _. split; [now exists e | exact H2]. }
  destruct (chrome env) as [[]|e].
  2:{ simpl. destruct (Hfail _ Hq) as [H1 H2]. split; [exact H1|].
      split; [discriminate|]. intros _. split; [now exists e | exact H2]. }
  destruct Hq as (_ & Hl & Hp).
  destruct (launch_one (quit_driver m) Hq0 Hp) as (Ho & Hd & Hs).
  destruct (execute_script env) as [[]|e]; simpl.
  - split; [exact Hs|]. split; [|discriminate]. intros _. split_and!; auto.
    intros Hin. destruct Hm as (_ & Hlm & _). specialize (Hlm _ Hin).
    unfold next_handle, quit_driver in Hlm. destruct (driver m); simpl in Hlm; lia.
  - destruct (Hfail _ Hs) as [H1 H2]. split; [exact H1|].
    split; [discriminate|]. intros _. split; [now exists e | exact H2].
Qed.

Lemma single_close m : single_browser m -> single_browser (close_webdriver m).
Proof.
  intros Hm. pose proof (quit_driver_closed m Hm) as H0.
  unfold close_webdriver, quit_driver in *. destruct (driver m) as [h|]; [|exact Hm].
  destruct Hm as (Hd & Hl & Hp). unfold single_browser; simpl in *. rewrite H0.
  split_and!; [set_solver | set_solver | exact Hp].
Qed.

Lemma single_step m o : single_browser m -> single_browser (step m o).
Proof.
  intros Hm. destruct o as [env| |h]; simpl.
  - now apply (initialize_webdriver_spec env m).
  - now apply single_close.
  - now apply single_quit.
Qed.

Lemma single_after ops m : single_browser m -> single_browser (foldl step m ops).
Proof.
  revert m. induction ops as [|o ops IH]; intros m Hm; simpl; [exact Hm|].
  apply IH, single_step, Hm.
Qed.

Lemma single_size m : single_browser m -> size (open_browsers m) <= 1.
Proof.
  intros (Hd & _ & _). destruct (driver m) as [h|] eqn:E.
  - assert (open_browsers m ⊆ {[h]}) as Hsub.
    { intros h' Hin. specialize (Hd _ Hin). set_solver. }
    apply subseteq_size in Hsub. now rewrite size_singleton in Hsub.
  - assert (open_browsers m = ∅) as ->.
    { apply set_eq. intros h'. split; [|set_solver]. intros Hin. specialize (Hd _ Hin). congruence. }
    rewrite size_empty. lia.
Qed.

(** C8: after any sequence of calls on a manager (acquisitions that succeed
    or fail, [close_webdriver], callers quitting the drivers they hold) at
    most one browser is open, and through a further acquisition no two are
    ever open together.  When the launch of that acquisition goes through,
    the acquisition returns a handle, that browser is the only one open and
    the one [self.driver] names, and it was not open before: every browser
    that was open is closed.  When a step of the launch raises, the
    acquisition raises and leaves no browser open.  ([uc.Chrome] raising is
    taken to start no browser: the program holds no handle to close.) *)
Theorem one_live_browser (ops : list op) (env : BrowserEnv) :
  size (open_browsers (after_calls ops)) <= 1
  /\ peak (initialize_webdriver env (after_calls ops)).1 <= 1
  /\ (launches env = true ->
      exists h,
        (initialize_webdriver env (after_calls ops)).2 = Ok h
        /\ open_browsers (initialize_webdriver env (after_calls ops)).1 = {[h]}
        /\ driver (initialize_webdriver env (after_calls ops)).1 = Some h
        /\ h ∉ open_browsers (after_calls ops))
  /\ (launches env = false ->
      (exists e, (initialize_webdriver env (after_calls ops)).2 = Raise e)
      /\ open_browsers (initialize_webdriver env (after_calls ops)).1 = ∅).
Proof.
  assert (Hm : single_browser (after_calls ops)) by (apply single_after, single_new).
  destruct (initialize_webdriver_spec env (after_calls ops) Hm) as (Hs & Hok & Hfail).
  split_and!.
  - now apply single_size.
  - apply Hs.
  - intros Hl. eexists. apply Hok, Hl.
  - exact Hfail.
Qed.

Lemma one_live_browser_witness :
  size (open_browsers (after_calls [InitializeWebdriver env_launch])) = 1
  /\ exists h,
       (initialize_webdriver env_launch (after_calls [InitializeWebdriver env_launch])).2 = Ok h
       /\ open_browsers
            (initialize_webdriver env_launch (after_calls [InitializeWebdriver env_launch])).1
          = {[h]}
       /\ driver
            (initialize_webdriver env_launch (after_calls [InitializeWebdriver env_launch])).1
          = Some h
       /\ h ∉ open_browsers (after_calls [InitializeWebdriver env_launch]).
Proof.
  split; [reflexivity|].
  exact (proj1 (proj2 (proj2 (one_live_browser [InitializeWebdriver env_launch] env_launch)))
           eq_refl).
Defined.

(** Two acquisitions in a row, and a launch whose start-up script fails. *)
Example second_acquisition_closes_the_first :
  let ok := mkBrowserEnv true (Returns "agent") (Returns tt) (Returns tt) in
  let m := after_calls [InitializeWebdriver ok; InitializeWebdriver ok] in
  elements (open_browsers m) = [1%nat] /\ driver m = Some 1%nat /\ peak m = 1%nat.
Proof. vm_compute. auto. Qed.

Example failed_script_leaves_nothing_open :
  let ok := mkBrowserEnv true (Returns "agent") (Returns tt) (Returns tt) in
  let bad := mkBrowserEnv true (Returns "agent") (Returns tt)
               (Raises (Exn "JavascriptException" "javascript error")) in
  let m := after_calls [InitializeWebdriver ok; InitializeWebdriver bad] in
  elements (open_browsers m) = [] /\ peak m = 1%nat.
Proof. vm_compute. auto. Qed.

End Browsers.

(** ** The transcript resolver (claims C6 and C7) *)

Section Captions.

(** [get_transcript] by cases on what the caption service answers. *)
Lemma get_transcript_cases env video_id :
  get_transcript env video_id =
  match api_get_transcript env video_id with
  | Returns entries => Ok entries
  | Raises _ =>
      match api_list_transcripts env video_id with
      | Raises _ => Ok []
      | Returns tracks =>
          match scan_tracks tracks None with
          | Return entries => Ok entries
          | Next None => Ok []
          | Next (Some other) =>
              match use_other_transcript other with
              | Ok entries => Ok entries
              | _ => Ok []
              end
          end
      end
  end.
Proof.
  unfold get_transcript.
  destruct (api_get_transcript env video_id) as [entries|e]; simpl; [reflexivity|].
  destruct (api_list_transcripts env video_id) as [tracks|e']; simpl; [|reflexivity].
  destruct (scan_tracks tracks None) as [entries|[other|]]; simpl; try reflexivity.
  destruct (use_other_transcript other) as [entries|e''|] eqn:E; simpl; try reflexivity.
  exfalso. unfold use_other_transcript in E.
  destruct (negb (String.eqb (language_code other) "en"));
    destruct (translate_en other) as [[?|?]|?]; destruct (fetch other); simpl in E; discriminate.
Qed.

Lemma get_transcript_returns env video_id :
  exists entries, get_transcript env video_id = Ok entries.
Proof.
  rewrite get_transcript_cases.
  destruct (api_get_transcript env video_id); [eauto|].
  destruct (api_list_transcripts env video_id); [|eauto].
  destruct (scan_tracks _ None) as [?|[other|]]; eauto.
  destruct (use_other_transcript other); eauto.
Qed.

Lemma scan_unavailable tracks other :
  forallb track_unavailable tracks = true ->
  match other with Some t => track_unavailable t = true | None => True end ->
  match scan_tracks tracks other with
  | Return _ => False
  | Next None => True
  | Next (Some t) => track_unavailable t = true
  end.
Proof.
  revert other. induction tracks as [|t tracks IH]; intros other Hall Ho; simpl.
  - destruct other; auto.
  - simpl in Hall. apply andb_prop in Hall as [Ht Hall].
    destruct (String.eqb (language_code t) "en").
    + unfold track_unavailable in Ht. apply andb_prop in Ht as [Hf _].
      destruct (fetch t); [discriminate|]. now apply IH.
    + now apply IH.
Qed.

Lemma use_unavailable t :
  track_unavailable t = true -> exists e, use_other_transcript t = Raise e.
Proof.
  unfold track_unavailable, use_other_transcript. intros H. apply andb_prop in H as [Hf Ht].
  destruct (fetch t) as [?|e]; [discriminate|].
  destruct (negb (String.eqb (language_code t) "en")); simpl; [|eauto].
  destruct (translate_en t) as [[?|?]|?]; simpl; try discriminate; eauto.
Qed.

(** C6: [get_transcript] returns a sequence whatever the caption service
    answers, and returns the empty sequence when no call can obtain
    captions. *)
Theorem get_transcript_never_raises (env : TranscriptEnv) (video_id : string) :
  (exists entries, get_transcript env video_id = Ok entries)
  /\ (no_transcript env video_id = true -> get_transcript env video_id = Ok []).
Proof.
  split; [apply get_transcript_returns|].
  intros H. unfold no_transcript in H. apply andb_prop in H as [Hd Hl].
  rewrite get_transcript_cases.
  destruct (api_get_transcript env video_id); [discriminate|].
  destruct (api_list_transcripts env video_id) as [tracks|]; [|reflexivity].
  pose proof (scan_unavailable tracks None Hl I) as Hs.
  destruct (scan_tracks tracks None) as [?|[other|]]; [contradiction| |reflexivity].
  destruct (use_unavailable other Hs) as (e' & ->). reflexivity.
Qed.

Lemma scan_no_english tracks other :
  no_english tracks = true ->
  scan_tracks tracks other = Next (match last tracks with Some t => Some t | None => other end).
Proof.
  revert other. induction tracks as [|t tracks IH]; intros other H; simpl; [reflexivity|].
  simpl in H. apply andb_prop in H as [Ht H]. apply negb_true_iff in Ht. rewrite Ht.
  rewrite (IH _ H). destruct tracks as [|t' tracks']; [reflexivity|].
  change (last (t :: t' :: tracks')) with (last (t' :: tracks')).
  destruct (last (t' :: tracks')) eqn:E; [reflexivity|].
  apply last_None in E. discriminate.
Qed.

(** C7: when the default language fails and the listing holds no English
    track, the last listed track is translated; the translated captions are
    returned when translation succeeds, and the captions of the track
    itself when it fails (the empty sequence when they cannot be fetched
    either). *)
Theorem fallback_translation (env : TranscriptEnv) (video_id : string)
    (tracks : list Track) (candidate : Track) (e : exn) :
  api_get_transcript env video_id = Raises e ->
  api_list_transcripts env video_id = Returns tracks ->
  no_english tracks = true ->
  last tracks = Some candidate ->
  (forall translated,
      translate_en candidate = Returns (Returns translated) ->
      get_transcript env video_id = Ok translated)
  /\ (fails (translate_en candidate) = true
      \/ (exists e', translate_en candidate = Returns (Raises e')) ->
      (forall original,
          fetch candidate = Returns original ->
          get_transcript env video_id = Ok original)
      /\ (fails (fetch candidate) = true -> get_transcript env video_id = Ok [])).
Proof.
  intros Hd Hl Hne Hlast. rewrite get_transcript_cases, Hd, Hl.
  rewrite (scan_no_english tracks None Hne), Hlast.
  assert (Hc : negb (String.eqb (language_code candidate) "en") = true).
  { clear -Hne Hlast. induction tracks as [|t tracks IH]; [discriminate|].
    simpl in Hne. apply andb_prop in Hne as [Ht Hne].
    destruct tracks as [|t' tracks']; [simpl in Hlast; congruence | apply IH; auto]. }
  unfold use_other_transcript. rewrite Hc.
  split.
  - intros translated ->. reflexivity.
  - intros Hfail. split.
    + intros original ->.
      destruct Hfail as [Hf | (e' & ->)]; [|reflexivity].
      destruct (translate_en candidate); [discriminate | reflexivity].
    + intros Hf. destruct (fetch candidate); [discriminate|].
      destruct Hfail as [Hf' | (e' & ->)]; [|reflexivity].
      destruct (translate_en candidate); [discriminate | reflexivity].
Qed.

Lemma fallback_translation_witness :
  get_transcript env_german "abcdefghijk" = Ok [mkEntry "Hello" (0 # 1) (3 # 2)].
Proof.
  exact (proj1 (fallback_translation env_german "abcdefghijk" [german_track] german_track
                  (Exn "NoTranscriptFound" "no transcript") eq_refl eq_refl eq_refl eq_refl)
           _ eq_refl).
Defined.

End Captions.

(** ** The metadata resolver (claim C5) *)

Section Metadata.

(** C5, as the specification states it, fails when the API knows no such
    video: [get_video_info_api] raises, and [get_video_info] goes on to the
    scraped lookup and returns its record. *)
Lemma zero_results_fall_back :
  yt_service env_zero_results = true
  /\ get_video_info_api env_zero_results "abcdefghijk"
     = Raise (ValueError "No video found with ID: abcdefghijk")
  /\ get_video_info env_zero_results "https://youtu.be/abcdefghijk"
     = Ok (JDict
            [("id", JStr "abcdefghijk");
             ("title", JStr "A title");
             ("description", JStr "");
             ("channelTitle", JStr "A channel");
             ("viewCount", JStr "1234");
             ("thumbnailUrl", JStr "https://i.ytimg.com/vi/abcdefghijk/hqdefault.jpg");
             ("publishedAt", JStr "2024-01-01T00:00:00");
             ("scraped", JBool true)]).
Proof. split_and!; vm_compute; reflexivity. Qed.

Lemma api_zero_results env video_id rest :
  yt_service env = true ->
  videos_list env video_id = Returns (JDict (("items", JList []) :: rest)) ->
  get_video_info_api env video_id
  = Raise (ValueError ("No video found with ID: " +:+ video_id)).
Proof. intros Hs Hl. unfold get_video_info_api. rewrite Hs, Hl. reflexivity. Qed.

(** C5, as amended: with a service client configured, [get_video_info]
    returns what the authoritative lookup returns; when that lookup raises
    for any reason, zero results included, it returns or raises what the
    scraped lookup returns or raises, so that when both fail the scraping
    error is the one propagated. *)
Theorem metadata_fallback (env : MetadataEnv) (video_url video_id : string) :
  yt_service env = true ->
  _extract_video_id video_url = Ok (Some video_id) ->
  video_id <> "" ->
  (forall info, get_video_info_api env video_id = Ok info ->
                get_video_info env video_url = Ok info)
  /\ (forall e, get_video_info_api env video_id = Raise e ->
                get_video_info env video_url = get_video_info_scraping env video_id)
  /\ (forall rest, videos_list env video_id = Returns (JDict (("items", JList []) :: rest)) ->
                get_video_info env video_url = get_video_info_scraping env video_id)
  /\ (forall e e', get_video_info_api env video_id = Raise e ->
                get_video_info_scraping env video_id = Raise e' ->
                get_video_info env video_url = Raise e').
Proof.
  intros Hs Hx Hne.
  assert (Hg : get_video_info env video_url
               = try_except (get_video_info_api env video_id)
                   (fun _ => get_video_info_scraping env video_id)).
  { unfold get_video_info. rewrite Hx. simpl.
    destruct video_id; [congruence|]. simpl. now rewrite Hs. }
  rewrite Hg. split_and!.
  - intros info ->. reflexivity.
  - intros e ->. reflexivity.
  - intros rest Hl. rewrite (api_zero_results _ _ _ Hs Hl). reflexivity.
  - intros e e' -> ->. reflexivity.
Qed.

Lemma metadata_fallback_witness :
  get_video_info env_zero_results "https://youtu.be/abcdefghijk"
  = get_video_info_scraping env_zero_results "abcdefghijk".
Proof.
  assert (Hx : _extract_video_id "https://youtu.be/abcdefghijk" = Ok (Some "abcdefghijk"))
    by (vm_compute; reflexivity).
  assert (Hne : "abcdefghijk" <> "") by discriminate.
  destruct (metadata_fallback env_zero_results "https://youtu.be/abcdefghijk" "abcdefghijk"
              eq_refl Hx Hne) as (_ & _ & H & _).
  exact (H [] eq_refl).
Defined.




End Metadata.

(** ** The video chain (claims C3 and C4) *)

Section Video.

Lemma falsy_some s : s <> "" -> falsy (Some s) = false.
Proof. destruct s; [congruence | reflexivity]. Qed.

Lemma download_video_chain env url video_id w :
  _extract_video_id url = Ok (Some video_id) -> video_id <> "" ->
  makedirs env = Returns tt ->
  download_video env url None w
  = try_ (video_chain env video_id (path_join (download_path env) video_id))
      (fun e => run _ <- logger ERROR ("Error downloading video: " +:+ exn_str e); raise e) w.
Proof.
  intros Hx Hne Hm. unfold download_video, try_, bindM, lift. rewrite Hx.
  rewrite (falsy_some _ Hne). simpl falsy. cbv iota. rewrite Hm. simpl call. cbv iota.
  reflexivity.
Qed.

Lemma large_mp4_head fs out f rest :
  large_mp4_files fs out = f :: rest ->
  exists n, fs !! path_join out f = Some n /\ (1000000 < n)%N.
Proof.
  intros H. assert (Hin : f ∈ large_mp4_files fs out) by (rewrite H; left).
  unfold large_mp4_files in Hin. apply list_elem_of_filter in Hin as [[_ Hsz] _].
  destruct (fs !! path_join out f) as [n|]; simpl in Hsz; [eauto | lia].
Qed.

(** Method 1 returns the file yt-dlp reports when it is on disk with a
    non-zero size. *)
Lemma video_method1_returns env video_id out errors w info p n ua :
  yt_dlp_importable env = true ->
  (if ua_rotation env then rotate_ua env else Returns "") = Returns ua ->
  youtube_dl env = Returns tt ->
  outcome (extract_info env) = Returns (Some info) ->
  p = match requested_downloads info with
      | Some (filepath :: _) => filepath
      | _ => path_join out (video_id +:+ "." +:+ default "mp4" (ext info))
      end ->
  write_files (files w) (written (extract_info env)) !! p = Some n ->
  (0 < n)%N ->
  exists w', video_method1 env video_id out errors w = (w', Ok (Return p))
             /\ files w' = write_files (files w) (written (extract_info env)).
Proof.
  intros Hi Hua Hy He -> Hp Hn.
  unfold video_method1, try_, bindM, lift, logger, use, get_files, put_files, ret, raise.
  rewrite Hi. simpl.
  destruct (ua_rotation env); [rewrite Hua|]; simpl; rewrite Hy; simpl; rewrite He; simpl;
    unfold path_exists; rewrite Hp; simpl; eexists; split; reflexivity.
Qed.

(** Method 2 returns only the canonical file, larger than 1000000 bytes. *)
Lemma video_method2_returns env video_id out errors w w' p :
  video_method2 env video_id out errors w = (w', Ok (Return p)) ->
  p = path_join out (video_id +:+ ".mp4")
  /\ exists n, files w' !! p = Some n /\ (1000000 < n)%N.
Proof.
  unfold video_method2, try_, bindM, lift, logger, use, get_files, put_files, ret, raise.
  simpl.
  destruct (relay_browser env) as [[]|e]; simpl; [|intros [= <- ]].
  destruct (relay_navigate env) as [[]|e]; simpl; [|intros [= <- ]].
  destruct (relay_buttons env) as [[|]|e]; simpl; try (intros [= <- ]; fail).
  destruct (outcome (relay_clicks env)) as [[]|e]; simpl; [|intros [= <- ]].
  set (fs := write_files (files w) (written (relay_clicks env))).
  destruct (large_mp4_files fs out) as [|f rest] eqn:E; simpl; [intros [= <- ]|].
  destruct (large_mp4_head _ _ _ _ E) as (n & Hn & Hsz).
  destruct (String.eqb (path_join out f) (path_join out (video_id +:+ ".mp4"))) eqn:Eq; simpl.
  - apply String.eqb_eq in Eq. intros [= <- <-]. simpl. split; [reflexivity|].
    exists n. now rewrite <- Eq.
  - unfold rename. rewrite Hn. simpl. intros [= <- <-]. simpl. split; [reflexivity|].
    exists n. now rewrite lookup_insert_eq.
Qed.

(** Method 3 returns only a file that is on disk with a non-zero size. *)
Lemma video_method3_returns env video_id out errors w w' p :
  video_method3 env video_id out errors w = (w', Ok (Return p)) ->
  exists n, files w' !! p = Some n /\ (0 < n)%N.
Proof.
  unfold video_method3, try_, bindM, lift, logger, use, get_files, put_files, ret, raise.
  simpl.
  destruct (pytube_youtube env) as [[]|e]; simpl; [|intros [= <- ]].
  destruct (pytube_stream env) as [[|]|e]; simpl; try (intros [= <- ]; fail).
  destruct (outcome (pytube_download env)) as [video_path|e]; simpl; [|intros [= <- ]].
  set (fs := write_files (files w) (written (pytube_download env))).
  unfold path_exists.
  destruct (fs !! video_path) as [n|] eqn:E; simpl; [|intros [= <- ]].
  destruct (0 <? n)%N eqn:Hn; simpl; [|intros [= <- ]].
  intros [= <- <-]. simpl. exists n. split; [exact E|]. now apply N.ltb_lt.
Qed.












(** C4 fails on the code: with all three methods failing, the failure of
    the relay while it waits for the download buttons is logged and not
    appended to [errors]; the raised message lists two failures for three
    methods tried. *)
Theorem relay_failure_is_not_recorded :
  (download_video env_all_fail "https://youtu.be/abcdefghijk" None nothing_yet).2
  = Raise (ValueError
      "Video download failed after multiple attempts. Errors: yt-dlp method failed: ERROR: Video unavailable; Pytube stream error: abcdefghijk is unavailable")
  /\ (video_method2 env_all_fail "abcdefghijk" "./downloads/abcdefghijk"
        ["yt-dlp method failed: ERROR: Video unavailable"] nothing_yet).2
     = Ok (Next ["yt-dlp method failed: ERROR: Video unavailable"])
  /\ log (download_video env_all_fail "https://youtu.be/abcdefghijk" None nothing_yet).1
     = [(INFO, "Using yt-dlp for download (recommended method)");
        (INFO, "Downloading video abcdefghijk with yt-dlp...");
        (WARNING, "yt-dlp download failed, trying pytube: ERROR: Video unavailable");
        (INFO, "Attempting Selenium-based download for video abcdefghijk");
        (ERROR, "Error during Selenium-based download action: Message: ");
        (INFO, "Attempting standard pytube download for video abcdefghijk");
        (ERROR, "Specific pytube download error: abcdefghijk is unavailable");
        (ERROR,
         "Error downloading video: Video download failed after multiple attempts. Errors: yt-dlp method failed: ERROR: Video unavailable; Pytube stream error: abcdefghijk is unavailable")].
Proof. split_and!; vm_compute; reflexivity. Qed.

(** Strategy 1 accepts an empty file: existence is all it tests. *)
Example empty_file_from_yt_dlp :
  let env :=
    mkVideoEnv "./downloads" (Returns tt) true false (Returns "") (Returns tt)
      (mkTool [("./downloads/abcdefghijk/abcdefghijk.mp4", 0%N)]
         (Returns (Some (mkExtractedInfo None (Some "mp4")))))
      (Returns tt) (Returns tt) (Returns false) (mkTool [] (Returns tt))
      (Returns tt) (Returns false) (mkTool [] (Returns "")) in
  (download_video env "https://youtu.be/abcdefghijk" None nothing_yet).2
  = Ok "./downloads/abcdefghijk/abcdefghijk.mp4".
Proof. vm_compute. reflexivity. Qed.

(** A launch that fails is logged by [initialize_webdriver] and then by the
    handler of the relay. *)
Example failed_launch_is_logged :
  log (download_video env_no_browser "https://youtu.be/abcdefghijk" None nothing_yet).1
  = [(INFO, "Using yt-dlp for download (recommended method)");
     (INFO, "Downloading video abcdefghijk with yt-dlp...");
     (WARNING, "yt-dlp download failed, trying pytube: ERROR: Video unavailable");
     (INFO, "Attempting Selenium-based download for video abcdefghijk");
     (ERROR, "Error initializing webdriver: Message: chrome not reachable");
     (WARNING,
      "Selenium download failed, trying standard pytube: Message: chrome not reachable");
     (INFO, "Attempting standard pytube download for video abcdefghijk");
     (INFO, "Video downloaded to ./downloads/abcdefghijk/A title.mp4 (standard method)")].
Proof. vm_compute. reflexivity. Qed.

End Video.

(** ** The audio chain (claim C10) *)

Section Audio.

Lemma convert_downloaded_spec env audio_path w :
  endswith ".mp4" audio_path = true ->
  match converted (convert env audio_path) with
  | Returns _ =>
      (convert_downloaded env audio_path w).2 = Ok (replace ".mp4" ".mp3" audio_path)
      /\ files (convert_downloaded env audio_path w).1 !! audio_path = None
  | Raises _ =>
      (convert_downloaded env audio_path w).2 = Ok audio_path
      /\ files (convert_downloaded env audio_path w).1 !! audio_path = files w !! audio_path
  end.
Proof.
  intros He. pose proof (mp3_path_differs _ He) as Hne.
  unfold convert_downloaded, convert_to_mp3, try_, bindM, lift, logger, use, get_files,
    put_files, ret, raise. simpl.
  set (mp3 := replace ".mp4" ".mp3" audio_path) in *.
  assert (Hw : forall fs, write_files fs
                 match mp3_written (convert env audio_path) with
                 | Some n => [(mp3, n)]
                 | None => []
                 end !! audio_path = fs !! audio_path).
  { intros fs. destruct (mp3_written (convert env audio_path)); simpl; [|reflexivity].
    now rewrite lookup_insert_ne. }
  destruct (converted (convert env audio_path)) as [[]|e]; simpl.
  - unfold path_exists, remove. rewrite Hw.
    destruct (files w !! audio_path) eqn:E; simpl.
    + split; [reflexivity|]. apply lookup_delete_eq.
    + split; [reflexivity|]. now rewrite Hw.
  - split; [reflexivity|]. now rewrite Hw.
Qed.

(** C10: in Method 2 of [download_audio], when pytube hands back a path
    ending in [.mp4], a conversion that succeeds makes the method return the
    mp3 path with the mp4 file gone from disk, and a conversion that raises
    makes it return the mp4 path with that file as the download left it. *)
Theorem mp4_audio_is_converted (env : AudioEnv) (video_id out audio_path : string)
    (errors : list string) (w : World) :
  audio_pytube_youtube env = Returns tt ->
  audio_stream env = Returns true ->
  outcome (audio_stream_download env) = Returns audio_path ->
  endswith ".mp4" audio_path = true ->
  match converted (convert env audio_path) with
  | Returns _ =>
      (audio_method2 env video_id out errors w).2
      = Ok (Return (replace ".mp4" ".mp3" audio_path))
      /\ files (audio_method2 env video_id out errors w).1 !! audio_path = None
  | Raises _ =>
      (audio_method2 env video_id out errors w).2 = Ok (Return audio_path)
      /\ files (audio_method2 env video_id out errors w).1 !! audio_path
         = write_files (files w) (written (audio_stream_download env)) !! audio_path
  end.
Proof.
  intros Hy Hs Hd He.
  cbv beta iota delta [audio_method2 try_ bindM lift logger use ret raise call].
  rewrite Hy. cbv beta iota. rewrite Hs. cbv beta iota delta [negb].
  rewrite Hd. cbv beta iota. rewrite He. cbv beta iota.
  match goal with
  | |- context [convert_downloaded env audio_path ?w1] =>
      pose proof (convert_downloaded_spec env audio_path w1 He) as Hc;
      destruct (convert_downloaded env audio_path w1) as [w2 [p|e|]]
  end; cbn [fst snd files] in *;
    destruct (converted (convert env audio_path)); destruct Hc as [Hp Hf];
    try discriminate; injection Hp as ->; split; auto.
Qed.

Lemma mp4_audio_is_converted_witness :
  (audio_method2 env_mp4_audio "abcdefghijk" "./downloads/abcdefghijk" [] nothing_yet).2
  = Ok (Return "./downloads/abcdefghijk/A title.mp3")
  /\ files (audio_method2 env_mp4_audio "abcdefghijk" "./downloads/abcdefghijk" []
              nothing_yet).1
       !! "./downloads/abcdefghijk/A title.mp4" = None.
Proof.
  exact (mp4_audio_is_converted env_mp4_audio "abcdefghijk" "./downloads/abcdefghijk"
           "./downloads/abcdefghijk/A title.mp4" [] nothing_yet
           eq_refl eq_refl eq_refl eq_refl).
Defined.

(** The whole of [download_audio] on that environment: yt-dlp cannot be
    installed, pytube downloads, the file is converted. *)
Example download_audio_converts :
  (download_audio env_mp4_audio "https://youtu.be/abcdefghijk" None nothing_yet).2
  = Ok "./downloads/abcdefghijk/A title.mp3"
  /\ map_to_list (files (download_audio env_mp4_audio "https://youtu.be/abcdefghijk" None
                           nothing_yet).1)
     = [("./downloads/abcdefghijk/A title.mp3", 30%N)].
Proof. split; vm_compute; reflexivity. Qed.

End Audio.

(** ** The scraping page (claim C2) *)

Section ScrapingPage.

Lemma keeps_ret {A} (a : A) : keeps_page (ret a).
Proof. now intros w. Qed.

Lemma keeps_raise {A} e : keeps_page (@raise A e).
Proof. now intros w. Qed.

Lemma keeps_lift {A} (r : result A) : keeps_page (lift r).
Proof. now intros w. Qed.

Lemma keeps_logger l msg : keeps_page (logger l msg).
Proof. now intros w. Qed.

Lemma keeps_use {A} (t : tool A) : keeps_page (use t).
Proof. now intros w. Qed.

Lemma keeps_get_files : keeps_page get_files.
Proof. now intros w. Qed.

Lemma keeps_put_files fs : keeps_page (put_files fs).
Proof. now intros w. Qed.

Lemma keeps_logged {A} records (r : result A) : keeps_page (logged records r).
Proof. now intros w. Qed.

Lemma keeps_bind {A B} (m : M A) (k : A -> M B) :
  keeps_page m -> (forall a, keeps_page (k a)) -> keeps_page (bindM m k).
Proof.
  intros Hm Hk w. unfold bindM. destruct (Hm w) as [H1 H2].
  destruct (m w) as [w' [a|e|]]; simpl in *; [|auto..].
  destruct (Hk a w') as [H3 H4]. split; congruence.
Qed.

Lemma keeps_try {A} (m : M A) (h : exn -> M A) :
  keeps_page m -> (forall e, keeps_page (h e)) -> keeps_page (try_ m h).
Proof.
  intros Hm Hh w. unfold try_. destruct (Hm w) as [H1 H2].
  destruct (m w) as [w' [a|e|]]; simpl in *; [auto| |auto].
  destruct (Hh e w') as [H3 H4]. split; congruence.
Qed.

Ltac keeps :=
  repeat first
    [ apply keeps_ret | apply keeps_raise | apply keeps_lift | apply keeps_logger
    | apply keeps_logged | apply keeps_use | apply keeps_get_files | apply keeps_put_files
    | apply keeps_bind; [|intros ?] | apply keeps_try; [|intros ?]
    | match goal with
      | |- keeps_page (if ?b then _ else _) => destruct b
      | |- keeps_page (match ?x with _ => _ end) => destruct x
      end ].


Lemma download_audio_keeps_page env url o : keeps_page (download_audio env url o).
Proof.
  unfold download_audio, audio_chain, audio_method1, audio_method2, convert_downloaded,
    convert_to_mp3. keeps.
Qed.




(** The page of [env_page], widget by widget. *)
Example page_result_on_failure :
  page (content_scraping_page env_page nothing_yet).1
  = [st_subheader "Video Information";
     st_write "**Title:** " (JStr "A title");
     st_write "**Channel:** " (JStr "A channel");
     st_write "**Views:** " (JStr "1234");
     st_write "**Published:** " (JStr "2024-01-01T00:00:00");
     st_error
       "Error downloading video: Video download failed after multiple attempts. Errors: yt-dlp method failed: ERROR: Video unavailable; Pytube stream error: abcdefghijk is unavailable";
     st_subheader "Video Transcript";
     st_text_area "Transcript" ("[00:00] Hello" +:+ str1 LF);
     st_success
       "Content processed and metadata saved successfully! You can now repurpose it in the Content Repurposing tab."].
Proof. vm_compute. reflexivity. Qed.

(** The records of the metadata resolver and of the transcript reader reach
    the log of the page, before and after those of the download. *)
Example page_log_of_a_failed_lookup :
  log (content_scraping_page env_page nothing_yet).1
  = [(ERROR, "Error getting video info from API: No video found with ID: abcdefghijk");
     (WARNING,
      "API method failed, falling back to scraping: No video found with ID: abcdefghijk");
     (INFO, "Using yt-dlp for download (recommended method)");
     (INFO, "Downloading video abcdefghijk with yt-dlp...");
     (WARNING, "yt-dlp download failed, trying pytube: ERROR: Video unavailable");
     (INFO, "Attempting Selenium-based download for video abcdefghijk");
     (ERROR, "Error during Selenium-based download action: Message: ");
     (INFO, "Attempting standard pytube download for video abcdefghijk");
     (ERROR, "Specific pytube download error: abcdefghijk is unavailable");
     (ERROR,
      "Error downloading video: Video download failed after multiple attempts. Errors: yt-dlp method failed: ERROR: Video unavailable; Pytube stream error: abcdefghijk is unavailable");
     (ERROR,
      "Video download error: Video download failed after multiple attempts. Errors: yt-dlp method failed: ERROR: Video unavailable; Pytube stream error: abcdefghijk is unavailable");
     (WARNING, "Error getting transcript with default language: no transcript")].
Proof. vm_compute. reflexivity. Qed.

End ScrapingPage.

(** * Further properties of the code *)

(** ** More on strings *)

Section MoreTexts.
Import Text.

#[local] Arguments String.append : simpl nomatch.
#[local] Arguments Ascii.eqb : simpl nomatch.

Lemma filter_str_keeps keep s : forallb_str keep (filter_str keep s) = true.
Proof.
  induction s as [|a s IH]; simpl; [reflexivity|].
  destruct (keep a) eqn:E; simpl; [now rewrite E | exact IH].
Qed.

Lemma lstrip_all f a b : forallb_str f a = true -> lstrip f (a +:+ b) = lstrip f b.
Proof.
  induction a as [|x a IH]; simpl; [reflexivity|].
  intros H. apply andb_prop in H as [Hx Ha]. rewrite Hx. auto.
Qed.

Lemma lstrip_head f s :
  lstrip f s = "" \/ exists c r, lstrip f s = String c r /\ f c = false.
Proof.
  induction s as [|a s IH]; [now left|]. simpl. destruct (f a) eqn:E; [exact IH|].
  right. eauto.
Qed.

Lemma rstrip_suffix f a t : t <> "" -> rstrip f t = t -> rstrip f (a +:+ t) = a +:+ t.
Proof.
  intros Hne Ht. induction a as [|x a IH]; [exact Ht|].
  change (rstrip f (String x a +:+ t))
    with (match rstrip f (a +:+ t) with
          | EmptyString => if f x then EmptyString else String x EmptyString
          | r => String x r
          end).
  rewrite IH. change (String x a +:+ t) with (String x (a +:+ t)).
  destruct (a +:+ t) eqn:E; [|reflexivity].
  destruct a; [simpl in E; congruence | discriminate].
Qed.

Lemma rstrip_idem f s : rstrip f (rstrip f s) = rstrip f s.
Proof.
  induction s as [|a s IH]; [reflexivity|].
  cbn [rstrip]. destruct (rstrip f s) as [|b r] eqn:E.
  - destruct (f a) eqn:Ea; [reflexivity|]. cbn [rstrip]. now rewrite Ea.
  - cbn [rstrip]. cbn [rstrip] in IH. now rewrite IH.
Qed.

Lemma rstrip_head f c s :
  f c = false -> exists r, rstrip f (String c s) = String c r.
Proof. intros Hc. cbn [rstrip]. destruct (rstrip f s); rewrite ?Hc; eauto. Qed.

Lemma rstrip_shorter f s : String.length (rstrip f s) <= String.length s.
Proof.
  induction s as [|a s IH]; simpl; [lia|].
  destruct (rstrip f s); [destruct (f a)|]; simpl in *; lia.
Qed.

Lemma lstrip_shorter f s : String.length (lstrip f s) <= String.length s.
Proof. induction s as [|a s IH]; simpl; [lia|]. destruct (f a); simpl; lia. Qed.

(** [strip] is idempotent. *)
Lemma strip_idem s : strip (strip s) = strip s.
Proof.
  unfold strip. destruct (lstrip_head isspace s) as [-> | (c & r & -> & Hc)]; [reflexivity|].
  destruct (rstrip_head isspace c r Hc) as (r' & Hr).
  assert (Hl : lstrip isspace (rstrip isspace (String c r)) = rstrip isspace (String c r))
    by (rewrite Hr; simpl; now rewrite Hc).
  rewrite Hl. apply rstrip_idem.
Qed.

(** A text that [strip] leaves alone is left alone by [rstrip]. *)
Lemma strip_fixed_rstrip s : strip s = s -> rstrip isspace s = s.
Proof.
  unfold strip. destruct s as [|c rest]; [reflexivity|]. intros Hs.
  destruct (isspace c) eqn:Ec; simpl in Hs; rewrite Ec in Hs; [|exact Hs].
  exfalso. pose proof (rstrip_shorter isspace (lstrip isspace rest)) as H1.
  pose proof (lstrip_shorter isspace rest) as H2. rewrite Hs in H1. simpl in H1. lia.
Qed.

Lemma startswith_char_app c a b :
  a <> "" -> startswith (str1 c) (a +:+ b) = startswith (str1 c) a.
Proof. destruct a as [|x a]; [congruence|]. intros _. simpl. now destruct (Ascii.eqb c x). Qed.

Lemma split_aux_line c l s acc :
  has_char c l = false ->
  split_aux (str1 c) (l +:+ s) 0 acc = split_aux (str1 c) s 0 (acc +:+ l).
Proof.
  revert acc. induction l as [|x l IH]; intros acc H.
  - simpl. now rewrite append_empty_r.
  - simpl in H. destruct (Ascii.eqb x c) eqn:E; [discriminate|].
    change (split_aux (str1 c) (String x l +:+ s) 0 acc)
      with (if startswith (str1 c) (String x (l +:+ s))
            then acc :: split_aux (str1 c) (l +:+ s) (String.length (str1 c) - 1) ""
            else split_aux (str1 c) (l +:+ s) 0 (acc +:+ str1 x)).
    change (startswith (str1 c) (String x (l +:+ s))) with (if Ascii.eqb c x then true else false).
    rewrite Ascii.eqb_sym, E. rewrite (IH _ H). unfold str1. now rewrite append_assoc.
Qed.

(** [sep.join(lines).split(sep)] gives the lines back when no line holds
    the separator. *)
Lemma split_join c lines :
  lines <> [] -> Forall (fun l => has_char c l = false) lines ->
  split (str1 c) (join (str1 c) lines) = lines.
Proof.
  unfold split. intros Hne Hall.
  induction Hall as [|l lines Hl Hall IH]; [congruence|].
  destruct lines as [|l' lines].
  - simpl. rewrite split_aux_none; [reflexivity|]. now rewrite contains_char.
  - change (join (str1 c) (l :: l' :: lines)) with (l +:+ str1 c +:+ join (str1 c) (l' :: lines)).
    rewrite split_aux_line by exact Hl.
    change (str1 c +:+ join (str1 c) (l' :: lines))
      with (String c (join (str1 c) (l' :: lines))).
    change (split_aux (str1 c) (String c (join (str1 c) (l' :: lines))) 0 ("" +:+ l))
      with (if startswith (str1 c) (String c (join (str1 c) (l' :: lines)))
            then ("" +:+ l) :: split_aux (str1 c) (join (str1 c) (l' :: lines)) 0 ""
            else split_aux (str1 c) (join (str1 c) (l' :: lines)) 0 (("" +:+ l) +:+ str1 c)).
    change (startswith (str1 c) (String c (join (str1 c) (l' :: lines))))
      with (if Ascii.eqb c c then true else false).
    rewrite Ascii.eqb_refl. f_equal. apply IH. discriminate.
Qed.

Lemma split_aux_free c sep s k acc :
  has_char c s = false -> has_char c acc = false ->
  Forall (fun piece => has_char c piece = false) (split_aux sep s k acc).
Proof.
  revert k acc. induction s as [|a s IH]; intros k acc Hs Hacc.
  - simpl. now constructor.
  - simpl in Hs. destruct (Ascii.eqb a c) eqn:E; [discriminate|].
    cbn [split_aux]. destruct k as [|k]; [|now apply IH].
    destruct (startswith sep (String a s)).
    + constructor; [exact Hacc | now apply IH].
    + apply IH; [exact Hs|]. rewrite has_char_app, Hacc. simpl. now rewrite E.
Qed.

Lemma replace_aux_free c old new s k :
  has_char c s = false -> has_char c new = false ->
  has_char c (replace_aux old new s k) = false.
Proof.
  intros Hs Hn. revert k. induction s as [|a s IH]; intros k; [reflexivity|].
  simpl in Hs. destruct (Ascii.eqb a c) eqn:E; [discriminate|].
  cbn [replace_aux]. destruct k as [|k]; [|now apply IH].
  destruct (startswith old (String a s)).
  - rewrite has_char_app, Hn. now apply IH.
  - simpl. rewrite E. now apply IH.
Qed.

(** [replace] passes over a text that lacks the first character of what it
    looks for. *)
Lemma replace_aux_skip c old new a b :
  has_char c a = false ->
  replace_aux (String c old) new (a +:+ b) 0 = a +:+ replace_aux (String c old) new b 0.
Proof.
  induction a as [|x a IH]; intros H; [reflexivity|].
  simpl in H. destruct (Ascii.eqb x c) eqn:E; [discriminate|].
  change (replace_aux (String c old) new (String x a +:+ b) 0)
    with (if startswith (String c old) (String x (a +:+ b))
          then new +:+ replace_aux (String c old) new (a +:+ b) (String.length (String c old) - 1)
          else String x (replace_aux (String c old) new (a +:+ b) 0)).
  change (startswith (String c old) (String x (a +:+ b)))
    with (if Ascii.eqb c x then startswith old (a +:+ b) else false).
  rewrite Ascii.eqb_sym, E. rewrite (IH H). reflexivity.
Qed.

Lemma join_snoc sep ls l :
  exists prefix, join sep (ls ++ [l])%list = prefix +:+ l.
Proof.
  induction ls as [|x ls (prefix & IH)]; [now exists ""|].
  destruct ls as [|y ls].
  - exists (x +:+ sep). simpl. now rewrite append_assoc.
  - exists (x +:+ sep +:+ prefix).
    change (join sep ((x :: y :: ls) ++ [l])%list)
      with (x +:+ sep +:+ join sep ((y :: ls) ++ [l])%list).
    rewrite IH. now rewrite !append_assoc.
Qed.

Lemma rstrip_join f sep lines :
  Forall (fun l => l <> "" /\ rstrip f l = l) lines ->
  rstrip f (join sep lines) = join sep lines.
Proof.
  intros Hall. destruct lines as [|l0 lines] using rev_ind; [reflexivity|].
  apply Forall_app in Hall as [_ Hl]. apply Forall_cons in Hl as [[Hne Hr] _].
  destruct (join_snoc sep lines l0) as (prefix & ->). now apply rstrip_suffix.
Qed.

Lemma lstrip_join f sep l lines :
  (exists c rest, l = String c rest /\ f c = false) ->
  lstrip f (join sep (l :: lines)) = join sep (l :: lines).
Proof.
  intros (c & rest & -> & Hc).
  destruct lines; simpl; now rewrite Hc.
Qed.

End MoreTexts.

(** ** Links with parameters *)

Section Links.
Import Terms.

#[local] Arguments String.append : simpl nomatch.
#[local] Arguments Ascii.eqb : simpl nomatch.
#[local] Arguments contains : simpl never.
#[local] Arguments split : simpl never.
#[local] Arguments parse_qsl : simpl never.

Ltac by_chars c := destruct c as [[] [] [] [] [] [] [] []]; try reflexivity; try discriminate.

Lemma unquote_plain s : has_char "%" s = false -> unquote s = Ok s.
Proof. intros H. unfold unquote. now rewrite H. Qed.

(** [parse_qsl] returns on fields without a percent sign. *)
Lemma parse_fields_returns fields :
  Forall (fun field => has_char "%" field = false) fields ->
  exists pairs, parse_fields fields = Ok pairs.
Proof.
  induction 1 as [|field fields Hf _ (pairs & IH)]; [now exists []|].
  cbn [parse_fields].
  pose proof (break_at_fst_infix (Ascii.eqb "=") field) as Hn.
  pose proof (break_at_snd_infix (Ascii.eqb "=") field) as Hv.
  destruct (break_at (Ascii.eqb "=") field) as [n after]. simpl in Hn, Hv.
  destruct after as [|eq [|v0 v']]; try (now exists pairs).
  assert (Hn' : has_char "%" n = false) by (eapply has_char_infix; eauto).
  assert (Hv' : has_char "%" (String v0 v') = false).
  { eapply has_char_infix; [|exact Hf]. eapply infix_trans; [|exact Hv].
    exists (str1 eq), "". simpl. now rewrite append_empty_r. }
  unfold replace. rewrite !unquote_plain by (now apply replace_aux_free).
  rewrite IH. simpl. eauto.
Qed.

(** X1: a short link keeps its identifier when a query string follows it:
    for any scheme and any host that names [youtu.be] and not
    [youtube.com], the extractor returns the text between the slash and the
    question mark. *)
Theorem short_link_with_query (sch host T q : string) :
  scheme_text sch = true ->
  forallb_str host_char host = true ->
  contains "youtube.com" host = false ->
  contains "youtu.be" host = true ->
  forallb_str path_char T = true ->
  forallb_str query_char q = true ->
  _extract_video_id (sch +:+ "://" +:+ host +:+ "/" +:+ T +:+ "?" +:+ q) = Ok (Some T).
Proof.
  intros Hs Hh Hy Hb HT Hq. unfold _extract_video_id.
  change (sch +:+ "://" +:+ host +:+ "/" +:+ T +:+ "?" +:+ q)
    with (sch +:+ "://" +:+ host +:+ ("/" +:+ T +:+ String "?" q)).
  rewrite <- (append_assoc "/" T (String "?" q)).
  rewrite (urlparse_tail sch host ("/" +:+ T) (String "?" q) q Hs Hh (slash_path T HT) Hq)
    by now right.
  cbn [bind netloc path]. rewrite Hy, Hb. reflexivity.
Qed.

Lemma short_link_with_query_witness :
  _extract_video_id "https://youtu.be/abcdefghijk?si=XyZ&t=42" = Ok (Some "abcdefghijk").
Proof.
  exact (short_link_with_query "https" "youtu.be" "abcdefghijk" "si=XyZ&t=42"
           eq_refl eq_refl eq_refl eq_refl eq_refl eq_refl).
Defined.

(** X2: a watch link keeps its identifier when further parameters follow
    it: for any scheme, any host that names [youtube.com] and any
    parameters free of [#] and [%], the extractor returns the value of
    [v]. *)
Theorem watch_link_with_parameters (sch host T rest : string) :
  scheme_text sch = true ->
  forallb_str host_char host = true ->
  contains "youtube.com" host = true ->
  forallb_str video_id_char T = true -> T <> "" ->
  forallb_str parameter_char rest = true ->
  _extract_video_id (sch +:+ "://" +:+ host +:+ "/watch?v=" +:+ T +:+ "&" +:+ rest)
  = Ok (Some T).
Proof.
  intros Hs Hh Hy HT Hne Hr. unfold _extract_video_id.
  set (q := "v=" +:+ T +:+ "&" +:+ rest).
  change (sch +:+ "://" +:+ host +:+ "/watch?v=" +:+ T +:+ "&" +:+ rest)
    with (sch +:+ "://" +:+ host +:+ "/watch" +:+ String "?" q).
  assert (Hpc : forall c, parameter_char c = true -> query_char c = true).
  { intros c. unfold parameter_char, query_char. by_chars c. }
  assert (Hq : forallb_str query_char q = true).
  { unfold q. rewrite !forallb_str_app.
    rewrite (forallb_str_impl _ _ _ query_value_query (forallb_str_impl _ _ _ id_char_query HT)).
    rewrite (forallb_str_impl _ _ _ Hpc Hr). reflexivity. }
  rewrite (urlparse_tail sch host "/watch" (String "?" q) q Hs Hh eq_refl Hq) by now right.
  cbn [bind netloc path query]. rewrite Hy.
  change (contains "/watch" "/watch") with true. cbv iota.
  unfold parse_qsl. assert (Hq0 : exists c q', q = String c q') by (unfold q; simpl; eauto).
  destruct Hq0 as (c0 & q' & Eq). rewrite Eq. rewrite <- Eq. clear c0 q' Eq.
  assert (Hamp : has_char "&" ("v=" +:+ T) = false).
  { rewrite has_char_app. simpl. now apply id_text_has_no. }
  assert (Hsplit : split "&" q = ("v=" +:+ T) :: split "&" rest).
  { unfold split, q. change "&" with (str1 "&") at 1 3.
    rewrite <- append_assoc. rewrite (split_aux_line "&" _ _ "" Hamp). reflexivity. }
  rewrite Hsplit. cbn [parse_fields].
  assert (Hb : break_at (Ascii.eqb "=") ("v=" +:+ T) = ("v", String "=" T)) by reflexivity.
  rewrite Hb. destruct T as [|t0 T']; [congruence|].
  assert (Hpct : has_char "%" rest = false).
  { apply has_char_none. eapply forallb_str_impl; [|exact Hr].
    intros c. unfold parameter_char. by_chars c. }
  destruct (parse_fields_returns (split "&" rest)) as (pairs & Hp).
  { apply split_aux_free; [exact Hpct | reflexivity]. }
  unfold replace. change (replace_aux "+" " " "v" 0) with "v".
  rewrite (replace_aux_none "+" " " (String t0 T')).
  2:{ change "+" with (str1 "+"). rewrite contains_char. now apply id_text_has_no. }
  rewrite (unquote_plain (String t0 T')) by now apply id_text_has_no.
  rewrite Hp. reflexivity.
Qed.

Lemma watch_link_with_parameters_witness :
  _extract_video_id "http://m.youtube.com/watch?v=abcdefghijk&list=PL123&t=42s"
  = Ok (Some "abcdefghijk").
Proof.
  refine (watch_link_with_parameters "http" "m.youtube.com" "abcdefghijk" "list=PL123&t=42s"
            eq_refl eq_refl eq_refl eq_refl _ eq_refl).
  discriminate.
Defined.

End Links.

(** ** The metadata records *)

Section MetadataRecords.

Lemma api_record_head env video_id info :
  get_video_info_api env video_id = Ok info ->
  exists rest, info = JDict (("id", JStr video_id) :: rest).
Proof.
  unfold get_video_info_api, try_except, bind.
  destruct (negb (yt_service env)); try discriminate.
  destruct (call (videos_list env video_id)) as [response| |]; try discriminate.
  repeat match goal with
         | |- context [if ?b then _ else _] => destruct b; try discriminate
         | |- context [getitem0 ?a] => destruct (getitem0 a); try discriminate
         | |- context [getitem ?a ?k] => destruct (getitem a k); try discriminate
         | |- context [get ?a ?k ?d] => destruct (get a k d); try discriminate
         end.
  intros [= <-]. eauto.
Qed.

Lemma scraping_record_head env video_id info :
  get_video_info_scraping env video_id = Ok info ->
  exists rest, info = JDict (("id", JStr video_id) :: rest).
Proof.
  unfold get_video_info_scraping, try_except, bind.
  destruct (call (scrape_browser env)); try discriminate.
  destruct (call (scrape_page env _)); try discriminate.
  intros [= <-]. eauto.
Qed.

(** X3: the record scraping returns carries the identifier it was asked
    for, a view count made of digit characters only (["0"] when the page
    shows none), ["Unknown Channel"] when the page names no channel, and the
    mark [scraped]; it has no ["duration"] entry. *)
Theorem scraped_record_fields (env : MetadataEnv) (video_id : string) (info : json) :
  get_video_info_scraping env video_id = Ok info ->
  exists page views,
    scrape_page env ("https://www.youtube.com/watch?v=" +:+ video_id) = Returns page
    /\ getitem info "id" = Ok (JStr video_id)
    /\ getitem info "viewCount" = Ok (JStr views)
    /\ forallb_str isdigit views = true
    /\ (view_count_element page = None -> views = "0")
    /\ (channel_element page = None ->
        getitem info "channelTitle" = Ok (JStr "Unknown Channel"))
    /\ getitem info "scraped" = Ok (JBool true)
    /\ getitem info "duration" = Raise (Exn "KeyError" "'duration'").
Proof.
  unfold get_video_info_scraping, try_except, bind.
  destruct (call (scrape_browser env)); try discriminate.
  destruct (scrape_page env _) as [page|e] eqn:E; simpl; try discriminate.
  intros [= <-]. exists page. eexists. split; [reflexivity|].
  split; [reflexivity|]. split; [reflexivity|]. split; [apply filter_str_keeps|].
  split_and!; try reflexivity.
  - intros ->. reflexivity.
  - intros ->. reflexivity.
Qed.

Lemma scraped_record_fields_witness :
  exists page views,
    scrape_page env_zero_results "https://www.youtube.com/watch?v=abcdefghijk" = Returns page
    /\ getitem scraped_record "id" = Ok (JStr "abcdefghijk")
    /\ getitem scraped_record "viewCount" = Ok (JStr views)
    /\ forallb_str isdigit views = true
    /\ (view_count_element page = None -> views = "0")
    /\ (channel_element page = None ->
        getitem scraped_record "channelTitle" = Ok (JStr "Unknown Channel"))
    /\ getitem scraped_record "scraped" = Ok (JBool true)
    /\ getitem scraped_record "duration" = Raise (Exn "KeyError" "'duration'").
Proof.
  apply (scraped_record_fields env_zero_results "abcdefghijk" scraped_record).
  vm_compute. reflexivity.
Defined.

(** X4: whichever lookup answers, the record [get_video_info] returns
    carries under ["id"] the identifier extracted from the address, which is
    not empty. *)
Theorem video_info_names_the_video (env : MetadataEnv) (video_url : string) (info : json) :
  get_video_info env video_url = Ok info ->
  exists video_id,
    _extract_video_id video_url = Ok (Some video_id) /\ video_id <> ""
    /\ getitem info "id" = Ok (JStr video_id).
Proof.
  unfold get_video_info, bind.
  destruct (_extract_video_id video_url) as [[[|c vid]|]| |]; simpl; try discriminate.
  intros H. exists (String c vid). split; [reflexivity|]. split; [discriminate|].
  assert (Hs : get_video_info_scraping env (String c vid) = Ok info ->
               getitem info "id" = Ok (JStr (String c vid))).
  { intros Hs. apply scraping_record_head in Hs as (rest & ->). reflexivity. }
  destruct (yt_service env); [|auto].
  unfold try_except in H.
  destruct (get_video_info_api env (String c vid)) eqn:E; [|auto|discriminate].
  injection H as <-. apply api_record_head in E as (rest & ->). reflexivity.
Qed.

Lemma video_info_names_the_video_witness :
  exists video_id,
    _extract_video_id "https://youtu.be/abcdefghijk" = Ok (Some video_id) /\ video_id <> ""
    /\ getitem scraped_record "id" = Ok (JStr video_id).
Proof.
  apply (video_info_names_the_video env_zero_results "https://youtu.be/abcdefghijk"
           scraped_record).
  vm_compute. reflexivity.
Defined.

End MetadataRecords.

(** ** The order of the caption tracks *)

Section CaptionsOrder.
Import Terms.

Lemma scan_first_english pre t post other entries :
  Forall (fun t' => language_code t' = "en" -> fails (fetch t') = true) pre ->
  language_code t = "en" -> fetch t = Returns entries ->
  scan_tracks (pre ++ t :: post) other = Return entries.
Proof.
  intros Hpre Hen Hf. revert other.
  induction Hpre as [|t' pre Ht' _ IH]; intros other; simpl.
  - rewrite Hen, Hf. reflexivity.
  - destruct (String.eqb (language_code t') "en") eqn:E; [|apply IH].
    apply String.eqb_eq in E. specialize (Ht' E).
    destruct (fetch t'); [discriminate | apply IH].
Qed.

(** X5: when the default language fails, the captions returned are those of
    the first English track that can be fetched, whatever tracks stand
    before or after it: tracks of other languages are not translated, and an
    English track that cannot be fetched is passed over. *)
Theorem english_track_is_preferred (env : TranscriptEnv) (video_id : string)
    (pre post : list Track) (t : Track) (entries : list TranscriptEntry) (e : exn) :
  api_get_transcript env video_id = Raises e ->
  api_list_transcripts env video_id = Returns (pre ++ t :: post)%list ->
  Forall (fun t' => language_code t' = "en" -> fails (fetch t') = true) pre ->
  language_code t = "en" ->
  fetch t = Returns entries ->
  get_transcript env video_id = Ok entries.
Proof.
  intros Hd Hl Hpre Hen Hf. rewrite get_transcript_cases, Hd, Hl.
  now rewrite (scan_first_english pre t post None entries Hpre Hen Hf).
Qed.

Lemma english_track_is_preferred_witness :
  get_transcript env_three_tracks "abcdefghijk" = Ok [mkEntry "Hello" (0 # 1) (3 # 2)].
Proof.
  refine (english_track_is_preferred env_three_tracks "abcdefghijk"
            [german_track; broken_english_track] [] english_track _
            (Exn "NoTranscriptFound" "no transcript") eq_refl eq_refl _ eq_refl eq_refl).
  repeat constructor. discriminate.
Defined.

(** What [get_transcript] logs on the way to the second English track. *)
Example records_of_three_tracks :
  get_transcript_records env_three_tracks "abcdefghijk"
  = [(WARNING, "Error getting transcript with default language: no transcript");
     (WARNING, "Error fetching en transcript: blocked")].
Proof. reflexivity. Qed.

End CaptionsOrder.

(** ** Closing the browser *)

Section Closing.

(** X6: after any sequence of calls on a manager, [close_webdriver] leaves
    no browser open and [self.driver] empty, and a second call changes
    nothing. *)
Theorem close_webdriver_closes (ops : list op) :
  driver (close_webdriver (after_calls ops)) = None
  /\ open_browsers (close_webdriver (after_calls ops)) = ∅
  /\ close_webdriver (close_webdriver (after_calls ops)) = close_webdriver (after_calls ops).
Proof.
  assert (Hm : single_browser (after_calls ops)) by (apply single_after, single_new).
  pose proof (quit_driver_closed _ Hm) as H0.
  unfold close_webdriver, quit_driver in *.
  destruct (driver (after_calls ops)) as [h|] eqn:E; cbn [driver open_browsers].
  - split_and!; [reflexivity | exact H0 | reflexivity].
  - rewrite E. split_and!; [reflexivity | exact H0 | reflexivity].
Qed.

End Closing.

(** ** The files the video chain returns *)

Section VideoFiles.

Lemma video_method1_on_disk env video_id out errors w w' p :
  video_method1 env video_id out errors w = (w', Ok (Return p)) ->
  path_exists (files w') p = true.
Proof.
  unfold video_method1, try_, bindM, lift, logger, use, get_files, put_files, ret, raise.
  destruct (yt_dlp_importable env); simpl; [|intros [= ]].
  destruct (if ua_rotation env then _ else _) as [w1 [ua|e|]] eqn:Eua; simpl;
    try (intros [= ]; fail).
  destruct (youtube_dl env) as [[]|e]; simpl; [|intros [= ]].
  destruct (outcome (extract_info env)) as [[info|]|e]; simpl; try (intros [= ]; fail).
  match goal with
  | |- context [path_exists ?fs ?q] => destruct (path_exists fs q) eqn:E
  end; simpl; [|intros [= ]].
  intros [= <- <-]. simpl. exact E.
Qed.

Lemma video_chain_on_disk env video_id out w w' p :
  video_chain env video_id out w = (w', Ok p) -> path_exists (files w') p = true.
Proof.
  unfold video_chain, bindM.
  destruct (video_method1 env video_id out [] w) as [w1 [[p1|errors1]|e|]] eqn:E1;
    try (intros [= ]; fail).
  { intros [= <- <-]. eapply video_method1_on_disk; eauto. }
  destruct (video_method2 env video_id out errors1 w1) as [w2 [[p2|errors2]|e|]] eqn:E2;
    try (intros [= ]; fail).
  { intros [= <- <-]. destruct (video_method2_returns _ _ _ _ _ _ _ E2) as (_ & n & Hn & _).
    unfold path_exists. now rewrite Hn. }
  destruct (video_method3 env video_id out errors2 w2) as [w3 [[p3|errors3]|e|]] eqn:E3;
    try (intros [= ]; fail).
  { intros [= <- <-]. destruct (video_method3_returns _ _ _ _ _ _ _ E3) as (n & Hn & _).
    unfold path_exists. now rewrite Hn. }
  unfold get_files, ret, raise.
  destruct (path_exists (files w3) _) eqn:E; simpl; [|intros [= ]].
  destruct (_ =? 0)%N; [intros [= ]|]. intros [= <- <-]. exact E.
Qed.

(** X7: whatever the tools answer, a path that [download_video] returns
    names a file that is on disk when it returns. *)
Theorem download_video_returns_a_file (env : VideoEnv) (video_url : string)
    (output_path : option string) (w w' : World) (p : string) :
  download_video env video_url output_path w = (w', Ok p) ->
  path_exists (files w') p = true.
Proof.
  unfold download_video, try_, bindM, lift, logger, raise.
  destruct (_extract_video_id video_url) as [video_id| |]; try (intros [= ]; fail).
  destruct (falsy video_id); [intros [= ]|].
  destruct (call (makedirs env)); try (intros [= ]; fail).
  match goal with
  | |- context [video_chain ?e ?i ?o ?w0] =>
      destruct (video_chain e i o w0) as [w1 [p1|e1|]] eqn:E
  end; try (intros [= ]; fail).
  intros [= <- <-]. eapply video_chain_on_disk; eauto.
Qed.

Lemma download_video_returns_a_file_witness :
  path_exists
    (files (download_video env_small_relay "https://youtu.be/abcdefghijk" None nothing_yet).1)
    "./downloads/abcdefghijk/A title.mp4" = true.
Proof.
  apply (download_video_returns_a_file env_small_relay "https://youtu.be/abcdefghijk" None
           nothing_yet).
  vm_compute. reflexivity.
Defined.

End VideoFiles.

(** ** The audio chain *)

Section AudioChain.
Import Terms.

(** Ends a branch in which the computation has come to its outcome. *)
Ltac close :=
  try (intros [= <- <-]; cbn [files];
       solve [ now left
             | right; eexists (Exn "" _); reflexivity
             | eexists (Exn "" _); reflexivity
             | eexists; split; [reflexivity|]; (now left) || (now right) ]).

Lemma audio_method1_cases env video_id out mp3_path errors w w' r :
  audio_method1 env video_id out mp3_path errors w = (w', r) ->
  match r with
  | Ok (Return p) =>
      (p = path_join out (video_id +:+ ".mp3") \/ p = mp3_path)
      /\ path_exists (files w') p = true
  | Ok (Next errors') =>
      errors' = errors
      \/ exists e, errors' = (errors ++ ["yt-dlp audio extraction failed: " +:+ exn_str e])%list
  | Raise _ => False
  | Unmodelled => False
  end.
Proof.
  unfold audio_method1, try_, bindM, lift, logger, use, get_files, put_files, ret, raise.
  destruct (audio_yt_dlp_importable env); simpl.
  2: destruct (pip_install env) as [[]|e0]; simpl; close.
  all: destruct (audio_ua_rotation env); simpl.
  all: try (destruct (audio_rotate_ua env) as [ua|e1]; simpl; close).
  all: destruct (audio_youtube_dl env) as [[]|e2]; simpl; close.
  all: destruct (outcome (ydl_download env)) as [[]|e3]; simpl; close.
  all: match goal with
       | |- context [path_exists ?fs ?q && ?b] =>
           destruct (path_exists fs q) eqn:E; simpl; [destruct b; simpl|]
       end.
  all: try (intros [= <- <-]; cbn [files]; split; [now left | exact E]).
  all: match goal with
       | |- context [filter ?P ?l] => destruct (filter P l) as [|f rest]; simpl; close
       end.
  all: unfold rename;
    match goal with
    | |- context [match ?fs !! ?q with _ => _ end] =>
        destruct (fs !! q) as [n|]; simpl; close
    end.
  all: intros [= <- <-]; cbn [files]; split; [now right|]; unfold path_exists;
    now rewrite lookup_insert_eq.
Qed.

Lemma audio_method2_cases env video_id out errors w w' r :
  audio_method2 env video_id out errors w = (w', r) ->
  match r with
  | Ok (Return p) =>
      exists q, outcome (audio_stream_download env) = Returns q
                /\ (p = q \/ p = replace ".mp4" ".mp3" q)
  | Ok (Next errors') =>
      exists e, errors' = (errors ++ ["pytube audio download failed: " +:+ exn_str e])%list
  | Raise _ => False
  | Unmodelled => False
  end.
Proof.
  unfold audio_method2, convert_downloaded, convert_to_mp3, try_, bindM, lift, logger, use,
    get_files, put_files, ret, raise.
  simpl.
  destruct (audio_pytube_youtube env) as [[]|e]; simpl; close.
  destruct (audio_stream env) as [[|]|e]; simpl; close.
  destruct (outcome (audio_stream_download env)) as [audio_path|e] eqn:Ed; simpl; close.
  destruct (endswith ".mp4" audio_path); simpl; close.
  destruct (converted (convert env audio_path)) as [[]|e]; simpl; close.
  match goal with
  | |- context [path_exists ?fs ?q] => destruct (path_exists fs q); simpl; close
  end.
  unfold remove.
  match goal with
  | |- context [match ?fs !! ?q with _ => _ end] => destruct (fs !! q); simpl; close
  end.
Qed.

Lemma audio_chain_cases env video_id out w w' r :
  audio_chain env video_id out w = (w', r) ->
  match r with
  | Ok p =>
      (p = path_join out (video_id +:+ ".mp3") /\ path_exists (files w') p = true)
      \/ exists q, outcome (audio_stream_download env) = Returns q
                   /\ (p = q \/ p = replace ".mp4" ".mp3" q)
  | Raise e =>
      exists first e2,
        e = ValueError ("Audio download failed after multiple attempts. Errors: "
                        +:+ join "; " (first ++ ["pytube audio download failed: "
                                                 +:+ exn_str e2])%list)
        /\ (first = [] \/ exists e1, first = ["yt-dlp audio extraction failed: " +:+ exn_str e1])
  | Unmodelled => False
  end.
Proof.
  unfold audio_chain, bindM, ret, raise.
  destruct (audio_method1 env video_id out _ [] w) as [w1 r1] eqn:E1.
  apply audio_method1_cases in E1.
  destruct r1 as [[p1|errors1]|e1|]; try contradiction.
  { intros [= <- <-]. left. destruct E1 as [[-> | ->] H]; auto. }
  destruct (audio_method2 env video_id out errors1 w1) as [w2 r2] eqn:E2.
  apply audio_method2_cases in E2.
  destruct r2 as [[p2|errors2]|e2|]; try contradiction.
  { intros [= <- <-]. now right. }
  intros [= <- <-]. destruct E2 as (e2 & ->). exists errors1, e2. split; [reflexivity|].
  destruct E1 as [-> | (e1 & ->)]; eauto.
Qed.

(** X8: a path that [download_audio] returns is either the canonical
    [<video_id>.mp3] of the download directory, and then that file is on
    disk, or the path pytube reported, with [.mp4] replaced by [.mp3] when it
    was converted; the existence of the latter is not tested. *)
Theorem download_audio_returns (env : AudioEnv) (video_url video_id : string)
    (w w' : World) (p : string) :
  _extract_video_id video_url = Ok (Some video_id) ->
  download_audio env video_url None w = (w', Ok p) ->
  (p = path_join (path_join (audio_download_path env) video_id) (video_id +:+ ".mp3")
   /\ path_exists (files w') p = true)
  \/ exists q, outcome (audio_stream_download env) = Returns q
               /\ (p = q \/ p = replace ".mp4" ".mp3" q).
Proof.
  intros Hx. unfold download_audio, try_, bindM, lift, logger, raise. rewrite Hx.
  destruct (falsy (Some video_id)); [intros [= ]|].
  destruct (call (audio_makedirs env)); try (intros [= ]; fail).
  cbn [falsy default from_option id].
  match goal with
  | |- context [audio_chain ?e ?i ?o ?w0] =>
      destruct (audio_chain e i o w0) as [w1 r1] eqn:E
  end.
  apply audio_chain_cases in E. destruct r1 as [p1|e1|]; try (intros [= ]; fail).
  intros [= <- <-]. exact E.
Qed.

Lemma download_audio_returns_witness :
  ("./downloads/abcdefghijk/A title.mp3"
   = path_join (path_join (audio_download_path env_mp4_audio) "abcdefghijk")
       ("abcdefghijk" +:+ ".mp3")
   /\ path_exists
        (files (download_audio env_mp4_audio "https://youtu.be/abcdefghijk" None
                  nothing_yet).1)
        "./downloads/abcdefghijk/A title.mp3" = true)
  \/ exists q, outcome (audio_stream_download env_mp4_audio) = Returns q
               /\ ("./downloads/abcdefghijk/A title.mp3" = q
                   \/ "./downloads/abcdefghijk/A title.mp3" = replace ".mp4" ".mp3" q).
Proof.
  apply (download_audio_returns env_mp4_audio "https://youtu.be/abcdefghijk" "abcdefghijk"
           nothing_yet).
  - vm_compute. reflexivity.
  - vm_compute. reflexivity.
Defined.

(** X9: when [download_audio] fails after the directory was made, the
    message of the exception ends with the failure of the pytube method,
    preceded by the failure of the yt-dlp method when that method raised,
    and the last record of the log is the error with that message. *)
Theorem download_audio_failure (env : AudioEnv) (video_url video_id : string)
    (w w' : World) (e : exn) :
  _extract_video_id video_url = Ok (Some video_id) ->
  video_id <> "" ->
  audio_makedirs env = Returns tt ->
  download_audio env video_url None w = (w', Raise e) ->
  (exists first e2,
      e = ValueError ("Audio download failed after multiple attempts. Errors: "
                      +:+ join "; " (first ++ ["pytube audio download failed: "
                                               +:+ exn_str e2])%list)
      /\ (first = [] \/ exists e1, first = ["yt-dlp audio extraction failed: " +:+ exn_str e1]))
  /\ last (log w') = Some (ERROR, "Error downloading audio: " +:+ exn_str e).
Proof.
  intros Hx Hne Hm. unfold download_audio, try_, bindM, lift, logger, raise. rewrite Hx.
  destruct video_id as [|c video_id]; [congruence|]. cbn [falsy String.eqb].
  rewrite Hm. cbn [call default from_option id].
  match goal with
  | |- context [audio_chain ?e ?i ?o ?w0] =>
      destruct (audio_chain e i o w0) as [w1 r1] eqn:E
  end.
  apply audio_chain_cases in E. destruct r1 as [p1|e1|]; try (intros [= ]; fail).
  intros [= <- <-]. split; [exact E|]. cbn [log]. apply last_snoc.
Qed.

Lemma download_audio_failure_witness :
  (exists first e2,
      ValueError "Audio download failed after multiple attempts. Errors: yt-dlp audio extraction failed: Could not install yt-dlp. Please install manually with: pip install yt-dlp; pytube audio download failed: abcdefghijk is unavailable"
      = ValueError ("Audio download failed after multiple attempts. Errors: "
                    +:+ join "; " (first ++ ["pytube audio download failed: "
                                             +:+ exn_str e2])%list)
      /\ (first = [] \/ exists e1, first = ["yt-dlp audio extraction failed: " +:+ exn_str e1]))
  /\ last (log (download_audio env_audio_fails "https://youtu.be/abcdefghijk" None
                  nothing_yet).1)
     = Some (ERROR, "Error downloading audio: Audio download failed after multiple attempts. Errors: yt-dlp audio extraction failed: Could not install yt-dlp. Please install manually with: pip install yt-dlp; pytube audio download failed: abcdefghijk is unavailable").
Proof.
  refine (download_audio_failure env_audio_fails "https://youtu.be/abcdefghijk" "abcdefghijk"
            nothing_yet _ _ _ _ eq_refl _).
  - vm_compute. reflexivity.
  - discriminate.
  - vm_compute. reflexivity.
Defined.

End AudioChain.

(** ** The handlers of the scraping page *)

Section PageHandlers.
Import Terms.

Lemma modelled_ret {A} (a : A) : modelled (ret a).
Proof. now intros w. Qed.

Lemma modelled_raise {A} e : modelled (@raise A e).
Proof. now intros w. Qed.

Lemma modelled_lift {A} (r : result A) : r <> Unmodelled -> modelled (lift r).
Proof. now intros H w. Qed.

Lemma modelled_logged {A} records (r : result A) :
  r <> Unmodelled -> modelled (logged records r).
Proof. now intros H w. Qed.

Lemma call_modelled {A} (a : answer A) : call a <> Unmodelled.
Proof. now destruct a. Qed.

Lemma rename_modelled fs a b : rename fs a b <> Unmodelled.
Proof. unfold rename. now destruct (fs !! a). Qed.

Lemma remove_modelled fs a : remove fs a <> Unmodelled.
Proof. unfold remove. now destruct (fs !! a). Qed.

Lemma get_modelled j k d : get j k d <> Unmodelled.
Proof. unfold get. destruct j; try discriminate. now destruct (assoc k d0). Qed.

Lemma modelled_logger l msg : modelled (logger l msg).
Proof. now intros w. Qed.

Lemma modelled_show x : modelled (show x).
Proof. now intros w. Qed.

Lemma modelled_use {A} (t : tool A) : modelled (use t).
Proof. intros w. apply call_modelled. Qed.

Lemma modelled_get_files : modelled get_files.
Proof. now intros w. Qed.

Lemma modelled_put_files fs : modelled (put_files fs).
Proof. now intros w. Qed.

Lemma modelled_save_document p d : modelled (save_document p d).
Proof. now intros w. Qed.

Lemma modelled_bind {A B} (m : M A) (k : A -> M B) :
  modelled m -> (forall a, modelled (k a)) -> modelled (bindM m k).
Proof.
  intros Hm Hk w. unfold bindM. specialize (Hm w).
  destruct (m w) as [w' [a|e|]]; simpl in *; [apply Hk | discriminate | congruence].
Qed.

Lemma modelled_try {A} (m : M A) (h : exn -> M A) :
  modelled m -> (forall e, modelled (h e)) -> modelled (try_ m h).
Proof.
  intros Hm Hh w. unfold try_. specialize (Hm w).
  destruct (m w) as [w' [a|e|]]; simpl in *; [discriminate | apply Hh | congruence].
Qed.

Lemma returns_modelled {A} (m : M A) : always_returns m -> modelled m.
Proof. intros H w. destruct (H w) as (a & ->). discriminate. Qed.

Lemma returns_ret {A} (a : A) : always_returns (ret a).
Proof. intros w. now exists a. Qed.

Lemma returns_logger l msg : always_returns (logger l msg).
Proof. intros w. now exists tt. Qed.

Lemma returns_show x : always_returns (show x).
Proof. intros w. now exists tt. Qed.

Lemma returns_bind {A B} (m : M A) (k : A -> M B) :
  always_returns m -> (forall a, always_returns (k a)) -> always_returns (bindM m k).
Proof.
  intros Hm Hk w. unfold bindM. destruct (Hm w) as (a & Ha).
  destruct (m w) as [w' r]; simpl in Ha; subst r. apply Hk.
Qed.

(** A handler that returns on every exception makes the block return, as
    long as the block's outcome is modelled. *)
Lemma returns_try {A} (m : M A) (h : exn -> M A) :
  modelled m -> (forall e, always_returns (h e)) -> always_returns (try_ m h).
Proof.
  intros Hm Hh w. unfold try_. specialize (Hm w).
  destruct (m w) as [w' [a|e|]]; simpl in *; [now exists a | apply Hh | congruence].
Qed.

Ltac modelled_step :=
  first [ apply modelled_ret | apply modelled_raise | apply modelled_logger
        | apply modelled_show | apply modelled_use | apply modelled_get_files
        | apply modelled_put_files | apply modelled_save_document
        | apply modelled_lift;
          first [ apply call_modelled | apply rename_modelled | apply remove_modelled
                | apply get_modelled | assumption ]
        | apply modelled_logged; first [ apply call_modelled | assumption ]
        | apply modelled_bind; [|intros ?] | apply modelled_try; [|intros ?]
        | match goal with
          | |- modelled (if ?b then _ else _) => destruct b
          | |- modelled (match ?x with _ => _ end) => destruct x
          end ].

Ltac modelled_tac := repeat modelled_step.

Lemma api_modelled env video_id : get_video_info_api env video_id <> Unmodelled.
Proof.
  unfold get_video_info_api, try_except, bind.
  destruct (negb (yt_service env)); try discriminate.
  destruct (call (videos_list env video_id)) as [response| |] eqn:E; try discriminate.
  2: { now destruct (videos_list env video_id). }
  repeat match goal with
         | |- context [if ?b then _ else _] => destruct b; try discriminate
         | |- context [getitem0 ?a] => destruct (getitem0 a) eqn:?; try discriminate
         | |- context [getitem ?a ?k] => destruct (getitem a k) eqn:?; try discriminate
         | |- context [get ?a ?k ?d] => destruct (get a k d) eqn:?; try discriminate
         end.
  all: try match goal with
       | H : getitem0 ?a = Unmodelled |- _ =>
           exfalso; clear -H; destruct a as [| | | [|]|[|]|]; discriminate
       | H : getitem ?a ?k = Unmodelled |- _ =>
           exfalso; clear -H; unfold getitem in H; destruct a; try discriminate;
           now destruct (assoc k d)
       | H : get ?a ?k ?d = Unmodelled |- _ => exfalso; now apply get_modelled in H
       end.
Qed.

Lemma scraping_modelled env video_id : get_video_info_scraping env video_id <> Unmodelled.
Proof.
  unfold get_video_info_scraping, try_except, bind.
  destruct (scrape_browser env); simpl; [|discriminate].
  destruct (scrape_page env _); simpl; discriminate.
Qed.

Lemma get_video_info_modelled env url :
  _extract_video_id url <> Unmodelled -> get_video_info env url <> Unmodelled.
Proof.
  intros H. unfold get_video_info, bind.
  destruct (_extract_video_id url) as [video_id| |]; [|discriminate|congruence].
  destruct (falsy video_id); [discriminate|].
  destruct (yt_service env); [|apply scraping_modelled].
  unfold try_except. pose proof (api_modelled env (default "" video_id)) as Ha.
  destruct (get_video_info_api env (default "" video_id)); [discriminate| |congruence].
  apply scraping_modelled.
Qed.

Lemma download_video_modelled env url o :
  _extract_video_id url <> Unmodelled -> modelled (download_video env url o).
Proof.
  intros H. unfold download_video, video_chain, video_method1, video_method2, video_method3.
  modelled_tac.
Qed.

Lemma download_audio_modelled env url o :
  _extract_video_id url <> Unmodelled -> modelled (download_audio env url o).
Proof.
  intros H. unfold download_audio, audio_chain, audio_method1, audio_method2,
    convert_downloaded, convert_to_mp3.
  modelled_tac.
Qed.

Ltac returns_tac :=
  repeat first [ apply returns_ret | apply returns_logger | apply returns_show
               | apply returns_bind; [|intros ?] ].

Lemma video_step_returns env :
  _extract_video_id (youtube_url env) <> Unmodelled -> always_returns (video_step env).
Proof.
  intros H. unfold video_step. apply returns_try; [|intros e; returns_tac].
  pose proof (download_video_modelled (video_env env) (youtube_url env) None H).
  modelled_tac.
Qed.

Lemma audio_step_returns env :
  _extract_video_id (youtube_url env) <> Unmodelled -> always_returns (audio_step env).
Proof.
  intros H. unfold audio_step. apply returns_try; [|intros e; returns_tac].
  pose proof (download_audio_modelled (audio_env env) (youtube_url env) None H).
  modelled_tac.
Qed.

Lemma get_transcript_modelled env video_id : get_transcript env video_id <> Unmodelled.
Proof. destruct (get_transcript_returns env video_id) as (entries & ->). discriminate. Qed.

Lemma transcript_step_returns env :
  _extract_video_id (youtube_url env) <> Unmodelled -> always_returns (transcript_step env).
Proof.
  intros H. unfold transcript_step. apply returns_try; [|intros e; returns_tac].
  apply modelled_bind; [now apply modelled_lift|]. intros video_id.
  apply modelled_bind; [apply modelled_logged, get_transcript_modelled|]. intros transcript_data.
  apply returns_modelled, returns_try; [|intros e; returns_tac].
  modelled_tac.
Qed.

Lemma metadata_step_returns env video_info video_path audio_path transcript_data :
  _extract_video_id (youtube_url env) <> Unmodelled ->
  always_returns (metadata_step env video_info video_path audio_path transcript_data).
Proof.
  intros H. unfold metadata_step. apply returns_try; [|intros e; returns_tac].
  modelled_tac.
Qed.

(** X10: [content_scraping_page] lets no exception out: whatever the
    services, the tools and the widgets answer, it returns (the address being
    one whose parsing this development describes). *)
Theorem scraping_page_never_raises (env : PageEnv) (w : World) :
  _extract_video_id (youtube_url env) <> Unmodelled ->
  (content_scraping_page env w).2 = Ok tt.
Proof.
  intros H.
  assert (Hr : always_returns (content_scraping_page env)).
  { unfold content_scraping_page.
    destruct (process_clicked env); [|apply returns_ret].
    destruct (negb _); [|apply returns_show].
    apply returns_try; [|intros e; returns_tac].
    pose proof (get_video_info_modelled (metadata_env env) _ H).
    pose proof (video_step_returns env H). pose proof (audio_step_returns env H).
    pose proof (transcript_step_returns env H).
    repeat first [ apply modelled_bind; [|intros ?]
                 | apply modelled_show
                 | apply modelled_ret
                 | apply modelled_lift; first [assumption | apply get_modelled]
                 | apply modelled_logged; assumption
                 | apply returns_modelled; first [assumption | now apply metadata_step_returns]
                 | match goal with |- modelled (if ?b then _ else _) => destruct b end ]. }
  destruct (Hr w) as ([] & Hw). exact Hw.
Qed.

Lemma scraping_page_never_raises_witness :
  (content_scraping_page env_page nothing_yet).2 = Ok tt.
Proof.
  apply scraping_page_never_raises. vm_compute. discriminate.
Defined.

Lemma refused_page env w e :
  process_clicked env = true ->
  youtube_url env <> "" ->
  _extract_video_id (youtube_url env) = Raise e
  \/ (_extract_video_id (youtube_url env) = Ok None
      /\ e = ValueError ("Could not extract video ID from URL: " +:+ youtube_url env)) ->
  content_scraping_page env w
  = (mkWorld (files w)
       (log w ++ [(ERROR, "Error in content_scraping_page: " +:+ exn_str e)])%list
       (page w ++ [st_error ("Error processing video: " +:+ exn_str e)])%list
       (documents w),
     Ok tt).
Proof.
  intros Hc Hu Hx.
  assert (get_video_info (metadata_env env) (youtube_url env) = Raise e
          /\ get_video_info_records (metadata_env env) (youtube_url env) = []) as [Hi Hr].
  { unfold get_video_info, get_video_info_records.
    destruct Hx as [-> | [-> ->]]; split; reflexivity. }
  unfold content_scraping_page. rewrite Hc.
  replace (String.eqb (youtube_url env) "") with false
    by (symmetry; now apply String.eqb_neq).
  cbv beta iota delta [negb try_ bindM logged].
  rewrite Hi, Hr, app_nil_r. reflexivity.
Qed.

(** X11: the button pressed on an address that [urlparse] accepts, whose
    network location names neither [youtube.com] nor [youtu.be] and that is
    neither an identifier nor an identifier followed by a line feed: the
    page shows the one error [Could not extract video ID from URL], logs it
    and stops; nothing is downloaded, no file changes and no document is
    written.  On an address on which [urlparse] raises, the page shows and
    logs that error in the same way and changes nothing else either. *)
Theorem unsupported_url_is_refused (env : PageEnv) (w : World) :
  process_clicked env = true ->
  youtube_url env <> "" ->
  (forall parsed,
     urlparse (youtube_url env) = Ok parsed ->
     contains "youtube.com" (netloc parsed) = false ->
     contains "youtu.be" (netloc parsed) = false ->
     is_video_id (youtube_url env) = false ->
     is_video_id_line (youtube_url env) = false ->
     content_scraping_page env w
     = (mkWorld (files w)
          (log w ++ [(ERROR, "Error in content_scraping_page: Could not extract video ID from URL: "
                             +:+ youtube_url env)])%list
          (page w ++ [st_error ("Error processing video: Could not extract video ID from URL: "
                                +:+ youtube_url env)])%list
          (documents w),
        Ok tt))
  /\ (forall e,
        urlparse (youtube_url env) = Raise e ->
        content_scraping_page env w
        = (mkWorld (files w)
             (log w ++ [(ERROR, "Error in content_scraping_page: " +:+ exn_str e)])%list
             (page w ++ [st_error ("Error processing video: " +:+ exn_str e)])%list
             (documents w),
           Ok tt)).
Proof.
  intros Hc Hu. split.
  - intros parsed Hp Hy Hb Hi Hl.
    refine (refused_page env w _ Hc Hu (or_intror (conj _ eq_refl))).
    rewrite (other_netloc _ _ Hp Hy Hb), re_match_video_id_spec, Hi, Hl. reflexivity.
  - intros e Hp. refine (refused_page env w e Hc Hu (or_introl _)).
    unfold _extract_video_id. rewrite Hp. reflexivity.
Qed.

Lemma unsupported_url_is_refused_witness :
  content_scraping_page env_other_site nothing_yet
  = (mkWorld ∅
       [(ERROR, "Error in content_scraping_page: Could not extract video ID from URL: https://example.org/video")]
       [st_error "Error processing video: Could not extract video ID from URL: https://example.org/video"]
       [],
     Ok tt)
  /\ content_scraping_page env_broken_address nothing_yet
     = (mkWorld ∅
          [(ERROR, "Error in content_scraping_page: Invalid IPv6 URL")]
          [st_error "Error processing video: Invalid IPv6 URL"]
          [],
        Ok tt).
Proof.
  split.
  - refine (proj1 (unsupported_url_is_refused env_other_site nothing_yet eq_refl _)
              (mkParseResult "https" "example.org" "/video" "" "" "")
              eq_refl eq_refl eq_refl eq_refl eq_refl).
    discriminate.
  - refine (proj2 (unsupported_url_is_refused env_broken_address nothing_yet eq_refl _)
              _ eq_refl).
    discriminate.
Defined.

End PageHandlers.

(** ** The trend analysis *)

Section Trends.
Import Text Growth Terms.

Lemma insert_desc_perm {A} (key : A -> nat) x l : insert_desc key x l ≡ₚ x :: l.
Proof.
  induction l as [|y l IH]; simpl; [reflexivity|].
  destruct (key y <=? key x)%nat; [reflexivity|].
  rewrite IH. apply Permutation_swap.
Qed.

Lemma sorted_desc_perm {A} (key : A -> nat) l : sorted_desc key l ≡ₚ l.
Proof.
  unfold sorted_desc. induction l as [|x l IH]; simpl; [reflexivity|].
  rewrite insert_desc_perm. now rewrite IH.
Qed.

Lemma count_word_keys word counts :
  NoDup (map fst counts) ->
  NoDup (map fst (count_word word counts))
  /\ forall w, w ∈ map fst (count_word word counts) -> w = word \/ w ∈ map fst counts.
Proof.
  induction counts as [|[w n] counts IH]; simpl; intros Hnd.
  - split; [apply NoDup_singleton|]. intros w Hw. apply list_elem_of_singleton in Hw. now left.
  - apply NoDup_cons in Hnd as [Hw Hnd]. destruct (IH Hnd) as [IH1 IH2].
    destruct (String.eqb w word) eqn:E; simpl.
    + split; [now apply NoDup_cons|]. intros w' Hw'. now right.
    + split.
      * apply NoDup_cons. split; [|exact IH1]. intros Hin.
        destruct (IH2 _ Hin) as [-> | Hin']; [|contradiction].
        now rewrite String.eqb_refl in E.
      * intros w' Hw'. apply elem_of_cons in Hw' as [-> | Hw'].
        -- right. left.
        -- destruct (IH2 _ Hw') as [-> | H']; [now left | right; now right].
Qed.

Lemma count_words_keys words counts :
  NoDup (map fst counts) ->
  NoDup (map fst (foldl (fun counts word => count_word word counts) counts words))
  /\ forall w, w ∈ map fst (foldl (fun counts word => count_word word counts) counts words) ->
               w ∈ words \/ w ∈ map fst counts.
Proof.
  revert counts. induction words as [|word words IH]; simpl; intros counts Hnd.
  - split; [exact Hnd | auto].
  - destruct (count_word_keys word counts Hnd) as [H1 H2].
    destruct (IH _ H1) as [H3 H4]. split; [exact H3|].
    intros w Hw. destruct (H4 _ Hw) as [Hin | Hin]; [left; now right|].
    destruct (H2 _ Hin) as [-> | Hin']; [left; left | now right].
Qed.

Lemma keywords_of_words all_text :
  length (keywords_of all_text) <= 20
  /\ NoDup (keywords_of all_text)
  /\ Forall (fun word => is_keyword word = true) (keywords_of all_text).
Proof.
  unfold keywords_of.
  set (filtered := List.filter _ (findall_words all_text)).
  destruct (count_words_keys filtered [] (NoDup_nil_2)) as [Hnd Hin].
  set (counts := foldl _ [] filtered) in *.
  assert (Hsub : firstn 20 (sorted_desc snd counts) `sublist_of` sorted_desc snd counts)
    by apply sublist_take.
  split_and!.
  - rewrite length_map. apply firstn_le_length.
  - eapply sublist_NoDup; [|apply (fmap_sublist fst), Hsub].
    change (NoDup (fst <$> sorted_desc snd counts)).
    now rewrite (sorted_desc_perm snd counts).
  - apply Forall_forall. intros w Hw.
    assert (Hw' : w ∈ map fst counts).
    { change (w ∈ fst <$> counts). rewrite <- (sorted_desc_perm snd counts).
      eapply elem_of_sublist; [exact Hw | apply (fmap_sublist fst), Hsub]. }
    destruct (Hin _ Hw') as [Hf | Hf]; [|now apply elem_of_nil in Hf].
    apply list_elem_of_In in Hf. unfold filtered in Hf.
    apply filter_In in Hf as [Hf Hstop]. unfold findall_words in Hf.
    apply filter_In in Hf as [_ Hword]. unfold is_keyword. now rewrite Hword, Hstop.
Qed.

Lemma count_word_assoc w word counts :
  default 0 (assoc w (count_word word counts))
  = (default 0 (assoc w counts) + if String.eqb word w then 1 else 0)%nat.
Proof.
  induction counts as [|[w' n] counts IH]; simpl.
  - destruct (String.eqb word w); reflexivity.
  - destruct (String.eqb w' word) eqn:E; simpl.
    + apply String.eqb_eq in E as ->. destruct (String.eqb word w); simpl; lia.
    + destruct (String.eqb w' w) eqn:E'; simpl; [|exact IH].
      apply String.eqb_eq in E' as ->. rewrite String.eqb_sym, E. simpl. lia.
Qed.

Lemma count_words_assoc w words counts :
  default 0 (assoc w (foldl (fun counts word => count_word word counts) counts words))
  = (default 0 (assoc w counts) + count_occ string_dec words w)%nat.
Proof.
  revert counts. induction words as [|word words IH]; intros counts; simpl; [lia|].
  rewrite IH, count_word_assoc.
  destruct (string_dec word w) as [->|Hne].
  - rewrite String.eqb_refl. lia.
  - apply String.eqb_neq in Hne. rewrite Hne. lia.
Qed.

Lemma assoc_of_member {A} w (n : A) counts :
  NoDup (map fst counts) -> (w, n) ∈ counts -> assoc w counts = Some n.
Proof.
  induction counts as [|[w' n'] counts IH]; simpl; intros Hnd Hin.
  - now apply elem_of_nil in Hin.
  - apply NoDup_cons in Hnd as [Hw Hnd]. apply elem_of_cons in Hin as [[= <- <-] | Hin].
    + now rewrite String.eqb_refl.
    + destruct (String.eqb w' w) eqn:E; [|now apply IH].
      apply String.eqb_eq in E as ->. exfalso. apply Hw.
      change (w ∈ fst <$> counts). apply list_elem_of_fmap. now exists (w, n).
Qed.

Lemma insert_desc_sorted {A} (key : A -> nat) x l :
  StronglySorted (fun a b => key b <= key a) l ->
  StronglySorted (fun a b => key b <= key a) (insert_desc key x l).
Proof.
  induction 1 as [|y l Hl IH Hy]; simpl.
  - repeat constructor.
  - destruct (key y <=? key x)%nat eqn:E.
    + apply Nat.leb_le in E. constructor; [now constructor|].
      constructor; [exact E|]. eapply Forall_impl; [exact Hy|]. simpl. intros; lia.
    + apply Nat.leb_gt in E. constructor; [exact IH|].
      rewrite insert_desc_perm. constructor; [lia | exact Hy].
Qed.

Lemma sorted_desc_sorted {A} (key : A -> nat) l :
  StronglySorted (fun a b => key b <= key a) (sorted_desc key l).
Proof.
  unfold sorted_desc. induction l as [|x l IH]; simpl; [constructor|].
  now apply insert_desc_sorted.
Qed.

Lemma StronglySorted_take {A} (R : A -> A -> Prop) n l :
  StronglySorted R l -> StronglySorted R (firstn n l).
Proof.
  intros H. revert n. induction H as [|x l Hl IH Hx]; intros [|n]; simpl; try constructor.
  - apply IH.
  - eapply Forall_forall. intros y Hy. rewrite Forall_forall in Hx. apply Hx.
    eapply elem_of_sublist; [exact Hy | apply sublist_take].
Qed.

Lemma keywords_of_sorted all_text :
  StronglySorted (fun a b => occurrences all_text b <= occurrences all_text a)
    (keywords_of all_text).
Proof.
  unfold keywords_of, occurrences.
  set (filtered := List.filter _ (findall_words all_text)).
  destruct (count_words_keys filtered [] (NoDup_nil_2)) as [Hnd _].
  pose proof (fun w => count_words_assoc w filtered []) as Hc.
  set (counts := foldl _ [] filtered) in *.
  assert (Hn : forall x, x ∈ firstn 20 (sorted_desc snd counts) ->
                         snd x = count_occ string_dec filtered (fst x)).
  { intros [w n] Hx. simpl.
    assert (Hin : (w, n) ∈ counts).
    { rewrite <- (sorted_desc_perm snd counts).
      eapply elem_of_sublist; [exact Hx | apply sublist_take]. }
    specialize (Hc w). rewrite (assoc_of_member _ _ _ Hnd Hin) in Hc. simpl in Hc. exact Hc. }
  pose proof (StronglySorted_take _ 20 _ (sorted_desc_sorted snd counts)) as Hs.
  induction Hs as [|x l Hl IH Hx]; simpl; [constructor|].
  constructor.
  - apply IH. intros y Hy. apply Hn. now right.
  - apply Forall_forall. intros b Hb. apply list_elem_of_fmap in Hb as (y & -> & Hy).
    rewrite Forall_forall in Hx. specialize (Hx _ Hy).
    rewrite <- (Hn x) by left. rewrite <- (Hn y) by now right. exact Hx.
Qed.

Lemma analysed_keywords (env : TrendsEnv) :
  length (analyze_trending_keywords env) <= 20
  /\ NoDup (analyze_trending_keywords env)
  /\ Forall (fun word => is_keyword word = true) (analyze_trending_keywords env).
Proof.
  assert (Hnil : length (@nil string) <= 20 /\ NoDup (@nil string)
                 /\ Forall (fun word => is_keyword word = true) []).
  { split_and!; [simpl; lia | apply NoDup_nil_2 | constructor]. }
  unfold analyze_trending_keywords.
  destruct (negb (String.eqb (trends_api_key env) "")).
  - destruct (call (trends_build env)); simpl; try exact Hnil.
    destruct (call (most_popular env)); simpl; try exact Hnil.
    destruct (get _ "items" _); simpl; try exact Hnil.
    destruct (iterate _); simpl; try exact Hnil.
    destruct (map_result texts_of_item _); simpl; try exact Hnil.
    destruct (join_json " " _); simpl; try exact Hnil.
    apply keywords_of_words.
  - destruct (call (trends_browser env)); simpl; try exact Hnil.
    destruct (call (trending_titles env)); simpl; try exact Hnil.
    apply keywords_of_words.
Qed.

(** X12: whatever the services answer, [analyze_trending_keywords] returns
    at most twenty keywords, all different, each made of 3 to 15 letters of
    [a-z] and none a stop word. *)
Theorem trending_keywords_are_words (env : TrendsEnv) :
  length (analyze_trending_keywords env) <= 20
  /\ NoDup (analyze_trending_keywords env)
  /\ Forall (fun word => is_keyword word = true) (analyze_trending_keywords env).
Proof. exact (analysed_keywords env). Qed.

Lemma counted_words_are_listed all_text word :
  0 < occurrences all_text word ->
  length (keywords_of all_text) < 20 ->
  In word (keywords_of all_text).
Proof.
  unfold keywords_of, occurrences.
  set (filtered := List.filter _ (findall_words all_text)).
  pose proof (count_words_assoc word filtered []) as Hc.
  set (counts := foldl _ [] filtered) in *.
  intros Hocc Hlen. rewrite length_map in Hlen.
  assert (Hall : firstn 20 (sorted_desc snd counts) = sorted_desc snd counts).
  { apply firstn_all2. rewrite length_firstn in Hlen. lia. }
  rewrite Hall. apply list_elem_of_In.
  change (word ∈ fst <$> sorted_desc snd counts). rewrite (sorted_desc_perm snd counts).
  simpl in Hc. destruct (assoc word counts) as [n|] eqn:E; [|simpl in Hc; lia].
  clear -E. induction counts as [|[w m] counts IH]; [discriminate|].
  simpl in E. destruct (String.eqb w word) eqn:Ew.
  - apply String.eqb_eq in Ew as ->. left.
  - right. now apply IH.
Qed.

(** X13: on the scraping branch the keywords come in order of decreasing
    frequency in the titles shown, and when fewer than twenty are returned
    every word counted in the titles is among them. *)
Theorem trending_keywords_by_frequency (env : TrendsEnv) (titles : list string) :
  trends_api_key env = "" ->
  trends_browser env = Returns tt ->
  trending_titles env = Returns titles ->
  StronglySorted
    (fun a b => occurrences (titles_text titles) b <= occurrences (titles_text titles) a)
    (analyze_trending_keywords env)
  /\ (length (analyze_trending_keywords env) < 20 ->
      forall word, 0 < occurrences (titles_text titles) word ->
                   In word (analyze_trending_keywords env)).
Proof.
  intros Hk Hb Ht. unfold analyze_trending_keywords. rewrite Hk, Hb, Ht.
  cbn [String.eqb negb call bind]. fold (titles_text titles). split.
  - apply keywords_of_sorted.
  - intros Hlen word Hocc. now apply counted_words_are_listed.
Qed.

Lemma trending_keywords_by_frequency_witness :
  analyze_trending_keywords env_trending_page = ["rust"; "tutorial"; "beginners"; "advanced"; "belt"]
  /\ StronglySorted
       (fun a b =>
          occurrences "rust tutorial for beginners advanced rust tutorial the rust belt" b
          <= occurrences "rust tutorial for beginners advanced rust tutorial the rust belt" a)
       (analyze_trending_keywords env_trending_page).
Proof.
  split; [vm_compute; reflexivity|].
  exact (proj1 (trending_keywords_by_frequency env_trending_page
                  ["Rust tutorial for beginners"; ""; "Advanced Rust tutorial"; "The rust belt"]
                  eq_refl eq_refl eq_refl)).
Defined.

End Trends.

(** ** The ideas *)

Section Ideas.
Import Text Growth Terms.

#[local] Arguments String.append : simpl nomatch.
#[local] Arguments Ascii.eqb : simpl nomatch.

Ltac by_chars c := destruct c as [[] [] [] [] [] [] [] []]; try reflexivity; try discriminate.

Ltac decide_template :=
  match goal with
  | |- context [contains ?a ?b && contains ?c ?d] =>
      let v := eval vm_compute in (contains a b && contains c d) in
      change (contains a b && contains c d) with v
  end; cbv iota.

Lemma suggested_count (env : IdeasEnv) (channel_id : string)
    (trending_keywords : list string) :
  openai_api_key env = "" ->
  length (suggest_video_ideas env channel_id trending_keywords)
  = 9 * Nat.min 5 (length trending_keywords)
    + (if (2 <=? length trending_keywords)%nat then 1 else 0).
Proof.
  intros Hk. unfold suggest_video_ideas. rewrite Hk. cbn [String.eqb negb].
  destruct trending_keywords as [|k0 kws]; [reflexivity|].
  set (all := k0 :: kws). unfold templates. cbn [map concat].
  rewrite !length_app. unfold ideas_of_template.
  repeat decide_template.
  rewrite !length_map, !length_firstn. subst all.
  destruct kws as [|k1 kws]; cbn [length]; simpl (_ <=? _)%nat; cbv iota; cbn [length]; lia.
Qed.

Lemma no_bracket_parts k :
  no_bracket k = true -> has_char "[" k = false /\ has_char "]" k = false.
Proof.
  unfold no_bracket. intros H. apply andb_prop in H as [H1 H2].
  now apply negb_true_iff in H1, H2.
Qed.

Ltac fill_in H1 H2 :=
  unfold replace; simpl;
  rewrite ?(replace_aux_skip "[") by exact H1; simpl;
  unfold no_bracket; simpl; rewrite ?has_char_app, ?H1, ?H2; reflexivity.

Lemma idea_is_filled template keyword :
  In template templates ->
  contains "[keyword]" template && contains "[keyword2]" template = false ->
  no_bracket keyword = true ->
  no_bracket (replace "[industry]" "the industry" (replace "[keyword]" keyword template))
  = true.
Proof.
  intros Hin Hc Hk. apply no_bracket_parts in Hk as [H1 H2].
  unfold templates in Hin. simpl in Hin.
  repeat (destruct Hin as [<- | Hin]; [try (vm_compute in Hc; discriminate); fill_in H1 H2|]).
  contradiction.
Qed.

Lemma versus_is_filled keyword0 keyword1 :
  no_bracket keyword0 = true -> no_bracket keyword1 = true ->
  no_bracket (replace "[keyword2]" keyword1
                (replace "[keyword]" keyword0 "[keyword] vs [keyword2]: Which Is Better?"))
  = true.
Proof.
  intros H0 H1. apply no_bracket_parts in H0 as [H01 H02].
  apply no_bracket_parts in H1 as [H11 H12].
  unfold replace; simpl. rewrite (replace_aux_skip "[") by exact H01. simpl.
  unfold no_bracket. rewrite !has_char_app, H01, H02. simpl.
  rewrite !has_char_app, H11, H12. reflexivity.
Qed.

Lemma ideas_of_template_filled trending_keywords template :
  In template templates ->
  Forall (fun keyword => no_bracket keyword = true) trending_keywords ->
  Forall (fun idea => no_bracket idea = true) (ideas_of_template trending_keywords template).
Proof.
  intros Hin Hall. unfold ideas_of_template.
  destruct (contains "[keyword]" template && contains "[keyword2]" template) eqn:Hc.
  - assert (template = "[keyword] vs [keyword2]: Which Is Better?") as ->.
    { unfold templates in Hin. simpl in Hin.
      repeat (destruct Hin as [<- | Hin];
              [first [reflexivity | vm_compute in Hc; discriminate]|]).
      contradiction. }
    destruct Hall as [|k0 kws H0 Hall]; [constructor|].
    destruct Hall as [|k1 kws H1 Hall]; [constructor|].
    repeat constructor. now apply versus_is_filled.
  - apply Forall_forall. intros idea Hi.
    apply list_elem_of_fmap in Hi as (keyword & -> & Hk).
    apply idea_is_filled; [exact Hin | exact Hc|].
    rewrite Forall_forall in Hall. apply Hall.
    eapply elem_of_sublist; [exact Hk | apply sublist_take].
Qed.

Lemma suggested_filled (env : IdeasEnv) (channel_id : string)
    (trending_keywords : list string) :
  openai_api_key env = "" ->
  Forall (fun keyword => no_bracket keyword = true) trending_keywords ->
  Forall (fun idea => no_bracket idea = true)
    (suggest_video_ideas env channel_id trending_keywords).
Proof.
  intros Hk Hall. unfold suggest_video_ideas. rewrite Hk. cbn [String.eqb negb].
  destruct trending_keywords as [|k0 kws]; [constructor|].
  apply Forall_concat, Forall_forall. intros ideas Hi.
  apply list_elem_of_fmap in Hi as (template & -> & Ht).
  apply ideas_of_template_filled; [now apply list_elem_of_In | exact Hall].
Qed.


(** X14: without an OpenAI key, [n] keywords give nine ideas for each of
    the five first keywords, and one more when there are at least two
    keywords; no keyword gives no idea. *)
Theorem template_ideas_count (env : IdeasEnv) (channel_id : string)
    (trending_keywords : list string) :
  openai_api_key env = "" ->
  length (suggest_video_ideas env channel_id trending_keywords)
  = 9 * Nat.min 5 (length trending_keywords)
    + (if (2 <=? length trending_keywords)%nat then 1 else 0).
Proof. exact (suggested_count env channel_id trending_keywords). Qed.

Lemma template_ideas_count_witness :
  length (suggest_video_ideas env_no_keys "UC123" ["alpha"; "beta"; "gamma"]) = 28.
Proof. exact (template_ideas_count env_no_keys "UC123" ["alpha"; "beta"; "gamma"] eq_refl). Defined.

(** X15: without an OpenAI key, keywords free of square brackets give ideas
    free of square brackets: every placeholder of every template is
    filled. *)
Theorem template_ideas_are_filled (env : IdeasEnv) (channel_id : string)
    (trending_keywords : list string) :
  openai_api_key env = "" ->
  Forall (fun keyword => no_bracket keyword = true) trending_keywords ->
  Forall (fun idea => no_bracket idea = true)
    (suggest_video_ideas env channel_id trending_keywords).
Proof. exact (suggested_filled env channel_id trending_keywords). Qed.

Lemma template_ideas_are_filled_witness :
  Forall (fun idea => no_bracket idea = true)
    (suggest_video_ideas env_no_keys "UC123" ["alpha"; "beta"]).
Proof.
  apply (template_ideas_are_filled env_no_keys "UC123" ["alpha"; "beta"] eq_refl).
  repeat constructor.
Defined.

Lemma keyword_has_no_bracket word : is_keyword word = true -> no_bracket word = true.
Proof.
  unfold is_keyword, no_bracket. intros H.
  repeat (apply andb_prop in H as [H _]).
  rewrite !has_char_none; [reflexivity| |];
    (eapply forallb_str_impl; [|exact H]); intros c; by_chars c.
Qed.

(** X16: the ideas made without an OpenAI key from the keywords of the
    trend analysis are at most 46 and hold no unfilled placeholder,
    whatever the services answer. *)
Theorem ideas_from_trends (trends : TrendsEnv) (env : IdeasEnv) (channel_id : string) :
  openai_api_key env = "" ->
  length (suggest_video_ideas env channel_id (analyze_trending_keywords trends)) <= 46
  /\ Forall (fun idea => no_bracket idea = true)
       (suggest_video_ideas env channel_id (analyze_trending_keywords trends)).
Proof.
  intros Hk. split.
  - rewrite (suggested_count env channel_id _ Hk).
    destruct (2 <=? _)%nat; lia.
  - apply (suggested_filled env channel_id _ Hk).
    destruct (analysed_keywords trends) as (_ & _ & Hall).
    eapply Forall_impl; [exact Hall|]. exact keyword_has_no_bracket.
Qed.

Lemma ideas_from_trends_witness :
  length (suggest_video_ideas env_no_keys "UC123" (analyze_trending_keywords env_trending_page))
  <= 46
  /\ Forall (fun idea => no_bracket idea = true)
       (suggest_video_ideas env_no_keys "UC123" (analyze_trending_keywords env_trending_page)).
Proof. exact (ideas_from_trends env_trending_page env_no_keys "UC123" eq_refl). Defined.

(** *** Numbered answers *)

Lemma string_of_uint_digits d : forallb_str is_digit (NilEmpty.string_of_uint d) = true.
Proof. induction d; simpl; auto. Qed.

Lemma decimal_digits n : forallb_str is_digit (decimal n) = true /\ decimal n <> "".
Proof.
  unfold decimal, NilZero.string_of_uint.
  destruct (N.to_uint n) eqn:E; try (split; [reflexivity | discriminate]);
    split; try discriminate; rewrite <- E; try apply string_of_uint_digits.
  all: rewrite E; apply (string_of_uint_digits (_ u)).
Qed.

Lemma digit_is_numbering c : is_digit c = true -> numbering_char c = true.
Proof. unfold numbering_char. now intros ->. Qed.

Lemma space_is_numbering c : isspace c = true -> numbering_char c = true.
Proof. unfold numbering_char. intros ->. now rewrite !orb_true_r. Qed.

Lemma digit_not_space c : is_digit c = true -> isspace c = false.
Proof. by_chars c. Qed.

Lemma plain_title_parts title :
  plain_title title = true ->
  exists c rest, title = String c rest /\ numbering_char c = false
                 /\ has_char LF title = false /\ rstrip isspace title = title.
Proof.
  unfold plain_title. intros H. apply andb_prop in H as [H Hr]. apply andb_prop in H as [Hc Hl].
  destruct title as [|c rest]; [discriminate|]. exists c, rest.
  apply negb_true_iff in Hc, Hl. apply String.eqb_eq in Hr. auto.
Qed.

Lemma numbered_line_no_newline i title :
  plain_title title = true -> has_char LF (numbered_line i title) = false.
Proof.
  intros H. apply plain_title_parts in H as (c & rest & -> & _ & Hl & _).
  unfold numbered_line. rewrite !has_char_app, Hl.
  destruct (decimal_digits (N.of_nat (S i))) as [Hd _].
  rewrite has_char_none; [reflexivity|].
  eapply forallb_str_impl; [|exact Hd]. intros a. by_chars a.
Qed.

Lemma numbered_line_strip i title :
  plain_title title = true -> strip (numbered_line i title) = numbered_line i title.
Proof.
  intros H. apply plain_title_parts in H as (c & rest & -> & _ & _ & Hr).
  unfold numbered_line, strip.
  destruct (decimal_digits (N.of_nat (S i))) as [Hd Hne].
  set (n := decimal (N.of_nat (S i))) in *.
  assert (Hl : lstrip isspace (n +:+ ". " +:+ String c rest) = n +:+ ". " +:+ String c rest).
  { destruct n as [|d ds]; [congruence|]. simpl in Hd. apply andb_prop in Hd as [Hd _].
    change (String d ds +:+ ". " +:+ String c rest)
      with (String d (ds +:+ ". " +:+ String c rest)).
    simpl lstrip. now rewrite (digit_not_space _ Hd). }
  rewrite Hl, <- append_assoc.
  apply rstrip_suffix; [discriminate | exact Hr].
Qed.

Lemma idea_of_numbered_line i title :
  plain_title title = true ->
  idea_of_line (numbered_line i title) = if starts_with_1_or_2 i then Some title else None.
Proof.
  intros H. unfold idea_of_line. rewrite (numbered_line_strip _ _ H).
  apply plain_title_parts in H as (c & rest & -> & Hc & _ & Hr).
  unfold numbered_line, starts_with_1_or_2.
  destruct (decimal_digits (N.of_nat (S i))) as [Hd Hne].
  set (n := decimal (N.of_nat (S i))) in *.
  assert (Hnot : String.eqb (n +:+ ". " +:+ String c rest) "" = false).
  { destruct n; [congruence | reflexivity]. }
  rewrite Hnot. cbn [negb andb].
  change "-" with (str1 "-"). change "1" with (str1 "1"). change "2" with (str1 "2").
  rewrite !startswith_char_app by exact Hne.
  assert (Hdash : startswith (str1 "-") n = false).
  { destruct n as [|d ds]; [congruence|]. simpl in Hd. apply andb_prop in Hd as [Hd _].
    simpl. clear -Hd. by_chars d. }
  rewrite Hdash. cbn [orb].
  destruct (startswith (str1 "1") n || startswith (str1 "2") n); [|reflexivity].
  rewrite lstrip_all by (eapply forallb_str_impl; [exact digit_is_numbering | exact Hd]).
  simpl lstrip. rewrite Hc. unfold strip. simpl lstrip.
  assert (Hs : isspace c = false).
  { destruct (isspace c) eqn:E; [|reflexivity]. now rewrite (space_is_numbering _ E) in Hc. }
  rewrite Hs, Hr. reflexivity.
Qed.

Lemma numbered_list_strip titles :
  Forall (fun title => plain_title title = true) titles ->
  strip (numbered_list titles) = numbered_list titles.
Proof.
  intros Hall. unfold numbered_list.
  assert (Hlines : Forall (fun l => strip l = l /\ l <> "") (imap numbered_line titles)).
  { apply Forall_forall. intros l Hl. apply elem_of_lookup_imap in Hl as (i & title & -> & Hi).
    rewrite Forall_forall in Hall. split.
    - apply numbered_line_strip, Hall. eapply list_elem_of_lookup_2, Hi.
    - unfold numbered_line. destruct (decimal_digits (N.of_nat (S i))) as [_ Hne].
      destruct (decimal (N.of_nat (S i))); [congruence | discriminate]. }
  destruct (imap numbered_line titles) as [|l lines] eqn:E; [reflexivity|].
  unfold strip.
  assert (Hfirst : exists c rest, l = String c rest /\ isspace c = false).
  { destruct titles as [|title titles]; [discriminate|]. injection E as <- _.
    unfold numbered_line. destruct (decimal_digits (N.of_nat 1)) as [Hd Hne].
    destruct (decimal (N.of_nat 1)) as [|d ds]; [congruence|].
    simpl in Hd. apply andb_prop in Hd as [Hd _].
    exists d. eexists. split; [reflexivity | now apply digit_not_space]. }
  rewrite (lstrip_join _ _ _ _ Hfirst).
  apply rstrip_join. eapply Forall_impl; [exact Hlines|]. simpl.
  intros l' [Hs Hne]. split; [exact Hne|].
  now apply strip_fixed_rstrip.
Qed.

Lemma ideas_of_numbered_lines i (g : nat -> string -> string) titles :
  (forall j title, g j title = numbered_line (i + j) title) ->
  Forall (fun title => plain_title title = true) titles ->
  omap idea_of_line (imap g titles) = kept_titles i titles.
Proof.
  intros Hg Hall. revert i g Hg.
  induction Hall as [|title titles Ht Hall IH]; intros i g Hg; [reflexivity|].
  cbn [imap kept_titles].
  change (omap idea_of_line (g 0 title :: imap (g ∘ S) titles))
    with (match idea_of_line (g 0 title) with
          | Some idea => idea :: omap idea_of_line (imap (g ∘ S) titles)
          | None => omap idea_of_line (imap (g ∘ S) titles)
          end).
  rewrite Hg, Nat.add_0_r, (idea_of_numbered_line _ _ Ht).
  rewrite (IH (S i) (g ∘ S)).
  - now destruct (starts_with_1_or_2 i).
  - intros j title'. unfold compose. rewrite Hg. f_equal. lia.
Qed.

(** X17: with an OpenAI key, of an answer that is a numbered list of
    titles, one title to a line, only the titles whose number starts with 1
    or 2 become ideas: of ten titles, the first, the second and the
    tenth. *)
Theorem numbered_answer (env : IdeasEnv) (channel_id : string)
    (trending_keywords titles : list string) :
  openai_api_key env <> "" ->
  ideas_api_key env = "" ->
  chat_completion env = Returns (numbered_list titles) ->
  Forall (fun title => plain_title title = true) titles ->
  suggest_video_ideas env channel_id trending_keywords = kept_titles 0 titles.
Proof.
  intros Hk Hy Hc Hall. unfold suggest_video_ideas, recent_titles_of.
  apply String.eqb_neq in Hk. rewrite Hk, Hy, Hc. cbn [String.eqb negb bind call].
  rewrite (numbered_list_strip _ Hall).
  destruct titles as [|title titles]; [reflexivity|].
  unfold numbered_list. rewrite split_join.
  - now apply ideas_of_numbered_lines.
  - discriminate.
  - apply Forall_forall. intros l Hl. apply elem_of_lookup_imap in Hl as (j & t & -> & Hj).
    apply numbered_line_no_newline. rewrite Forall_forall in Hall. apply Hall.
    eapply list_elem_of_lookup_2, Hj.
Qed.

Lemma numbered_answer_witness :
  suggest_video_ideas env_numbered_answer "UC123" ["alpha"] = ["Alpha"; "Beta"; "Kappa"].
Proof.
  refine (numbered_answer env_numbered_answer "UC123" ["alpha"]
            ["Alpha"; "Beta"; "Gamma"; "Delta"; "Epsilon"; "Zeta"; "Eta"; "Theta";
             "Iota"; "Kappa"] _ eq_refl eq_refl _).
  - discriminate.
  - repeat constructor.
Defined.

End Ideas.

(** ** Saving and loading the configuration *)

Section Settings.
Import Config Terms.

Lemma assoc_setitem k k' v d :
  assoc k (setitem k' v d) = if String.eqb k' k then Some v else assoc k d.
Proof.
  induction d as [|[k0 v0] d IH]; simpl.
  - reflexivity.
  - destruct (String.eqb k0 k') eqn:E; simpl.
    + apply String.eqb_eq in E as ->. now destruct (String.eqb k' k).
    + rewrite IH. destruct (String.eqb k0 k) eqn:E0; [|reflexivity].
      apply String.eqb_eq in E0 as ->. rewrite String.eqb_sym, E. reflexivity.
Qed.

Lemma assoc_update k d other :
  NoDup (map fst other) ->
  assoc k (update d other) = match assoc k other with
                             | Some v => Some v
                             | None => assoc k d
                             end.
Proof.
  unfold update. revert d. induction other as [|[k0 v0] other IH]; intros d Hnd; simpl.
  - reflexivity.
  - apply NoDup_cons in Hnd as [Hk0 Hnd]. rewrite (IH _ Hnd), assoc_setitem.
    destruct (String.eqb k0 k) eqn:E; [|reflexivity].
    apply String.eqb_eq in E as ->.
    destruct (assoc k other) eqn:Ea; [|reflexivity].
    exfalso. apply Hk0. clear -Ea. induction other as [|[k1 v1] other IH]; [discriminate|].
    simpl in *. destruct (String.eqb k1 k) eqn:E.
    + apply String.eqb_eq in E as ->. left.
    + right. now apply IH.
Qed.

Lemma assoc_filter_keys {A} (keep : string -> bool) k (d : list (string * A)) :
  assoc k (List.filter (fun kv => keep (fst kv)) d) = if keep k then assoc k d else None.
Proof.
  induction d as [|[k0 v0] d IH]; simpl.
  - now destruct (keep k).
  - change (keep (fst (k0, v0))) with (keep k0). destruct (keep k0) eqn:E0; simpl; destruct (String.eqb k0 k) eqn:E; try exact IH.
    + apply String.eqb_eq in E as <-. now rewrite E0.
    + apply String.eqb_eq in E as <-. rewrite IH. now rewrite E0.
Qed.

Lemma filter_keys_NoDup {A} (keep : string * A -> bool) (d : list (string * A)) :
  NoDup (map fst d) -> NoDup (map fst (List.filter keep d)).
Proof.
  induction d as [|[k v] d IH]; simpl; intros Hnd; [exact Hnd|].
  apply NoDup_cons in Hnd as [Hk Hnd]. destruct (keep (k, v)); simpl; [|auto].
  apply NoDup_cons. split; [|auto]. intros Hin. apply Hk.
  change (k ∈ fst <$> List.filter keep d) in Hin. change (k ∈ fst <$> d).
  apply list_elem_of_fmap in Hin as (kv & -> & Hkv).
  apply list_elem_of_fmap. exists kv. split; [reflexivity|].
  apply list_elem_of_In in Hkv. apply filter_In in Hkv as [Hkv _]. now apply list_elem_of_In.
Qed.

Lemma keys_setitem k v d : In k (map fst d) -> map fst (setitem k v d) = map fst d.
Proof.
  induction d as [|[k0 v0] d IH]; simpl; [contradiction|].
  destruct (String.eqb k0 k) eqn:E; simpl; [reflexivity|].
  intros [->|Hin]; [now rewrite String.eqb_refl in E|]. now rewrite IH.
Qed.

Lemma keys_update d other :
  (forall k, In k (map fst other) -> In k (map fst d)) ->
  map fst (update d other) = map fst d.
Proof.
  unfold update. revert d. induction other as [|[k v] other IH]; intros d H; simpl.
  - reflexivity.
  - rewrite IH.
    + apply keys_setitem. apply H. now left.
    + intros k' Hin. rewrite keys_setitem by (apply H; now left). apply H. now right.
Qed.

(** Two dictionaries with the same keys in the same order and the same value
    under every key are the same. *)
Lemma same_dict (d1 d2 : Dict) :
  map fst d1 = map fst d2 -> NoDup (map fst d1) ->
  (forall k, assoc k d1 = assoc k d2) -> d1 = d2.
Proof.
  revert d2. induction d1 as [|[k1 v1] d1 IH]; intros [|[k2 v2] d2]; simpl;
    try discriminate; [reflexivity|].
  intros [= <- Hk] Hnd H. apply NoDup_cons in Hnd as [Hk1 Hnd].
  pose proof (H k1) as H1. simpl in H1. rewrite String.eqb_refl in H1.
  injection H1 as <-. f_equal. apply IH; [exact Hk | exact Hnd |].
  intros k. specialize (H k). simpl in H.
  destruct (String.eqb k1 k) eqn:E; [|exact H].
  apply String.eqb_eq in E as <-.
  assert (forall d : Dict, ~ In k1 (map fst d) -> assoc k1 d = None) as Hnone.
  { clear. induction d as [|[k v] d IH]; simpl; [reflexivity|].
    intros Hn. destruct (String.eqb k k1) eqn:E.
    - apply String.eqb_eq in E. tauto.
    - apply IH. tauto. }
  rewrite (Hnone d1) by (rewrite <- list_elem_of_In; exact Hk1).
  rewrite (Hnone d2) by (rewrite <- Hk, <- list_elem_of_In; exact Hk1).
  reflexivity.
Qed.

Lemma assoc_map_values (g : string * value -> string * value) k (d : Dict) :
  (forall kv, fst (g kv) = fst kv) ->
  assoc k (map g d) = option_map (fun v => snd (g (k, v))) (assoc k d).
Proof.
  intros Hg. induction d as [|[k0 v0] d IH]; [reflexivity|].
  cbn [map]. pose proof (Hg (k0, v0)) as H0.
  destruct (g (k0, v0)) as [k1 v1] eqn:E. cbn [fst] in H0. subst k1. cbn [assoc].
  destruct (String.eqb k0 k) eqn:E0; [|exact IH].
  apply String.eqb_eq in E0 as <-. cbn [option_map]. now rewrite E.
Qed.

Lemma map_filter_keys {A} (keep : string -> bool) (g : A -> A) (d : list (string * A)) :
  map (fun kv : string * A => let (k, x) := kv in (k, g x))
    (List.filter (fun kv => keep (fst kv)) d)
  = List.filter (fun kv => keep (fst kv))
      (map (fun kv : string * A => let (k, x) := kv in (k, g x)) d).
Proof.
  induction d as [|[k v] d IH]; simpl; [reflexivity|].
  change (keep (fst (k, v))) with (keep k). change (keep (fst (k, g v))) with (keep k).
  destruct (keep k); simpl; now rewrite IH.
Qed.

Lemma after_round_trip_key kv : fst (after_round_trip kv) = fst kv.
Proof. unfold after_round_trip. now destruct (is_sensitive (fst kv)). Qed.

Lemma reloaded_pairs_key (kv : string * value) :
  fst (let (k, x) := kv in (k, reloaded x)) = fst kv.
Proof. now destruct kv. Qed.

(** Induction on a value, with the property known of the values it holds. *)
Lemma value_rect' (P : value -> Prop) :
  P VNone -> (forall b, P (VBool b)) -> (forall n, P (VInt n)) ->
  (forall r, P (VFloat r)) -> (forall s, P (VStr s)) ->
  (forall l, Forall P l -> P (VTuple l)) ->
  (forall l, Forall P l -> P (VList l)) ->
  (forall d, Forall (fun kv => P (snd kv)) d -> P (VDict d)) ->
  forall v, P v.
Proof.
  intros HN HB HI HF HS HT HL HD.
  fix IH 1. intros [| | | | |l|l|d].
  - exact HN.
  - apply HB.
  - apply HI.
  - apply HF.
  - apply HS.
  - apply HT. induction l as [|x l IHl]; constructor; [apply IH | exact IHl].
  - apply HL. induction l as [|x l IHl]; constructor; [apply IH | exact IHl].
  - apply HD. induction d as [|[k x] d IHd]; constructor; [apply IH | exact IHd].
Qed.

(** A value without a tuple is read back as it was written. *)
Lemma reloaded_tuple_free v : tuple_free v = true -> reloaded v = v.
Proof.
  induction v as [| | | | |l Hl|l Hl|d Hd] using value_rect'; simpl;
    try reflexivity; try discriminate.
  - intros H. f_equal. induction Hl as [|x l Hx Hl IH]; simpl in *; [reflexivity|].
    apply andb_true_iff in H as [H1 H2]. now rewrite Hx, IH.
  - intros H. f_equal. induction Hd as [|[k x] d Hx Hd IH]; simpl in *; [reflexivity|].
    apply andb_true_iff in H as [H1 H2]. now rewrite Hx, IH.
Qed.

(** What is read back holds no tuple, so that reading it back once more
    changes nothing. *)
Lemma reloaded_is_tuple_free v : tuple_free (reloaded v) = true.
Proof.
  induction v as [| | | | |l Hl|l Hl|d Hd] using value_rect'; simpl; try reflexivity.
  - induction Hl as [|x l Hx Hl IH]; simpl; [reflexivity|]. now rewrite Hx, IH.
  - induction Hl as [|x l Hx Hl IH]; simpl; [reflexivity|]. now rewrite Hx, IH.
  - induction Hd as [|[k x] d Hx Hd IH]; simpl in *; [reflexivity|]. now rewrite Hx, IH.
Qed.

(** The configuration after [save_config] and [load_config] of the same
    file. *)
Lemma round_trip_config (path : string) (s : State) :
  NoDup (map fst (config s)) ->
  config (load_config path (save_config path (Returns tt) s).1).1
  = map after_round_trip (config s).
Proof.
  intros Hnd. unfold save_config, load_config. cbn [fst snd store config reloaded].
  rewrite lookup_insert_eq. cbn [fst snd update_config config].
  rewrite (map_filter_keys (fun k => negb (existsb (String.eqb k) sensitive)) reloaded).
  set (d := config s) in *.
  set (d' := map (fun kv : string * value => let (k, x) := kv in (k, reloaded x)) d).
  assert (map fst d' = map fst d) as Hkeys.
  { unfold d'. rewrite map_map. apply map_ext. intros kv. apply reloaded_pairs_key. }
  assert (forall k, In k (map fst (List.filter
            (fun kv => negb (existsb (String.eqb (fst kv)) sensitive)) d')) ->
                    In k (map fst d)) as Hsub.
  { intros k Hin. rewrite <- Hkeys. apply in_map_iff in Hin as (kv & <- & Hin).
    apply filter_In in Hin as [Hin _]. now apply in_map. }
  apply same_dict.
  - rewrite keys_update by exact Hsub. rewrite map_map. apply map_ext.
    intros kv. symmetry. apply after_round_trip_key.
  - rewrite keys_update by exact Hsub. exact Hnd.
  - intros k. rewrite assoc_update
      by (apply (filter_keys_NoDup
                   (fun kv => negb (existsb (String.eqb (fst kv)) sensitive)));
          rewrite Hkeys; exact Hnd).
    rewrite (assoc_filter_keys (fun k => negb (existsb (String.eqb k) sensitive)) k d').
    rewrite (assoc_map_values after_round_trip) by apply after_round_trip_key.
    unfold d'.
    rewrite (assoc_map_values (fun kv : string * value => let (k, x) := kv in (k, reloaded x)))
      by apply reloaded_pairs_key.
    unfold after_round_trip, is_sensitive. cbn [fst snd].
    destruct (existsb (String.eqb k) sensitive); cbn [negb];
      destruct (assoc k d); reflexivity.
Qed.

(** X18: [save_config] followed by [load_config] of the same file returns;
    it leaves the sensitive settings as they were and every other setting as
    JSON gives it back, tuples having become lists, so that a configuration
    without tuples is left as it was; and the file written holds none of the
    four sensitive keys. *)
Theorem save_then_load (path : string) (s : State) :
  NoDup (map fst (config s)) ->
  (load_config path (save_config path (Returns tt) s).1).2 = Ok tt
  /\ config (load_config path (save_config path (Returns tt) s).1).1
     = map after_round_trip (config s)
  /\ (Forall (fun kv => tuple_free (snd kv) = true) (config s) ->
      config (load_config path (save_config path (Returns tt) s).1).1 = config s)
  /\ forall k, is_sensitive k = true ->
       forall saved, store (save_config path (Returns tt) s).1 !! path
                     = Some (Document (VDict saved)) ->
                     assoc k saved = None.
Proof.
  intros Hnd. split; [|split; [|split]].
  - unfold save_config, load_config. cbn [fst snd store config reloaded].
    rewrite lookup_insert_eq. reflexivity.
  - now apply round_trip_config.
  - intros Hfree. rewrite round_trip_config by exact Hnd.
    induction Hfree as [|[k v] d Hv Hfree IH]; simpl; [reflexivity|].
    apply NoDup_cons in Hnd as [_ Hnd]. rewrite (IH Hnd). f_equal.
    unfold after_round_trip. cbn [fst snd] in *.
    destruct (is_sensitive k); [reflexivity|]. now rewrite reloaded_tuple_free.
  - intros k Hk saved. unfold save_config. cbn [fst snd store config reloaded].
    rewrite lookup_insert_eq. intros [= <-].
    rewrite (map_filter_keys (fun k => negb (existsb (String.eqb k) sensitive)) reloaded).
    etransitivity;
      [exact (assoc_filter_keys (fun k => negb (existsb (String.eqb k) sensitive)) k _)|].
    unfold is_sensitive in Hk. now rewrite Hk.
Qed.

Lemma typed_settings_keys : NoDup (map fst (config typed_settings)).
Proof. apply (bool_decide_unpack _). vm_compute. reflexivity. Qed.

Lemma save_then_load_witness :
  (load_config "config.json" (save_config "config.json" (Returns tt) typed_settings).1).2
  = Ok tt
  /\ config (load_config "config.json"
               (save_config "config.json" (Returns tt) typed_settings).1).1
     = map after_round_trip (config typed_settings).
Proof.
  destruct (save_then_load "config.json" typed_settings typed_settings_keys)
    as (H1 & H2 & _).
  split; [exact H1 | exact H2].
Defined.

(** The sizes of [resize_dims] are tuples in the configuration [__init__]
    builds and lists once the configuration was saved and loaded. *)
Example sizes_become_lists :
  assoc "resize_dims" (default_config (fun _ => None))
  = Some (VDict [("instagram_story", VTuple [VInt 1080; VInt 1920]);
                 ("instagram_post", VTuple [VInt 1080; VInt 1080]);
                 ("facebook_story", VTuple [VInt 1080; VInt 1920]);
                 ("facebook_post", VTuple [VInt 1200; VInt 630])])
  /\ assoc "resize_dims"
       (config (load_config "config.json"
                  (save_config "config.json" (Returns tt)
                     (mkState (default_config (fun _ => None)) ∅)).1).1)
     = Some (VDict [("instagram_story", VList [VInt 1080; VInt 1920]);
                    ("instagram_post", VList [VInt 1080; VInt 1080]);
                    ("facebook_story", VList [VInt 1080; VInt 1920]);
                    ("facebook_post", VList [VInt 1200; VInt 630])]).
Proof. split; vm_compute; reflexivity. Qed.

(** X19: a manager built anew and loading the file a configuration was
    saved to finds every setting of that configuration again, as JSON gives
    it back, the four sensitive keys apart: those hold what the environment
    variables give, the empty string when they are unset. *)
Theorem secrets_do_not_survive_a_restart (path : string) (s restarted : State)
    (environ : string -> option string) (k : string) :
  NoDup (map fst (config s)) ->
  init environ (Returns tt) (store (save_config path (Returns tt) s).1) = Ok restarted ->
  (load_config path restarted).2 = Ok tt
  /\ assoc k (config (load_config path restarted).1)
     = if is_sensitive k then assoc k (default_config environ)
       else match assoc k (config s) with
            | Some v => Some (reloaded v)
            | None => assoc k (default_config environ)
            end.
Proof.
  intros Hnd Hinit.
  assert (restarted = mkState (default_config environ)
                        (store (save_config path (Returns tt) s).1)) as ->
    by (unfold init in Hinit; cbn [call bind] in Hinit; congruence).
  clear Hinit. unfold save_config, load_config. cbn [fst snd store config reloaded].
  rewrite lookup_insert_eq. cbn [fst snd update_config config].
  rewrite (map_filter_keys (fun k => negb (existsb (String.eqb k) sensitive)) reloaded).
  set (d' := map (fun kv : string * value => let (k, x) := kv in (k, reloaded x)) (config s)).
  assert (map fst d' = map fst (config s)) as Hkeys.
  { unfold d'. rewrite map_map. apply map_ext. intros kv. apply reloaded_pairs_key. }
  split; [reflexivity|].
  rewrite assoc_update
    by (apply (filter_keys_NoDup
                 (fun kv => negb (existsb (String.eqb (fst kv)) sensitive)));
        rewrite Hkeys; exact Hnd).
  rewrite (assoc_filter_keys (fun k => negb (existsb (String.eqb k) sensitive)) k d').
  unfold d'.
  rewrite (assoc_map_values (fun kv : string * value => let (k, x) := kv in (k, reloaded x)))
    by apply reloaded_pairs_key.
  unfold is_sensitive. cbn [fst snd].
  destruct (existsb (String.eqb k) sensitive); cbn [negb];
    destruct (assoc k (config s)); reflexivity.
Qed.

Lemma secrets_do_not_survive_a_restart_witness :
  assoc "youtube_api_key"
    (config (load_config "config.json"
               (mkState (default_config (fun _ => None))
                  (store (save_config "config.json" (Returns tt) typed_settings).1))).1)
  = Some (VStr "")
  /\ assoc "download_path"
       (config (load_config "config.json"
                  (mkState (default_config (fun _ => None))
                     (store (save_config "config.json" (Returns tt) typed_settings).1))).1)
     = Some (VStr "/data/downloads").
Proof.
  split.
  - exact (proj2 (secrets_do_not_survive_a_restart "config.json" typed_settings _
                    (fun _ => None) "youtube_api_key" typed_settings_keys eq_refl)).
  - exact (proj2 (secrets_do_not_survive_a_restart "config.json" typed_settings _
                    (fun _ => None) "download_path" typed_settings_keys eq_refl)).
Defined.

End Settings.

(** ** The proxies *)

Section ProxyList.
Import Text Proxies Terms.

#[local] Arguments String.append : simpl nomatch.
#[local] Arguments Ascii.eqb : simpl nomatch.

Lemma free_proxies_bound env calls i :
  length (free_proxies env calls i) <= calls
  /\ Forall (fun p => p <> "") (free_proxies env calls i).
Proof.
  revert i. induction calls as [|calls IH]; intros i; simpl; [split; [lia | constructor]|].
  destruct (IH (S i)) as [Hl Hf].
  destruct (free_proxy env i) as [[[|c rest]|]|e]; simpl; try (split; [lia | exact Hf]).
  split; [lia|]. constructor; [discriminate | exact Hf].
Qed.

#[local] Arguments free_proxies : simpl never.

Lemma file_proxies_stripped lines :
  Forall (fun p => p <> "" /\ strip p = p)
    (map strip (List.filter (fun line => negb (String.eqb (strip line) "")) lines)).
Proof.
  apply Forall_forall. intros p Hp. apply list_elem_of_fmap in Hp as (line & -> & Hl).
  apply list_elem_of_In, filter_In in Hl as [_ Hl]. apply negb_true_iff in Hl.
  apply String.eqb_neq in Hl. split; [exact Hl | apply strip_idem].
Qed.

Lemma loaded_proxies_not_empty (env : ProxyEnv) :
  Forall (fun p => p <> "") (_load_proxies env).
Proof.
  unfold _load_proxies.
  destruct (proxy_file env) as [[lines|e]|]; simpl; try constructor.
  - pose proof (file_proxies_stripped lines) as Hf.
    destruct (map strip _) as [|p ps] eqn:E.
    + destruct (proxy_rotation env); [apply free_proxies_bound | constructor].
    + eapply Forall_impl; [exact Hf|]. now intros ? [].
  - destruct (proxy_rotation env); [apply free_proxies_bound | constructor].
Qed.

(** X20: [_load_proxies] returns no empty proxy; a file that cannot be read
    gives no proxy at all, free proxies not being asked for; a file with a
    line that is not blank gives its lines stripped of surrounding
    whitespace; otherwise at most five free proxies are returned, and none
    when rotation is off. *)
Theorem loaded_proxies (env : ProxyEnv) :
  Forall (fun p => p <> "") (_load_proxies env)
  /\ (forall e, proxy_file env = Some (Raises e) -> _load_proxies env = [])
  /\ (forall lines, proxy_file env = Some (Returns lines) ->
        Exists (fun line => strip line <> "") lines ->
        _load_proxies env
        = map strip (List.filter (fun line => negb (String.eqb (strip line) "")) lines)
        /\ Forall (fun p => strip p = p) (_load_proxies env))
  /\ ((forall lines, proxy_file env = Some (Returns lines) ->
         Forall (fun line => strip line = "") lines) ->
      length (_load_proxies env) <= 5
      /\ (proxy_rotation env = false -> _load_proxies env = [])).
Proof.
  split; [apply loaded_proxies_not_empty|]. unfold _load_proxies. split_and!.
  - intros e ->. reflexivity.
  - intros lines -> Hex. simpl.
    pose proof (file_proxies_stripped lines) as Hf.
    destruct (map strip _) as [|p ps] eqn:E.
    + exfalso. apply Exists_exists in Hex as (line & Hin & Hne).
      assert (Hm : strip line ∈ map strip
                     (List.filter (fun line => negb (String.eqb (strip line) "")) lines)).
      { apply list_elem_of_fmap. exists line. split; [reflexivity|].
        apply list_elem_of_In, filter_In. split; [now apply list_elem_of_In|].
        apply negb_true_iff. now apply String.eqb_neq. }
      rewrite E in Hm. now apply elem_of_nil in Hm.
    + split; [reflexivity|]. eapply Forall_impl; [exact Hf|]. now intros ? [].
  - intros Hblank.
    assert (Hfile : match proxy_file env with
                    | Some reading =>
                        do lines <- call reading;
                        Ok (map strip (List.filter
                                         (fun line => negb (String.eqb (strip line) "")) lines))
                    | None => Ok []
                    end = Ok [] \/ proxy_file env <> None /\ _load_proxies env = []).
    { destruct (proxy_file env) as [[lines|e]|] eqn:E; simpl; [|right|now left].
      - left. f_equal. specialize (Hblank lines eq_refl). clear E.
        induction Hblank as [|line lines Hl _ IH]; [reflexivity|].
        simpl. rewrite Hl. simpl. exact IH.
      - split; [discriminate|]. unfold _load_proxies. now rewrite E. }
    destruct Hfile as [-> | [_ Hnil]].
    + simpl. destruct (proxy_rotation env).
      * split; [apply free_proxies_bound | discriminate].
      * split; [simpl; lia | reflexivity].
    + unfold _load_proxies in Hnil. rewrite Hnil. split; [simpl; lia | reflexivity].
Qed.

Lemma choice_member draw l : l <> [] -> In (choice draw l) l.
Proof.
  intros Hne. unfold choice. apply nth_In. apply Nat.mod_upper_bound.
  destruct l; [congruence | discriminate].
Qed.

(** X21: on a manager as [__init__] builds it, [get_request_proxies]
    returns the empty dictionary exactly when rotation is off at the time of
    the call or no proxy was loaded; otherwise it draws a loaded proxy, keeps
    it as the current proxy, and returns it under both ["http"] and
    ["https"], as it stands when it starts with [http] and behind [http://]
    and [https://] otherwise. *)
Theorem request_proxies (env : ProxyEnv) (rotation : bool) (draw : nat) :
  (rotation = false \/ _load_proxies env = [] ->
   get_request_proxies rotation draw (new_rotation env) = (new_rotation env, []))
  /\ (rotation = true -> _load_proxies env <> [] ->
      exists proxy,
        In proxy (_load_proxies env) /\ proxy <> ""
        /\ (get_request_proxies rotation draw (new_rotation env)).1
           = mkRotation (_load_proxies env) (Some proxy)
        /\ (get_request_proxies rotation draw (new_rotation env)).2
           = if startswith "http" proxy
             then [("http", proxy); ("https", proxy)]
             else [("http", "http://" +:+ proxy); ("https", "https://" +:+ proxy)]).
Proof.
  unfold get_request_proxies, rotate_proxy, new_rotation. cbn [proxies].
  split.
  - intros [-> | ->]; [reflexivity|]. now destruct rotation.
  - intros -> Hne. cbn [negb].
    destruct (_load_proxies env) as [|p ps] eqn:E; [congruence|].
    set (proxy := choice draw (p :: ps)).
    assert (Hin : In proxy (p :: ps)) by (apply choice_member; discriminate).
    assert (Hp : proxy <> "").
    { pose proof (loaded_proxies_not_empty env) as Hall. rewrite E in Hall.
      rewrite Forall_forall in Hall. apply Hall. now apply list_elem_of_In. }
    exists proxy. split; [exact Hin|]. split; [exact Hp|].
    destruct proxy as [|c rest] eqn:Ep; [congruence|].
    cbn [falsy String.eqb default from_option id].
    destruct (startswith "http" (String c rest)); split; reflexivity.
Qed.

End ProxyList.

(** ** Posting and monitoring *)

Section Posting.
Import Config Effects Social Terms.

Lemma app_nil_made {A} (l made : list A) : (l ++ made)%list = l -> made = [].
Proof.
  intros H. apply (f_equal (@length A)) in H. rewrite length_app in H.
  destruct made; [reflexivity | simpl in H; lia].
Qed.

Ltac post_clause :=
  cbn [fst snd requests length];
  first
    [ reflexivity
    | now rewrite app_nil_r
    | lia
    | split; [intros _; eexists; split; [reflexivity | eassumption] | reflexivity]
    | split; [discriminate | intros (? & ? & ?); congruence]
    | intros ? [= <-] ? ? [<- | []]; reflexivity
    | intros ? [= <-] ?; congruence
    | intros ? [= <-]; discriminate
    | intros ? ? ? ? []
    | intros; discriminate
    | intros; reflexivity ].

(** X22: [post_to_facebook] never raises and makes at most one call on the
    client, none without a client; it returns [True] exactly when that call
    was made and returned.  For a video the call is [put_video] with the
    first 40 characters of the content as title: the rest of the content is
    not sent. *)
Theorem posting_to_facebook (env : SocialEnv) (m : Manager) (content : string)
    (media_path : option string) (s : Sent) :
  exists made b,
    (post_to_facebook env m content media_path s).2 = Ok b
    /\ requests (post_to_facebook env m content media_path s).1 = (requests s ++ made)%list
    /\ length made <= 1
    /\ (b = true <-> exists r, made = [r] /\ posted env r = Returns tt)
    /\ (facebook_client m = None -> made = [])
    /\ (forall p, media_path = Some p -> is_video p = true ->
        forall r, In r made -> r = put_video p (take 40 content)).
Proof.
  unfold post_to_facebook.
  destruct (facebook_client m) as [client|];
    [destruct media_path as [[|c p]|]; cbn [falsy String.eqb default from_option id];
     [|destruct (is_video (String c p)) eqn:Ev|]|];
    unfold except, and_then, send, of_result, logging, done; cbn [requests records];
    try (destruct (open_media env (String c p)) as [[]|e0]; cbn [call]);
    try match goal with
        | |- context [posted env ?r] => destruct (posted env r) as [[]|e] eqn:E; cbn [call]
        end;
    cbn [requests records];
    match goal with
    | |- context [(mkSent (requests s ++ ?made)%list _, Ok ?b)] => exists made, b
    | |- context [(mkSent (requests s) _, Ok ?b)] => exists [], b
    end;
    split_and!; post_clause.
Qed.

(** X23: [post_to_instagram] never raises.  Without a client it makes no
    call; with a client it makes exactly one call, on that client, carrying
    the media path and the whole content, a video call exactly when the path
    ends in [.mp4], [.mov] or [.avi]; it returns [True] exactly when the call
    returned. *)
Theorem posting_to_instagram (env : SocialEnv) (m : Manager) (content media_path : string)
    (s : Sent) :
  exists made b,
    (post_to_instagram env m content media_path s).2 = Ok b
    /\ requests (post_to_instagram env m content media_path s).1 = (requests s ++ made)%list
    /\ (b = true <-> exists r, made = [r] /\ posted env r = Returns tt)
    /\ (instagram_client m = None -> made = [])
    /\ (forall client, instagram_client m = Some client ->
        exists r, made = [r] /\ made_on r = Some client
                  /\ carries r = Some (media_path, content)
                  /\ posts_video r = is_video media_path).
Proof.
  unfold post_to_instagram.
  destruct (instagram_client m) as [[]|]; [destruct (is_video media_path) eqn:Ev..|];
    unfold except, and_then, send, of_result, logging, done; cbn [requests records];
    try match goal with
        | |- context [posted env ?r] => destruct (posted env r) as [[]|e] eqn:E; cbn [call]
        end;
    cbn [requests records];
    match goal with
    | |- context [(mkSent (requests s ++ ?made)%list _, Ok ?b)] => exists made, b
    | |- context [(mkSent (requests s) _, Ok ?b)] => exists [], b
    end;
    split_and!;
    first [ post_clause
          | intros ? [= <-]; eexists; split_and!; reflexivity ].
Qed.

Lemma total_count_modelled post_data field : total_count post_data field <> Unmodelled.
Proof.
  unfold total_count.
  destruct (get post_data field (JDict [])) as [entry| |] eqn:E1; cbn [bind];
    [|discriminate | now apply get_modelled in E1].
  destruct (get entry "summary" (JDict [])) as [summary| |] eqn:E2; cbn [bind];
    [|discriminate | now apply get_modelled in E2].
  apply get_modelled.
Qed.

Lemma shares_count_modelled post_data :
  (do entry <- get post_data "shares" (JDict []); get entry "count" (JInt 0)) <> Unmodelled.
Proof.
  destruct (get post_data "shares" (JDict [])) as [entry| |] eqn:E1; cbn [bind];
    [|discriminate | now apply get_modelled in E1].
  apply get_modelled.
Qed.

Ltac engagement_clauses :=
  cbn [fst snd requests records bind];
  eexists (mkEngagement _ _ _ _ _ _ _), _;
  split; [reflexivity|];
  split; [try (symmetry; apply app_nil_r); reflexivity|];
  cbn [Social.platform Social.post_id timestamp likes comments shares views
       set_likes set_comments set_shares set_views];
  split_and!; try reflexivity; try (simpl; lia); try discriminate; try congruence;
  try (intros; split_and!; reflexivity).

(** X24: [monitor_engagement] never raises and makes at most one call.  The
    dictionary it returns names the platform and the post it was asked
    about; when no call was made, as for every platform other than
    [facebook] and [instagram], the four counts are 0.  A failure in the
    middle of the reading keeps what was read before it: on Facebook, likes
    that were read stay when the comments cannot be read, comments and
    shares being 0. *)
Theorem engagement_is_returned (env : SocialEnv) (m : Manager) (platform post_id : string)
    (s : Sent) :
  exists e made,
    (monitor_engagement env m platform post_id s).2 = Ok e
    /\ requests (monitor_engagement env m platform post_id s).1 = (requests s ++ made)%list
    /\ length made <= 1
    /\ Social.platform e = platform /\ Social.post_id e = post_id /\ timestamp e = now env
    /\ (made = [] ->
        likes e = JInt 0 /\ comments e = JInt 0 /\ shares e = JInt 0 /\ views e = JInt 0)
    /\ (platform <> "facebook" -> platform <> "instagram" -> made = [])
    /\ (forall r post_data l x,
          made = [r] -> platform = "facebook" ->
          post_data_of env r = Returns post_data ->
          total_count post_data "reactions" = Ok l ->
          total_count post_data "comments" = Raise x ->
          likes e = l /\ comments e = JInt 0 /\ shares e = JInt 0).
Proof.
  unfold monitor_engagement, read_engagement.
  destruct (String.eqb platform "facebook") eqn:Ef.
  - apply String.eqb_eq in Ef as ->.
    destruct (facebook_client m) as [client|]; cbn [andb String.eqb Ascii.eqb Bool.eqb];
      unfold except, and_then, on_snd, on_fst, send, of_result, logging, done;
      cbn [fst snd requests records]; [|engagement_clauses].
    destruct (post_data_of env _) as [post_data|e0] eqn:E; cbn [call];
      [|engagement_clauses].
    pose proof (total_count_modelled post_data "reactions") as M1.
    pose proof (total_count_modelled post_data "comments") as M2.
    pose proof (shares_count_modelled post_data) as M3.
    destruct (total_count post_data "reactions") as [l|x|] eqn:E1; cbn [fst snd];
      [|engagement_clauses | congruence].
    destruct (total_count post_data "comments") as [c|x|] eqn:E2; cbn [fst snd];
      [| |congruence].
    + destruct (bind (get post_data "shares" (JDict [])) _) as [sh|x|] eqn:E3;
        cbn [fst snd]; [engagement_clauses.. | congruence].
    + engagement_clauses.
      intros r pd l' x' [= <-] _ Hpd Hl _. rewrite E in Hpd. injection Hpd as <-.
      rewrite E1 in Hl. injection Hl as <-. split_and!; reflexivity.
  - apply String.eqb_neq in Ef. cbn [andb].
    destruct (String.eqb platform "instagram") eqn:Ei.
    + apply String.eqb_eq in Ei as ->.
      destruct (instagram_client m) as [[]|]; cbn [andb];
        unfold except, and_then, on_snd, on_fst, send, of_result, logging, done;
        cbn [fst snd requests records]; [|engagement_clauses..].
      destruct (media_of env _) as [media|e0] eqn:E; cbn [call]; engagement_clauses.
    + apply String.eqb_neq in Ei. cbn [andb].
      unfold except, and_then, on_snd, on_fst, send, of_result, logging, done.
      engagement_clauses.
Qed.

End Posting.

(** ** Start-up *)

Section StartingUp.
Import Config Proxies Effects Social Startup Terms.

#[local] Arguments String.append : simpl nomatch.

(** The proxy list [__init__] loads: from the default path, rotation
    being on. *)
Lemma startup_proxy_env (env : StartEnv) :
  proxy_env env (default_config (environ env))
  = Ok (mkProxyEnv true true (proxy_lines env (default_proxy_list_path (environ env)))
          (free_proxy_of env) (user_agent_random env)).
Proof. reflexivity. Qed.

Lemma init_facebook_client env config s s' m v :
  Social.init env config s = (s', Ok m) ->
  config_item config "facebook_access_token" = Ok v ->
  truthy_value v = false ->
  facebook_client m = None.
Proof.
  unfold Social.init, and_then at 1, of_result at 1. intros H Hv Hf. rewrite Hv, Hf in H.
  unfold and_then at 1, done at 1 in H.
  unfold and_then at 1, of_result at 1 in H.
  destruct (config_item config "instagram_username") as [username| |]; [|discriminate..].
  unfold and_then at 1 in H.
  destruct (_ s) as [s1 [client| |]] in H; [|discriminate..].
  unfold done in H. now injection H as _ <-.
Qed.

Lemma init_instagram_client env config s s' m v :
  Social.init env config s = (s', Ok m) ->
  config_item config "instagram_password" = Ok v ->
  truthy_value v = false ->
  instagram_client m = None.
Proof.
  unfold Social.init, and_then at 1, of_result at 1. intros H Hv Hf.
  destruct (config_item config "facebook_access_token") as [token| |]; [|discriminate..].
  unfold and_then at 1 in H.
  destruct (_ s) as [s1 [fb| |]] in H; [|discriminate..].
  unfold and_then at 1, of_result at 1 in H.
  destruct (config_item config "instagram_username") as [username| |]; [|discriminate..].
  unfold and_then at 1 in H.
  destruct (truthy_value username).
  - unfold and_then at 1, of_result at 1 in H. rewrite Hv, Hf in H.
    unfold done in H. now injection H as _ <-.
  - unfold done in H. now injection H as _ <-.
Qed.

(** What [__init__] leaves when it returns. *)
Lemma started (env : StartEnv) (files : Store) (s s' : Sent) (app : App) :
  app_init env files s = (s', Ok app) ->
  anti_detection_manager app
  = new_rotation (mkProxyEnv true true
                    (proxy_lines env (default_proxy_list_path (environ env)))
                    (free_proxy_of env) (user_agent_random env))
  /\ (exists s1 s2, Social.init (social_env env) (default_config (environ env)) s1
                    = (s2, Ok (social_media_manager app)))
  /\ store (config_manager app) = files
  /\ forall loaded, files !! "config.json" = Some (Document (VDict loaded)) ->
                    config (config_manager app) = update (default_config (environ env)) loaded.
Proof.
  unfold app_init, Config.init. intros H.
  destruct (makedirs env) as [[]|e]; cbn [call bind] in H;
    unfold and_then at 1, of_result at 1 in H; [|discriminate].
  cbn [config] in H. unfold anti_detection_init in H.
  unfold and_then at 1 in H. unfold and_then at 1, of_result at 1 in H.
  destruct (user_agent env) as [[]|e]; cbn [call] in H; [|discriminate].
  unfold and_then at 1, of_result at 1 in H. rewrite startup_proxy_env in H.
  unfold done at 1 in H.
  unfold and_then at 1 in H.
  destruct (scraper_init env (default_config (environ env)) s) as [s1 [yt| |]];
    [|discriminate..].
  unfold and_then at 1 in H.
  destruct (processor_init env (default_config (environ env)) s1) as [s2 [sm| |]];
    [|discriminate..].
  unfold and_then at 1 in H.
  destruct (Social.init (social_env env) (default_config (environ env)) s2)
    as [s3 [manager| |]] eqn:Es; [|discriminate..].
  unfold and_then at 1, of_result at 1 in H.
  destruct (set_page_config env) as [[]|e]; cbn [call] in H; [|discriminate].
  unfold and_then at 1 in H. cbn [store] in H.
  destruct (files !! "config.json") as [[v|]|] eqn:Ef.
  - unfold load_config in H. cbn [store] in H. rewrite Ef in H.
    destruct v; cbn [bind of_result] in H; try discriminate.
    unfold of_result, done in H. injection H as _ <-. cbn.
    split_and!; try reflexivity; [now exists s2, s3|]. now intros loaded [= <-].
  - unfold load_config in H. cbn [store] in H. rewrite Ef in H.
    cbn [bind of_result] in H. unfold of_result, done in H. injection H as _ <-. cbn.
    split_and!; try reflexivity; [now exists s2, s3|]. discriminate.
  - unfold done in H. injection H as _ <-. cbn.
    split_and!; try reflexivity; [now exists s2, s3|]. discriminate.
Qed.

(** X25: the clients of the social media manager are built before
    [config.json] is read.  After a start-up without the variable
    [FACEBOOK_ACCESS_TOKEN] there is no Facebook client, and without
    [INSTAGRAM_PASSWORD] no Instagram client: both post functions return
    [False] and call nothing, although the configuration then holds the
    values the file gives. *)
Theorem clients_come_from_the_environment (env : StartEnv) (files : Store) (s s' : Sent)
    (app : App) (content : string) (media_path : option string) (sent : Sent) :
  app_init env files s = (s', Ok app) ->
  (unset (environ env "FACEBOOK_ACCESS_TOKEN") = true ->
   post_to_facebook (social_env env) (social_media_manager app) content media_path sent
   = (mkSent (requests sent)
        (records sent ++ [(WARNING, "Facebook client not initialized. Check access token.")]),
      Ok false))
  /\ (unset (environ env "INSTAGRAM_PASSWORD") = true ->
      post_to_instagram (social_env env) (social_media_manager app) content
        (default "" media_path) sent
      = (mkSent (requests sent)
           (records sent
            ++ [(WARNING, "Instagram client not initialized. Check username and password.")]),
         Ok false))
  /\ (forall loaded k v,
        files !! "config.json" = Some (Document (VDict loaded)) ->
        NoDup (map fst loaded) -> assoc k loaded = Some v ->
        assoc k (config (config_manager app)) = Some v).
Proof.
  intros H. apply started in H as (_ & (s1 & s2 & Hs) & _ & Hc). split_and!.
  - intros Hu.
    assert (facebook_client (social_media_manager app) = None) as Hn.
    { eapply init_facebook_client; [exact Hs | reflexivity |].
      unfold unset in Hu. cbn. destruct (environ env "FACEBOOK_ACCESS_TOKEN"); cbn.
      - now rewrite Hu.
      - reflexivity. }
    unfold post_to_facebook. rewrite Hn. reflexivity.
  - intros Hu.
    assert (instagram_client (social_media_manager app) = None) as Hn.
    { eapply init_instagram_client; [exact Hs | reflexivity |].
      unfold unset in Hu. cbn. destruct (environ env "INSTAGRAM_PASSWORD"); cbn.
      - now rewrite Hu.
      - reflexivity. }
    unfold post_to_instagram. rewrite Hn. reflexivity.
  - intros loaded k v Hf Hnd Hk. rewrite (Hc loaded Hf), assoc_update by exact Hnd.
    now rewrite Hk.
Qed.

Lemma settings_written_by_hand_keys : NoDup (map fst settings_written_by_hand).
Proof. apply (bool_decide_unpack _). vm_compute. reflexivity. Qed.

Lemma clients_come_from_the_environment_witness :
  match app_init env_start settings_file (mkSent [] []) with
  | (_, Ok app) =>
      post_to_facebook env_services (social_media_manager app) "Hello" None (mkSent [] [])
      = (mkSent [] [(WARNING, "Facebook client not initialized. Check access token.")],
         Ok false)
      /\ assoc "facebook_access_token" (config (config_manager app)) = Some (VStr "EAAB-token")
  | _ => False
  end.
Proof.
  destruct (app_init env_start settings_file (mkSent [] [])) as [s' [app| |]] eqn:E;
    [|vm_compute in E; discriminate..].
  destruct (clients_come_from_the_environment env_start settings_file _ _ _
              "Hello" None (mkSent [] []) E) as (H1 & _ & H3).
  split.
  - apply H1. reflexivity.
  - apply (H3 settings_written_by_hand);
      [reflexivity | exact settings_written_by_hand_keys | reflexivity].
Defined.

(** X26: the proxies are loaded before [config.json] is read, from the
    default path and with rotation on: a file that turns [proxy_rotation]
    off does not keep the free proxies from being asked for when there is no
    proxy list; afterwards [get_request_proxies] hands out none of them. *)
Theorem proxies_are_loaded_before_the_settings (env : StartEnv) (files : Store)
    (s s' : Sent) (app : App) (loaded : Dict) :
  app_init env files s = (s', Ok app) ->
  files !! "config.json" = Some (Document (VDict loaded)) ->
  NoDup (map fst loaded) ->
  assoc "proxy_rotation" loaded = Some (VBool false) ->
  (exists asked : ProxyEnv,
      proxy_rotation asked = true
      /\ proxy_file asked = proxy_lines env (default_proxy_list_path (environ env))
      /\ free_proxy asked = free_proxy_of env
      /\ anti_detection_manager app = new_rotation asked
      /\ (proxy_file asked = None ->
          proxies (anti_detection_manager app) = free_proxies asked 5 0))
  /\ forall draw, request_proxies_of app draw = Ok (anti_detection_manager app, []).
Proof.
  intros H Hf Hnd Hr. apply started in H as (Ha & _ & _ & Hc). split.
  - eexists. split_and!; [| | |exact Ha|]; try reflexivity.
    cbn [proxy_file]. intros Hnone. rewrite Ha. unfold new_rotation, _load_proxies.
    cbn [proxies proxy_file proxy_rotation]. rewrite Hnone. reflexivity.
  - intros draw. unfold request_proxies_of, config_item.
    rewrite (Hc loaded Hf), assoc_update by exact Hnd. rewrite Hr. reflexivity.
Qed.

Lemma proxies_are_loaded_before_the_settings_witness :
  match app_init env_start settings_file (mkSent [] []) with
  | (_, Ok app) =>
      proxies (anti_detection_manager app)
      = ["203.0.113.7:8080"; "203.0.113.7:8080"; "203.0.113.7:8080"; "203.0.113.7:8080";
         "203.0.113.7:8080"]
      /\ request_proxies_of app 3 = Ok (anti_detection_manager app, [])
  | _ => False
  end.
Proof.
  destruct (app_init env_start settings_file (mkSent [] [])) as [s' [app| |]] eqn:E;
    [|vm_compute in E; discriminate..].
  destruct (proxies_are_loaded_before_the_settings env_start settings_file _ _ _
              settings_written_by_hand E eq_refl settings_written_by_hand_keys eq_refl)
    as ((asked & H1 & H2 & H3 & H4 & H5) & H6).
  split; [|apply H6].
  rewrite (H5 H2). unfold free_proxies. rewrite H3. reflexivity.
Defined.

End StartingUp.

(** ** Similar channels *)

Section SimilarChannels.
Import Text Growth Channels Terms.

Lemma fold_result_keeps {A B} (P : B -> Prop) (body : B -> A -> result B) l b b' :
  (forall b x b', P b -> body b x = Ok b' -> P b') ->
  P b -> fold_result body l b = Ok b' -> P b'.
Proof.
  intros Hbody. revert b. induction l as [|x l IH]; simpl; intros b Hb H.
  - now injection H as <-.
  - destruct (body b x) as [b1| |] eqn:E; cbn [bind] in H; try discriminate.
    eapply IH; [|exact H]. eapply Hbody; eauto.
Qed.

Lemma foldl_keeps {A B} (P : B -> Prop) (body : B -> A -> B) l b :
  (forall b x, P b -> P (body b x)) -> P b -> P (foldl body b l).
Proof.
  intros Hbody. revert b. induction l as [|x l IH]; simpl; intros b Hb; [exact Hb|].
  apply IH. now apply Hbody.
Qed.

Lemma key_eqb_refl j : hashable j = Ok tt -> key_eqb j j = true.
Proof.
  destruct j as [| [] | n | s | l | d]; simpl; try discriminate; intros _;
    try reflexivity.
  - apply Z.eqb_refl.
  - apply String.eqb_refl.
Qed.

Lemma count_channel_ids cid t cd x :
  x ∈ map channel_id_of (count_channel cid t cd) -> x = cid \/ x ∈ map channel_id_of cd.
Proof.
  induction cd as [|c cd IH]; simpl.
  - intros H. apply elem_of_cons in H as [->|H]; [now left | now apply elem_of_nil in H].
  - destruct (key_eqb (channel_id_of c) cid); simpl; [now right|].
    intros H. apply elem_of_cons in H as [->|H]; [right; left|].
    destruct (IH H) as [->|H']; [now left | right; now right].
Qed.

Lemma count_channel_counted channel_id cid t cd :
  hashable cid = Ok tt -> differs cid channel_id = true ->
  counted channel_id cd -> counted channel_id (count_channel cid t cd).
Proof.
  intros Hh Hd [Hnd Hall]. induction cd as [|c cd IH]; simpl.
  - split; [apply NoDup_singleton | repeat constructor; assumption].
  - apply NoDup_cons in Hnd as [Hc Hnd]. apply Forall_cons in Hall as [Hc' Hall].
    destruct (key_eqb (channel_id_of c) cid) eqn:E; simpl.
    + split; [apply NoDup_cons; split; assumption|].
      constructor; [|exact Hall]. simpl. destruct Hc' as (? & ? & ?). split_and!; auto; lia.
    + destruct (IH Hnd Hall) as [Hnd' Hall']. split.
      * apply NoDup_cons. split; [|exact Hnd'].
        intros Hin. apply count_channel_ids in Hin as [Heq|Hin]; [|contradiction].
        rewrite Heq, key_eqb_refl in E by exact Hh. discriminate.
      * constructor; assumption.
Qed.

Lemma note_channel_counted channel_id cid t cd cd' :
  counted channel_id cd -> note_channel channel_id cid t cd = Ok cd' ->
  counted channel_id cd'.
Proof.
  unfold note_channel. intros Hc. destruct (differs cid channel_id) eqn:Ed.
  - destruct (hashable cid) as [[]| |] eqn:Eh; cbn [bind]; try discriminate.
    intros [= <-]. now apply count_channel_counted.
  - now intros [= <-].
Qed.

Lemma note_video_counted env channel_id cd video_id cd' :
  counted channel_id cd -> note_video env channel_id cd video_id = Ok cd' ->
  counted channel_id cd'.
Proof.
  unfold note_video. intros Hc H.
  destruct (call (search_answer env video_id)) as [response| |]; cbn [bind] in H;
    try discriminate.
  destruct (get response "items" (JList [])) as [items| |]; cbn [bind] in H;
    try discriminate.
  destruct (iterate items) as [l| |]; cbn [bind] in H; try discriminate.
  eapply (fold_result_keeps (counted channel_id)); [|exact Hc|exact H].
  clear. intros cd item cd' Hc. unfold note_item.
  destruct (getitem item "snippet") as [snippet| |]; cbn [bind]; try discriminate.
  destruct (getitem snippet "channelId") as [cid| |]; cbn [bind]; try discriminate.
  destruct (getitem snippet "channelTitle") as [t| |]; cbn [bind]; try discriminate.
  now apply note_channel_counted.
Qed.

Lemma note_page_counted env channel_id cd video_url cd' :
  counted channel_id cd -> note_page env channel_id cd video_url = Ok cd' ->
  counted channel_id cd'.
Proof.
  unfold note_page. intros Hc. destruct (falsy video_url); [now intros [= <-]|].
  destruct (call (related_links env _)) as [elements| |]; cbn [bind]; try discriminate.
  intros [= <-]. apply (foldl_keeps (counted channel_id)); [|exact Hc].
  clear. intros cd elem Hc. unfold note_element.
  destruct elem as [[[url|] t]|e]; try exact Hc.
  destruct (note_channel _ _ _ cd) as [cd'| |] eqn:E; try exact Hc.
  eapply note_channel_counted; eauto.
Qed.

Lemma differs_not_equal j channel_id : differs j channel_id = true -> j <> JStr channel_id.
Proof.
  intros H ->. simpl in H. now rewrite String.eqb_refl in H.
Qed.

(** The list made of the channels counted. *)
Lemma listed_channels channel_id max_results cd :
  counted channel_id cd ->
  ((0 <= max_results)%Z ->
   length (slice_to max_results (sorted_desc count_of cd)) <= Z.to_nat max_results)
  /\ NoDup (map channel_id_of (slice_to max_results (sorted_desc count_of cd)))
  /\ Forall (fun c => channel_id_of c <> JStr channel_id /\ 1 <= count_of c)
       (slice_to max_results (sorted_desc count_of cd))
  /\ StronglySorted (fun a b => count_of b <= count_of a)
       (slice_to max_results (sorted_desc count_of cd)).
Proof.
  intros [Hnd Hall].
  assert (exists n, slice_to max_results (sorted_desc count_of cd)
                    = firstn n (sorted_desc count_of cd)
                    /\ ((0 <= max_results)%Z -> n = Z.to_nat max_results)) as (n & -> & Hn).
  { unfold slice_to. destruct (0 <=? max_results)%Z eqn:E.
    - eexists. split; [reflexivity|]. reflexivity.
    - eexists. split; [reflexivity|]. apply Z.leb_gt in E. lia. }
  split_and!.
  - intros H0. rewrite <- (Hn H0). apply firstn_le_length.
  - eapply sublist_NoDup; [|apply (fmap_sublist channel_id_of), sublist_take].
    change (NoDup (channel_id_of <$> sorted_desc count_of cd)).
    now rewrite (sorted_desc_perm count_of cd).
  - apply Forall_take. rewrite sorted_desc_perm.
    eapply Forall_impl; [exact Hall|]. intros c (_ & Hd & Hc).
    split; [now apply differs_not_equal | exact Hc].
  - apply StronglySorted_take, sorted_desc_sorted.
Qed.

Lemma listed_nothing channel_id max_results :
  ((0 <= max_results)%Z -> @length Channel [] <= Z.to_nat max_results)
  /\ NoDup (map channel_id_of [])
  /\ Forall (fun c => channel_id_of c <> JStr channel_id /\ 1 <= count_of c) []
  /\ StronglySorted (fun a b => count_of b <= count_of a) [].
Proof. split_and!; try constructor. simpl. lia. Qed.

(** X27: whatever the services answer, the channels [find_similar_channels]
    returns do not include the channel asked about, name no channel twice,
    have each been met at least once, come in order of decreasing count, and
    are at most [max_results] when that number is not negative. *)
Theorem similar_channels (env : SimilarEnv) (channel_id : string) (max_results : Z) :
  ((0 <= max_results)%Z ->
   length (find_similar_channels env channel_id max_results) <= Z.to_nat max_results)
  /\ NoDup (map channel_id_of (find_similar_channels env channel_id max_results))
  /\ Forall (fun c => channel_id_of c <> JStr channel_id /\ 1 <= count_of c)
       (find_similar_channels env channel_id max_results)
  /\ StronglySorted (fun a b => count_of b <= count_of a)
       (find_similar_channels env channel_id max_results).
Proof.
  assert (counted channel_id []) as H0 by (split; constructor).
  unfold find_similar_channels.
  destruct (negb (String.eqb (similar_api_key env) "")).
  - destruct (call (similar_build env)) as [[]| |]; cbn [bind];
      try apply listed_nothing.
    destruct (call (channel_answer env)) as [response| |]; cbn [bind];
      try apply listed_nothing.
    destruct (getitem response "items") as [items| |]; cbn [bind];
      try apply listed_nothing.
    destruct (negb (truthy items)); [apply listed_nothing|].
    repeat match goal with
           | |- context [bind ?r _] =>
               lazymatch r with
               | fold_result _ _ _ => fail
               | _ => destruct r as [?| |]; cbn [bind]; try apply listed_nothing
               end
           end.
    destruct (fold_result _ _ _) as [cd| |] eqn:E; cbn [bind]; try apply listed_nothing.
    apply listed_channels.
    eapply (fold_result_keeps (counted channel_id)); [|exact H0|exact E].
    intros. eapply note_video_counted; eauto.
  - destruct (call (similar_browser env)) as [[]| |]; cbn [bind];
      try apply listed_nothing.
    destruct (call (video_links env)) as [elements| |]; cbn [bind];
      try apply listed_nothing.
    destruct (map_result call (firstn 3 elements)) as [urls| |]; cbn [bind];
      try apply listed_nothing.
    destruct (fold_result _ _ _) as [cd| |] eqn:E; cbn [bind]; try apply listed_nothing.
    apply listed_channels.
    eapply (fold_result_keeps (counted channel_id)); [|exact H0|exact E].
    intros. eapply note_page_counted; eauto.
Qed.

End SimilarChannels.

(** ** The blog post *)

Section BlogPost.
Import Effects Blog Terms.

#[local] Arguments String.append : simpl nomatch.

(** The loop groups the sentences three by three. *)
Lemma group_sentences_threes sentences current :
  length current <= 2 -> sentences <> [] ->
  group_sentences sentences current = map (join " ") (threes (current ++ sentences)).
Proof.
  revert current. induction sentences as [|x rest IH]; intros current Hc Hne;
    [congruence|].
  cbn [group_sentences]. rewrite length_app. cbn [length].
  destruct current as [|a [|b [|c current]]]; cbn [length] in *; try lia.
  - destruct rest as [|y rest]; [reflexivity|].
    cbn [Nat.leb orb app Nat.add]. rewrite IH by (simpl; (lia || discriminate)).
    reflexivity.
  - destruct rest as [|y rest]; [reflexivity|].
    cbn [Nat.leb orb app Nat.add]. rewrite IH by (simpl; (lia || discriminate)).
    reflexivity.
  - cbn [Nat.leb orb app Nat.add threes map]. f_equal.
    destruct rest as [|y rest]; [reflexivity|].
    now rewrite (IH []) by (simpl; (lia || discriminate)).
Qed.

Lemma grouped_in_threes (sentences : list string) :
  group_sentences sentences [] = map (join " ") (threes sentences).
Proof.
  destruct sentences as [|x rest]; [reflexivity|].
  now rewrite group_sentences_threes by (simpl; (lia || discriminate)).
Qed.

(** X28: the paragraphs of a post made without OpenAI are the sentences
    three by three, in their order and joined by a space, the last
    paragraph holding the one to three sentences that are left. *)
Theorem paragraphs_are_threes (sentences : list string) :
  group_sentences sentences [] = map (join " ") (threes sentences).
Proof. exact (grouped_in_threes sentences). Qed.

Lemma threes_prefix k sentences more :
  3 * k <= length sentences ->
  firstn k (threes (sentences ++ more)) = firstn k (threes sentences).
Proof.
  revert sentences. induction k as [|k IH]; intros sentences Hl; [reflexivity|].
  destruct sentences as [|a [|b [|c rest]]]; cbn [length] in Hl; try lia.
  cbn [app threes firstn]. f_equal. apply IH. lia.
Qed.

Lemma main_content_prefix sentences more :
  30 <= length sentences ->
  main_content (group_sentences (sentences ++ more) [])
  = main_content (group_sentences sentences []).
Proof.
  intros Hl. unfold main_content.
  rewrite (grouped_in_threes (sentences ++ more)), (grouped_in_threes sentences).
  rewrite !firstn_map.
  now rewrite (threes_prefix 10) by lia.
Qed.

Lemma and_then_ext {W A B} (m1 m2 : eff W A) (k1 k2 : A -> eff W B) w :
  m1 w = m2 w -> (forall a w', k1 a w' = k2 a w') ->
  and_then m1 k1 w = and_then m2 k2 w.
Proof.
  intros Hm Hk. unfold and_then. rewrite Hm.
  destruct (m2 w) as [w' [a| |]]; [apply Hk | reflexivity..].
Qed.

Lemma except_ext {W A} (m1 m2 : eff W A) (h : exn -> eff W A) w :
  m1 w = m2 w -> except m1 h w = except m2 h w.
Proof. intros Hm. unfold except. now rewrite Hm. Qed.

Lemma chunks_aux_fuel n fuel1 fuel2 s :
  0 < n -> String.length s <= fuel1 -> String.length s <= fuel2 ->
  chunks_aux fuel1 n s = chunks_aux fuel2 n s.
Proof.
  intros Hn. revert fuel2 s.
  induction fuel1 as [|fuel1 IH]; intros fuel2 s H1 H2.
  - destruct s; [|simpl in H1; lia]. now destruct fuel2.
  - destruct s as [|a s]; [now destruct fuel2|].
    destruct fuel2 as [|fuel2]; [simpl in H2; lia|].
    cbn [chunks_aux]. f_equal.
    pose proof (length_drop n (String a s)) as Hd. cbn [String.length] in *.
    apply IH; lia.
Qed.

Lemma text_chunks_cons n a s :
  0 < n ->
  text_chunks n (String a s) = take n (String a s) :: text_chunks n (drop n (String a s)).
Proof.
  intros Hn. unfold text_chunks. cbn [String.length chunks_aux]. f_equal.
  pose proof (length_drop n (String a s)) as Hd. cbn [String.length] in Hd.
  apply chunks_aux_fuel; lia.
Qed.

Lemma take_take_add n m s : take n (take (n + m) s) = take n s.
Proof.
  revert s. induction n as [|n IH]; intros s; [reflexivity|].
  destruct s as [|a s]; [reflexivity|]. cbn [Nat.add take]. now rewrite IH.
Qed.

Lemma drop_take_add n m s : drop n (take (n + m) s) = take m (drop n s).
Proof.
  revert s. induction n as [|n IH]; intros s; [reflexivity|].
  destruct s as [|a s]; [now destruct m|]. cbn [Nat.add take drop]. apply IH.
Qed.

(** The first [k] chunks of [n] characters read the first [k * n]
    characters of the text. *)
Lemma firstn_chunks_take k n s :
  0 < n -> firstn k (text_chunks n s) = firstn k (text_chunks n (take (k * n) s)).
Proof.
  intros Hn. revert s. induction k as [|k IH]; intros s; [reflexivity|].
  destruct n as [|n]; [lia|].
  destruct s as [|a s]; [reflexivity|].
  rewrite (text_chunks_cons (S n) a s Hn). cbn [Nat.mul Nat.add take].
  rewrite (text_chunks_cons (S n) a _ Hn).
  cbn [firstn]. f_equal.
  - cbn [take]. f_equal. apply eq_sym, take_take_add.
  - rewrite IH. cbn [drop]. now rewrite drop_take_add.
Qed.

Lemma take_take_le n m s : n <= m -> take n (take m s) = take n s.
Proof. intros H. replace m with (n + (m - n)) by lia. apply take_take_add. Qed.

(** The introduction reads the transcript no further than [summary_reach]. *)
Lemma summary_of_reach env text1 text2 :
  take (summary_reach env) text1 = take (summary_reach env) text2 ->
  summary_of env text1 = summary_of env text2.
Proof.
  unfold summary_reach, summary_of. intros H.
  destruct (summarizer_of env) as [summarizer|].
  - assert (take 500 text1 = take 500 text2) as H500.
    { rewrite <- (take_take_le 500 5000 text1), <- (take_take_le 500 5000 text2) by lia.
      now rewrite H. }
    assert (firstn 5 (text_chunks 1000 text1) = firstn 5 (text_chunks 1000 text2)) as H5.
    { rewrite (firstn_chunks_take 5 1000 text1), (firstn_chunks_take 5 1000 text2) by lia.
      change (5 * 1000) with 5000. now rewrite H. }
    now rewrite H5, H500.
  - now rewrite H.
Qed.

Lemma basic_post_same env video_info text1 text2 sentences more1 more2 w :
  take (summary_reach env) text1 = take (summary_reach env) text2 ->
  sent_tokenize env text1 = Returns (sentences ++ more1)%list ->
  sent_tokenize env text2 = Returns (sentences ++ more2)%list ->
  30 <= length sentences ->
  basic_post env video_info text1 w = basic_post env video_info text2 w.
Proof.
  intros Hr H1 H2 Hl. unfold basic_post.
  rewrite (summary_of_reach env text1 text2 Hr), H1, H2.
  unfold and_then, of_result, done.
  destruct (summary_of env text2 w) as [w1 [summary| |]]; try reflexivity.
  cbn [call].
  now rewrite (main_content_prefix sentences more1 Hl), (main_content_prefix sentences more2 Hl).
Qed.

(** X29: a post made without OpenAI shows ten paragraphs at most.  For two
    transcripts whose texts agree as far as the introduction reads them and
    whose first thirty sentences are the same, [create_blog_post] writes and
    returns the same: the sentences after the thirtieth change nothing. *)
Theorem later_sentences_are_left_out (env : BlogEnv) (video_info : json)
    (transcript1 transcript2 : list TranscriptEntry) (sentences more1 more2 : list string)
    (w : Written) :
  take (summary_reach env) (transcript_text_of transcript1)
  = take (summary_reach env) (transcript_text_of transcript2) ->
  sent_tokenize env (transcript_text_of transcript1) = Returns (sentences ++ more1)%list ->
  sent_tokenize env (transcript_text_of transcript2) = Returns (sentences ++ more2)%list ->
  30 <= length sentences ->
  create_blog_post env video_info transcript1 w
  = create_blog_post env video_info transcript2 w.
Proof.
  intros Hr H1 H2 Hl. unfold create_blog_post. apply except_ext. cbv zeta.
  apply and_then_ext; [reflexivity|]. intros content w1.
  apply and_then_ext; [|intros; reflexivity].
  destruct (falsy content); [|reflexivity].
  exact (basic_post_same env video_info _ _ sentences more1 more2 w1 Hr H1 H2 Hl).
Qed.

Lemma later_sentences_are_left_out_witness :
  create_blog_post env_blog_sentences video_record (talk 31) (mkWritten [] [] [])
  = create_blog_post env_blog_sentences video_record (talk 40) (mkWritten [] [] []).
Proof.
  apply (later_sentences_are_left_out env_blog_sentences video_record (talk 31) (talk 40)
           (firstn 30 (split ". " (transcript_text_of (talk 40))))
           (skipn 30 (split ". " (transcript_text_of (talk 31))))
           (skipn 30 (split ". " (transcript_text_of (talk 40))))
           (mkWritten [] [] [])).
  - vm_compute. reflexivity.
  - vm_compute. reflexivity.
  - vm_compute. reflexivity.
  - vm_compute. lia.
Defined.

Lemma logs_only_done {A} (a : A) : logs_only (done a).
Proof. intros w w' r [= <- _]. now split. Qed.

Lemma logs_only_of_result {A} (r : result A) : logs_only (of_result r).
Proof. intros w w' r' [= <- _]. now split. Qed.

Lemma logs_only_noting l msg : logs_only (noting l msg).
Proof. intros w w' r [= <- _]. now split. Qed.

Lemma logs_only_and_then {A B} (m : eff Written A) (k : A -> eff Written B) :
  logs_only m -> (forall a, logs_only (k a)) -> logs_only (and_then m k).
Proof.
  intros Hm Hk w w' r. unfold and_then.
  destruct (m w) as [w1 [a| |]] eqn:E; apply Hm in E as [E1 E2].
  - intros H. apply Hk in H as [H1 H2]. split; congruence.
  - intros [= <- _]. now split.
  - intros [= <- _]. now split.
Qed.

Lemma logs_only_except {A} (m : eff Written A) (h : exn -> eff Written A) :
  logs_only m -> (forall e, logs_only (h e)) -> logs_only (except m h).
Proof.
  intros Hm Hh w w' r. unfold except.
  destruct (m w) as [w1 [a|e|]] eqn:E; apply Hm in E as [E1 E2].
  - intros [= <- _]. now split.
  - intros H. apply Hh in H as [H1 H2]. split; congruence.
  - intros [= <- _]. now split.
Qed.

Lemma logs_only_if {A} (b : bool) (m1 m2 : eff Written A) :
  logs_only m1 -> logs_only m2 -> logs_only (if b then m1 else m2).
Proof. now destruct b. Qed.

Create HintDb blog discriminated.
#[local] Hint Resolve logs_only_done logs_only_of_result logs_only_noting logs_only_if : blog.
#[local] Hint Extern 2 (logs_only (and_then _ _)) =>
  apply logs_only_and_then; [|intro] : blog.
#[local] Hint Extern 2 (logs_only (except _ _)) =>
  apply logs_only_except; [|intro] : blog.

Lemma logs_only_summary_of env transcript_text : logs_only (summary_of env transcript_text).
Proof. unfold summary_of. destruct (summarizer_of env); auto 10 with blog. Qed.

Lemma logs_only_basic_post env video_info transcript_text :
  logs_only (basic_post env video_info transcript_text).
Proof.
  unfold basic_post. pose proof (logs_only_summary_of env transcript_text).
  auto 12 with blog.
Qed.

Lemma logs_only_get_output_path env video_id content_type :
  logs_only (_get_output_path env video_id content_type).
Proof. unfold _get_output_path. auto 10 with blog. Qed.

Lemma and_then_ok {W A B} (m : eff W A) (k : A -> eff W B) w w' b :
  and_then m k w = (w', Ok b) -> exists a w1, m w = (w1, Ok a) /\ k a w1 = (w', Ok b).
Proof.
  unfold and_then. destruct (m w) as [w1 [a| |]]; try discriminate. eauto.
Qed.

Lemma and_then_raise {W A B} (m : eff W A) (k : A -> eff W B) w w' e :
  and_then m k w = (w', Raise e) ->
  m w = (w', Raise e) \/ exists a w1, m w = (w1, Ok a) /\ k a w1 = (w', Raise e).
Proof.
  unfold and_then. destruct (m w) as [w1 [a| |]]; try discriminate; [eauto|].
  intros [= <- <-]. now left.
Qed.

(** A post made without OpenAI has read the title. *)
Lemma basic_post_title env video_info transcript_text w w' content :
  basic_post env video_info transcript_text w = (w', Ok content) ->
  exists title, (do title <- getitem video_info "title"; format_value title) = Ok title.
Proof.
  unfold basic_post. intros H.
  apply and_then_ok in H as (summary & w1 & _ & H).
  apply and_then_ok in H as (sentences & w2 & _ & H).
  apply and_then_ok in H as (title & w3 & Ht & _).
  unfold of_result in Ht. injection Ht as _ Ht. eauto.
Qed.

Lemma video_name_ok video_info name :
  video_name video_info = Ok name ->
  exists video_id, getitem video_info "id" = Ok video_id /\ format_value video_id = Ok name.
Proof.
  unfold video_name. destruct (getitem video_info "id") as [video_id| |]; try discriminate.
  simpl. eauto.
Qed.

(** The statements of [create_blog_post] after the text of the post is
    made, for a video whose identifier reads as [name]. *)
Lemma saving_the_post env video_info name content w w' r :
  video_name video_info = Ok name ->
  (exec video_id <- of_result (getitem video_info "id");
   exec output_dir <- _get_output_path env video_id "blogs";
   exec _ <- of_result (call (blog_makedirs env output_dir));
   exec name <- of_result (format_value video_id);
   let blog_file_path := path_join output_dir (name +:+ "_blog.md") in
   exec _ <- write_text env blog_file_path content;
   exec _ <- noting INFO ("Blog post created: " +:+ blog_file_path);
   done blog_file_path) w = (w', r) ->
  match r with
  | Ok p =>
      p = blog_path env name
      /\ blog_open env (blog_path env name) = Returns tt
      /\ blog_write env (blog_path env name) content = Returns tt
      /\ w' = mkWritten (blog_files w ++ [(p, content)])%list (blog_opened w ++ [p])%list
                (blog_log w ++ [(INFO, "Blog post created: " +:+ p)])%list
  | Raise e =>
      blog_files w' = blog_files w /\ blog_log w' = blog_log w
      /\ (blog_opened w' = blog_opened w
          \/ (blog_open env (blog_path env name) = Returns tt
              /\ blog_write env (blog_path env name) content = Raises e
              /\ blog_opened w' = (blog_opened w ++ [blog_path env name])%list))
  | Unmodelled => False
  end.
Proof.
  intros Hn. apply video_name_ok in Hn as (video_id & Hid & Hname).
  unfold _get_output_path, and_then, of_result, done, noting, write_text, blog_path.
  rewrite Hid, Hname. cbv zeta.
  destruct (blog_makedirs env (path_join (blog_output_path env) "blogs")) as [[]|e1];
    cbn [call]; [|intros [= <- <-]; auto].
  destruct (blog_makedirs env _) as [[]|e2]; cbn [call]; [|intros [= <- <-]; auto].
  destruct (blog_open env _) as [[]|e3] eqn:Eo; [|intros [= <- <-]; auto].
  destruct (blog_write env _ content) as [[]|e4] eqn:Ew; intros [= <- <-];
    cbn [blog_files blog_opened blog_log].
  - auto.
  - split_and!; auto.
Qed.

(** X30: when [create_blog_post] returns, it has opened and written one
    file, the one whose path it returns, [<id>_blog.md] in the directory
    [blogs/<id>] of the output path; with an OpenAI key and an answer that
    is not empty the file holds the answer as it is.  When it raises, the
    last record of the log is the error it raises and no text was written:
    either no file was touched, or the file of the post was opened, so
    created or emptied, and the writing of its text raised.  With an OpenAI
    key, an answer that is not empty, a title and an identifier that read
    as texts, and directories and a file that can be made and written, it
    returns. *)
Theorem blog_is_written (env : BlogEnv) (video_info : json)
    (transcript : list TranscriptEntry) (w : Written) :
  (forall w' p,
      create_blog_post env video_info transcript w = (w', Ok p) ->
      exists name content,
        video_name video_info = Ok name
        /\ p = blog_path env name
        /\ blog_files w' = (blog_files w ++ [(p, content)])%list
        /\ blog_opened w' = (blog_opened w ++ [p])%list
        /\ (forall answer,
              blog_api_key env <> "" -> blog_completion env = Returns (Some answer) ->
              answer <> "" -> content = answer))
  /\ (forall w' e,
        create_blog_post env video_info transcript w = (w', Raise e) ->
        blog_files w' = blog_files w
        /\ (blog_opened w' = blog_opened w
            \/ exists name content,
                 video_name video_info = Ok name
                 /\ blog_open env (blog_path env name) = Returns tt
                 /\ blog_write env (blog_path env name) content = Raises e
                 /\ blog_opened w' = (blog_opened w ++ [blog_path env name])%list)
        /\ last (blog_log w') = Some (ERROR, "Error creating blog post: " +:+ exn_str e))
  /\ (forall name title answer,
        blog_api_key env <> "" -> blog_completion env = Returns (Some answer) ->
        answer <> "" ->
        video_name video_info = Ok name ->
        (do title <- getitem video_info "title"; format_value title) = Ok title ->
        (forall path, blog_makedirs env path = Returns tt) ->
        blog_open env (blog_path env name) = Returns tt ->
        blog_write env (blog_path env name) answer = Returns tt ->
        create_blog_post env video_info transcript w
        = (mkWritten (blog_files w ++ [(blog_path env name, answer)])%list
             (blog_opened w ++ [blog_path env name])%list
             (blog_log w ++ [(INFO, "Blog post created: " +:+ blog_path env name)])%list,
           Ok (blog_path env name))).
Proof.
  unfold create_blog_post. cbv zeta.
  set (transcript_text := join " " (map text transcript)).
  set (first_part := if negb (blog_api_key env =? "") then _ else _).
  assert (logs_only first_part) as Hfirst by (unfold first_part; auto 10 with blog).
  set (text_of := fun blog_content : option string =>
                    if falsy blog_content then basic_post env video_info transcript_text
                    else done (default "" blog_content)).
  assert (forall c, logs_only (text_of c)) as Htext.
  { intros c. unfold text_of. destruct (falsy c); [apply logs_only_basic_post|].
    apply logs_only_done. }
  split_and!.
  - intros w' p H. unfold except in H.
    match type of H with
    | context [match ?m w with _ => _ end] => destruct (m w) as [w0 [p0|e0|]] eqn:E
    end; try discriminate.
    injection H as -> ->.
    apply and_then_ok in E as (blog_content & w1 & E1 & E).
    apply and_then_ok in E as (content & w2 & E2 & E).
    destruct (Hfirst _ _ _ E1) as [F1 O1].
    destruct (Htext blog_content _ _ _ E2) as [F2 O2].
    assert (exists name, video_name video_info = Ok name) as [name Hname].
    { unfold video_name. unfold and_then at 1, of_result at 1 in E.
      destruct (getitem video_info "id") as [video_id| |]; try discriminate.
      apply and_then_ok in E as (output_dir & w4 & E4 & E).
      unfold _get_output_path in E4.
      apply and_then_ok in E4 as ([] & w9 & _ & E4).
      apply and_then_ok in E4 as (name & w10 & E4 & _).
      unfold of_result in E4. injection E4 as _ E4. simpl. eauto. }
    pose proof (saving_the_post env video_info name content w2 w' (Ok p) Hname E)
      as (-> & _ & _ & ->).
    cbn [blog_files blog_opened].
    exists name, content. split_and!; [exact Hname | reflexivity | congruence | congruence |].
    intros answer Hkey Hanswer Hne.
    assert (blog_content = Some answer) as ->.
    { unfold first_part in E1. apply String.eqb_neq in Hkey. rewrite Hkey in E1.
      cbn [negb] in E1. unfold except, and_then at 1, of_result at 1 in E1.
      destruct (bind (getitem video_info "title") _) as [title|x|] eqn:Et.
      - rewrite Hanswer in E1. unfold of_result in E1. cbn [call] in E1. congruence.
      - unfold and_then, noting, done in E1. injection E1 as _ <-.
        unfold text_of in E2. cbn [falsy String.eqb] in E2.
        apply basic_post_title in E2 as (title & Ht).
        simpl in Ht, Et. congruence.
      - discriminate. }
    destruct answer as [|c answer]; [congruence|].
    unfold text_of in E2. cbn [falsy String.eqb] in E2. unfold done in E2.
    now injection E2 as _ <-.
  - intros w' e H. unfold except in H.
    match type of H with
    | context [match ?m w with _ => _ end] => destruct (m w) as [w0 [p0|e0|]] eqn:E
    end; try discriminate.
    unfold and_then, noting, of_result in H. injection H as <- <-.
    cbn [blog_files blog_opened blog_log].
    enough (blog_files w0 = blog_files w
            /\ (blog_opened w0 = blog_opened w
                \/ exists name content,
                     video_name video_info = Ok name
                     /\ blog_open env (blog_path env name) = Returns tt
                     /\ blog_write env (blog_path env name) content = Raises e0
                     /\ blog_opened w0 = (blog_opened w ++ [blog_path env name])%list))
      as [HF HO] by (split_and!; [exact HF | exact HO | apply last_snoc]).
    apply and_then_raise in E as [E | (blog_content & w1 & E1 & E)];
      [apply Hfirst in E as [? ?]; auto|].
    destruct (Hfirst _ _ _ E1) as [F1 O1].
    apply and_then_raise in E as [E | (content & w2 & E2 & E)];
      [apply Htext in E as [? ?]; split; [congruence | left; congruence]|].
    destruct (Htext blog_content _ _ _ E2) as [F2 O2].
    destruct (video_name video_info) as [name| |] eqn:Hname.
    + pose proof (saving_the_post env video_info name content w2 w0 (Raise e0) Hname E)
        as (F3 & _ & [O3 | (Ho & Hw & O3)]).
      * split; [congruence | left; congruence].
      * split; [congruence|]. right. exists name, content.
        split_and!; [reflexivity | exact Ho | exact Hw | congruence].
    + unfold video_name in Hname. unfold and_then at 1, of_result at 1 in E.
      destruct (getitem video_info "id") as [video_id| |];
        [|injection E as <- _; split; [congruence | left; congruence] | discriminate].
      simpl in Hname.
      unfold _get_output_path, and_then, of_result, done in E. rewrite Hname in E.
      destruct (call (blog_makedirs env _)) as [[]| |]; try discriminate;
        injection E as <- _; (split; [congruence | left; congruence]).
    + unfold video_name in Hname. unfold and_then at 1, of_result at 1 in E.
      destruct (getitem video_info "id") as [video_id| |]; try discriminate.
      simpl in Hname.
      unfold _get_output_path, and_then, of_result, done in E. rewrite Hname in E.
      destruct (call (blog_makedirs env _)) as [[]| |]; try discriminate;
        injection E as <- _; (split; [congruence | left; congruence]).
  - intros name title answer Hkey Hanswer Hne Hname Htitle Hdirs Hopen Hwrite.
    unfold except.
    assert (first_part w = (w, Ok (Some answer))) as E1.
    { unfold first_part. apply String.eqb_neq in Hkey. rewrite Hkey. cbn [negb].
      unfold except, and_then, of_result. rewrite Htitle, Hanswer. reflexivity. }
    unfold and_then at 1. rewrite E1.
    destruct answer as [|c answer]; [congruence|].
    apply video_name_ok in Hname as (video_id & Hid & Hnm).
    unfold blog_path in *.
    unfold _get_output_path, and_then, of_result, done, noting, write_text.
    cbn [falsy String.eqb default from_option id].
    rewrite Hid. cbv beta iota zeta. rewrite !Hdirs. cbn [call]. cbv beta iota zeta.
    rewrite Hnm. cbv beta iota zeta. rewrite !Hdirs. cbn [call]. cbv beta iota zeta.
    rewrite Hopen, Hwrite. reflexivity.
Qed.

(** With an OpenAI key, the answer is what the file holds. *)
Example blog_from_openai :
  create_blog_post env_blog_openai video_record [] (mkWritten [] [] [])
  = (mkWritten [("./output/blogs/abcdefghijk/abcdefghijk_blog.md", "A post about the video.")]
       ["./output/blogs/abcdefghijk/abcdefghijk_blog.md"]
       [(INFO, "Blog post created: ./output/blogs/abcdefghijk/abcdefghijk_blog.md")],
     Ok "./output/blogs/abcdefghijk/abcdefghijk_blog.md").
Proof. vm_compute. reflexivity. Qed.

(** Without a title nothing is written. *)
Example blog_without_title :
  create_blog_post env_blog (JDict [("id", JStr "abcdefghijk")]) [] (mkWritten [] [] [])
  = (mkWritten [] [] [(ERROR, "Error creating blog post: 'title'")],
     Raise (Exn "KeyError" "'title'")).
Proof. vm_compute. reflexivity. Qed.

(** A write that raises leaves the file of the post opened, with no text
    written, and [create_blog_post] raises. *)
Example blog_on_a_full_disk :
  create_blog_post env_blog_disk_full video_record [] (mkWritten [] [] [])
  = (mkWritten [] ["./output/blogs/abcdefghijk/abcdefghijk_blog.md"]
       [(ERROR, "Error creating blog post: [Errno 28] No space left on device")],
     Raise (Exn "OSError" "[Errno 28] No space left on device")).
Proof. vm_compute. reflexivity. Qed.

End BlogPost.
